(** * gcore-mcp-server: a shallow embedding of the configuration, schema,
    discovery and binding code, and the properties checked against it.

    Python values are modelled as follows.
    - [str] is [string]; every character is one code point below 256.
    - a [dict] used as a lookup table (rule tables, toolset tables,
      keyword arguments, the process environment) is a [gmap];
      [dict.update] is the right-biased union, written [d2 ∪ d1] for
      [d1.update(d2)] because [∪] on [gmap] prefers its left operand.
    - a [dict] whose order shows (a schema fragment, the method catalog,
      a wrapper's annotations) is an association list in insertion
      order, as Python dictionaries keep it.
    - a [set] is a [gset].
    - module-level mutable state (the inspection cache) is an explicit
      state record; dictionaries with an identity live in a heap indexed
      by locations.
    - what the code obtains from outside (reflection on SDK objects and
      type annotations, [json.loads], the SDK call) is data of the
      objects or a variable of a section.
    - [print] and the log records no property depends on are left out. *)

From Stdlib Require Import Ascii ZArith.
From stdpp Require Import base option list sorting gmap fin_maps strings.

Local Open Scope Z_scope.
Set Warnings "-register-all".

(* ================================================================== *)
(** * Python string primitives *)
(* ================================================================== *)

Module PyStr.

(** [len(s)] *)
Definition len (s : string) : Z := Z.of_nat (String.length s).

(** The first [n] characters of [s] (all of [s] when it is shorter). *)
Fixpoint take (n : nat) (s : string) : string :=
  match n, s with
  | O, _ => EmptyString
  | S _, EmptyString => EmptyString
  | S n', String c s' => String c (take n' s')
  end.

(** [s] without its first [n] characters. *)
Fixpoint drop (n : nat) (s : string) : string :=
  match n, s with
  | O, _ => s
  | S _, EmptyString => EmptyString
  | S n', String _ s' => drop n' s'
  end.

(** [s[start:-back]] for [start] and [back] counted in characters. *)
Definition slice_between (s : string) (start back : nat) : string :=
  take (String.length s - back - start) (drop start s).

(** [s[:stop]]: a negative [stop] counts from the end of the string. *)
Definition slice_to (s : string) (stop : Z) : string :=
  if bool_decide (0 ≤ stop) then take (Z.to_nat stop) s
  else take (Z.to_nat (len s + stop)) s.

(** [s.split(sep)] for a one-character separator: never empty. *)
Fixpoint split (sep : ascii) (s : string) : list string :=
  match s with
  | EmptyString => [EmptyString]
  | String c s' =>
      if bool_decide (c = sep) then EmptyString :: split sep s'
      else match split sep s' with
           | [] => [String c EmptyString]
           | part :: parts => String c part :: parts
           end
  end.

(** [sep.join(parts)] *)
Fixpoint join (sep : string) (parts : list string) : string :=
  match parts with
  | [] => EmptyString
  | [part] => part
  | part :: rest => part +:+ sep +:+ join sep rest
  end.

(** [c in s] for a character [c]. *)
Fixpoint contains_char (c : ascii) (s : string) : bool :=
  match s with
  | EmptyString => false
  | String c' s' => bool_decide (c' = c) || contains_char c s'
  end.

(** [s.startswith(prefix)] *)
Fixpoint startswith (s prefix : string) : bool :=
  match prefix, s with
  | EmptyString, _ => true
  | String _ _, EmptyString => false
  | String p prefix', String c s' =>
      bool_decide (c = p) && startswith s' prefix'
  end.

(** [s.endswith(suffix)] *)
Definition endswith (s suffix : string) : bool :=
  startswith (String.rev s) (String.rev suffix).

(** [sub in s] for a string [sub]. *)
Fixpoint contains (sub s : string) : bool :=
  startswith s sub ||
  match s with
  | EmptyString => false
  | String _ s' => contains sub s'
  end.

(** The characters [str.isspace] accepts, among code points below 256. *)
Definition is_space (c : ascii) : bool :=
  let n := nat_of_ascii c in
  ((9 <=? n) && (n <=? 13) || (28 <=? n) && (n <=? 32)
   || (n =? 133) || (n =? 160))%nat.

Fixpoint lstrip (s : string) : string :=
  match s with
  | EmptyString => EmptyString
  | String c s' => if is_space c then lstrip s' else s
  end.

(** [s.strip()] *)
Definition strip (s : string) : string :=
  String.rev (lstrip (String.rev (lstrip s))).

(** Truthiness of a string: non-empty. *)
Definition truthy (s : string) : bool :=
  match s with EmptyString => false | String _ _ => true end.

End PyStr.

(** A dictionary literal: later bindings of a key replace earlier ones. *)
Definition dict_of {V} (items : list (string * V)) : gmap string V :=
  foldl (λ d kv, <[kv.1 := kv.2]> d) ∅ items.

(** [list(dict.fromkeys(l))]: the first occurrence of every element, in
    order. *)
Fixpoint dedup_keep_first (seen : list string) (l : list string)
  : list string :=
  match l with
  | [] => []
  | x :: l' =>
      if bool_decide (x ∈ seen) then dedup_keep_first seen l'
      else x :: dedup_keep_first (x :: seen) l'
  end.

Definition fromkeys (l : list string) : list string := dedup_keep_first [] l.

(** [sorted(list(keys))] for a set of strings. *)
Definition sorted_strings (keys : gset string) : list string :=
  merge_sort String.le (elements keys).

(* ================================================================== *)
(** * JSON values and schema fragments *)
(* ================================================================== *)

(** A JSON-compatible Python value.  A float, or any other object put
    into a fragment verbatim, is kept by its [repr]. *)
Inductive json : Type :=
| JNull
| JBool (b : bool)
| JInt (n : Z)
| JFloat (repr : string)
| JStr (s : string)
| JOpaque (repr : string)
| JList (items : list json)
| JObj (entries : list (string * json)).

(** [v is None] *)
Definition is_None (v : json) : bool :=
  match v with JNull => true | _ => false end.

(** A Python [dict] with string keys, in insertion order. *)
Abbreviation odict V := (list (string * V)).

(** A schema fragment. *)
Abbreviation schema := (odict json).

Module PyDict.
Section ops.
Context {V : Type}.

(** [d.get(key)] *)
Fixpoint get (key : string) (d : odict V) : option V :=
  match d with
  | [] => None
  | (k, v) :: d' => if bool_decide (k = key) then Some v else get key d'
  end.

(** [key in d] *)
Definition has (key : string) (d : odict V) : bool :=
  bool_decide (is_Some (get key d)).

(** [d[key] = v]: an existing key keeps its position. *)
Fixpoint set (key : string) (v : V) (d : odict V) : odict V :=
  match d with
  | [] => [(key, v)]
  | (k, w) :: d' =>
      if bool_decide (k = key) then (k, v) :: d'
      else (k, w) :: set key v d'
  end.
End ops.

(** [d[key] += suffix] on a string entry; the descriptions this is used
    on are strings in every fragment the translator builds and in the
    schemas Pydantic exports. *)
Definition add_str (key suffix : string) (d : schema) : schema :=
  match get key d with
  | Some (JStr s) => set key (JStr (s +:+ suffix)) d
  | _ => d
  end.

(** [d.get(key, "")] read as a string. *)
Definition get_str (key : string) (d : schema) : string :=
  match get key d with
  | Some (JStr s) => s
  | _ => EmptyString
  end.

End PyDict.

(** The double quote character as a one-character string. *)
Definition dq : string := String (ascii_of_nat 34) EmptyString.
(** The line feed character. *)
Definition LF : ascii := ascii_of_nat 10.

(* ================================================================== *)
(** * domain/gcore_domain.py *)
(* ================================================================== *)

Module GcoreDomainHandler.

Definition GCORE_SPECIAL_PARAMETERS : gset string :=
  {[ "volumes"; "interfaces"; "security_groups"; "flavors"; "networks";
     "instances"; "projects"; "regions" ]}.

Definition parameter_descriptions : gmap string string :=
  dict_of [
    ("volumes",
     "List of volume configurations. Each item can define a volume from an image, snapshot, or refer to an existing volume. Example for a boot volume from image: `[{"
       +:+ dq +:+ "source" +:+ dq +:+ ": " +:+ dq +:+ "image" +:+ dq +:+ ", "
       +:+ dq +:+ "image_id" +:+ dq +:+ ": " +:+ dq +:+ "..." +:+ dq +:+ ", "
       +:+ dq +:+ "boot_index" +:+ dq +:+ ": 0, " +:+ dq +:+ "size" +:+ dq
       +:+ ": 50}]`. Example for an existing volume: `[{" +:+ dq +:+ "id"
       +:+ dq +:+ ": " +:+ dq +:+ "..." +:+ dq +:+ "}]`.");
    ("interfaces",
     "List of network interface configurations. Example: `[{" +:+ dq
       +:+ "type" +:+ dq +:+ ": " +:+ dq +:+ "external" +:+ dq +:+ ", " +:+ dq
       +:+ "network_id" +:+ dq +:+ ": " +:+ dq +:+ "..." +:+ dq +:+ "}]`");
    ("security_groups",
     "List of security group UUIDs. Example: `[" +:+ dq +:+ "<sg_uuid1>"
       +:+ dq +:+ ", " +:+ dq +:+ "<sg_uuid2>" +:+ dq +:+ "]`")
  ].

Definition get_parameter_description
    (param_name base_description : string) : string :=
  default base_description (parameter_descriptions !! param_name).

Definition parameter_examples : gmap string (list json) :=
  dict_of [
    ("volumes",
     [JList [JObj [("source", JStr "image"); ("image_id", JStr "<image_uuid>"); ("boot_index", JInt 0); ("size", JInt 50)]];
      JList [JObj [("id", JStr "<existing_volume_uuid>")]]]);
    ("interfaces",
     [JList [JObj [("type", JStr "external"); ("network_id", JStr "<network_uuid>")]];
      JList [JObj [("type", JStr "internal"); ("subnet_id", JStr "<subnet_uuid>"); ("security_groups", JList [JStr "<sg_uuid>"])]]]);
    ("security_groups",
     [JList [JStr "<sg_uuid1>"; JStr "<sg_uuid2>"]])
  ].

Definition get_parameter_examples (param_name : string) : list json :=
  default [] (parameter_examples !! param_name).

Definition get_union_type_description_enhancement
    (param_name base_description : string) : string :=
  if bool_decide (param_name = "volumes") then
    base_description +:+
    ". Example for a boot volume: `{" +:+ dq +:+ "source" +:+ dq +:+ ": "
      +:+ dq +:+ "image" +:+ dq +:+ ", " +:+ dq +:+ "image_id" +:+ dq +:+ ": "
      +:+ dq +:+ "..." +:+ dq +:+ ", " +:+ dq +:+ "boot_index" +:+ dq
      +:+ ": 0, " +:+ dq +:+ "size" +:+ dq +:+ ": 50}`"
  else base_description.

Definition get_json_conversion_parameters : gset string :=
  {[ "volumes"; "interfaces"; "security_groups" ]}.

Definition is_special_parameter (param_name : string) : bool :=
  bool_decide (param_name ∈ GCORE_SPECIAL_PARAMETERS).

Definition get_resource_shortening_rules : gmap string string :=
  dict_of [
    ("instances", "insts");
    ("flavors", "flavs");
    ("images", "imgs");
    ("snapshots", "snaps");
    ("volumes", "vols");
    ("networks", "nets");
    ("subnets", "subs");
    ("routers", "rtrs");
    ("ports", "ports");
    ("floating_ips", "fips");
    ("reserved_fixed_ips", "rfips");
    ("load_balancers", "lb");
    ("listeners", "lnrs");
    ("pools", "pools");
    ("members", "mbrs");
    ("health_monitors", "hms");
    ("l7policies", "l7pols");
    ("l7rules", "l7rules");
    ("security_groups", "secgrps");
    ("security_group_rules", "secgrp_rules");
    ("placement_groups", "placegrps");
    ("ssh_keys", "sshkeys");
    ("keypairs", "keypairs");
    ("quotas", "quotas");
    ("projects", "projs");
    ("regions", "rgns");
    ("secrets", "secr");
    ("clusters", "clstrs");
    ("nodes", "nodes");
    ("registries", "regs");
    ("file_shares", "fshares");
    ("ai_clusters", "ai_clstrs");
    ("inference", "infer");
    ("deployments", "deploys")
  ].

Definition get_method_shortening_rules : gmap string string :=
  dict_of [
    ("create", "new");
    ("delete", "del");
    ("list", "ls");
    ("update", "upd");
    ("replace", "repl");
    ("assign_security_group", "assign_secgrp");
    ("unassign_security_group", "unassign_secgrp");
    ("add_to_placement_group", "add_placegrp");
    ("remove_from_placement_group", "rm_placegrp");
    ("disable_port_security", "dis_portsec");
    ("enable_port_security", "en_portsec");
    ("get_console", "console");
    ("resize", "resize");
    ("action", "action");
    ("create_from_volume", "new_vol");
    ("upload", "upload");
    ("download", "download");
    ("change_type", "chg_type");
    ("revert_to_last_snapshot", "revert_snap");
    ("attach_to_instance", "att_inst");
    ("detach_from_instance", "det_inst");
    ("extend", "extend");
    ("create_snapshot", "snap");
    ("revert", "revert");
    ("get_capacity_by_region", "get_cap_region");
    ("attach_subnet", "att_sub");
    ("detach_subnet", "det_sub");
    ("attach_router", "att_rtr");
    ("detach_router", "det_rtr");
    ("add_member", "add_mbr");
    ("remove_member", "rm_mbr");
    ("failover", "failover");
    ("copy", "copy");
    ("revert_to_default", "revert_def");
    ("hard_reboot", "hard_reboot");
    ("soft_reboot", "soft_reboot");
    ("start", "start");
    ("stop", "stop");
    ("suspend", "suspend");
    ("resume", "resume");
    ("rebuild", "rebuild")
  ].

Definition get_toolset_definitions : gmap string (list string) :=
  dict_of [
    ("instances",
     [
       "cloud.instances.create";
       "cloud.instances.list";
       "cloud.instances.get";
       "cloud.instances.update";
       "cloud.instances.delete";
       "cloud.instances.assign_security_group";
       "cloud.instances.unassign_security_group";
       "cloud.instances.resize";
       "cloud.instances.get_console";
       "cloud.instances.add_to_placement_group";
       "cloud.instances.remove_from_placement_group";
       "cloud.instances.disable_port_security";
       "cloud.instances.enable_port_security";
       "cloud.instances.action";
       "cloud.instances.flavors.list";
       "cloud.instances.flavors.list_suitable";
       "cloud.instances.flavors.list_for_resize";
       "cloud.instances.interfaces.list";
       "cloud.instances.interfaces.attach";
       "cloud.instances.interfaces.detach";
       "cloud.instances.images.create_from_volume";
       "cloud.instances.images.list";
       "cloud.instances.images.get";
       "cloud.instances.images.update";
       "cloud.instances.images.delete";
       "cloud.instances.images.upload";
       "cloud.instances.metrics.list"
     ]);
    ("baremetal",
     [
       "cloud.baremetal.create";
       "cloud.baremetal.list";
       "cloud.baremetal.get";
       "cloud.baremetal.update";
       "cloud.baremetal.delete";
       "cloud.baremetal.action";
       "cloud.baremetal.resize";
       "cloud.baremetal.get_console";
       "cloud.baremetal.assign_security_group";
       "cloud.baremetal.unassign_security_group";
       "cloud.baremetal.add_to_placement_group";
       "cloud.baremetal.remove_from_placement_group";
       "cloud.baremetal.disable_port_security";
       "cloud.baremetal.enable_port_security";
       "cloud.baremetal.flavors.list";
       "cloud.baremetal.flavors.list_suitable";
       "cloud.baremetal.interfaces.list";
       "cloud.baremetal.interfaces.attach";
       "cloud.baremetal.interfaces.detach";
       "cloud.baremetal.metrics.list"
     ]);
    ("gpu",
     [
       "cloud.gpu_baremetal_clusters.create";
       "cloud.gpu_baremetal_clusters.list";
       "cloud.gpu_baremetal_clusters.get";
       "cloud.gpu_baremetal_clusters.update";
       "cloud.gpu_baremetal_clusters.delete";
       "cloud.gpu_baremetal_clusters.flavors.list";
       "cloud.gpu_baremetal_clusters.servers.create";
       "cloud.gpu_baremetal_clusters.servers.list";
       "cloud.gpu_baremetal_clusters.servers.get";
       "cloud.gpu_baremetal_clusters.servers.delete";
       "cloud.gpu_baremetal_clusters.images.list";
       "cloud.gpu_baremetal_clusters.images.get";
       "cloud.gpu_baremetal_clusters.images.update";
       "cloud.gpu_baremetal_clusters.images.delete"
     ]);
    ("networking",
     [
       "cloud.networks.create";
       "cloud.networks.list";
       "cloud.networks.get";
       "cloud.networks.update";
       "cloud.networks.delete";
       "cloud.networks.subnets.create";
       "cloud.networks.subnets.list";
       "cloud.networks.subnets.get";
       "cloud.networks.subnets.update";
       "cloud.networks.subnets.delete";
       "cloud.networks.routers.create";
       "cloud.networks.routers.list";
       "cloud.networks.routers.get";
       "cloud.networks.routers.update";
       "cloud.networks.routers.delete";
       "cloud.networks.routers.attach_subnet";
       "cloud.networks.routers.detach_subnet";
       "cloud.floating_ips.create";
       "cloud.floating_ips.list";
       "cloud.floating_ips.get";
       "cloud.floating_ips.update";
       "cloud.floating_ips.delete";
       "cloud.reserved_fixed_ips.create";
       "cloud.reserved_fixed_ips.list";
       "cloud.reserved_fixed_ips.get";
       "cloud.reserved_fixed_ips.update";
       "cloud.reserved_fixed_ips.delete";
       "cloud.load_balancers.create";
       "cloud.load_balancers.list";
       "cloud.load_balancers.get";
       "cloud.load_balancers.update";
       "cloud.load_balancers.delete";
       "cloud.load_balancers.flavors.list";
       "cloud.load_balancers.listeners.create";
       "cloud.load_balancers.listeners.list";
       "cloud.load_balancers.listeners.get";
       "cloud.load_balancers.listeners.update";
       "cloud.load_balancers.listeners.delete";
       "cloud.load_balancers.pools.create";
       "cloud.load_balancers.pools.list";
       "cloud.load_balancers.pools.get";
       "cloud.load_balancers.pools.update";
       "cloud.load_balancers.pools.delete";
       "cloud.load_balancers.l7policies.create";
       "cloud.load_balancers.l7policies.list";
       "cloud.load_balancers.l7policies.get";
       "cloud.load_balancers.l7policies.update";
       "cloud.load_balancers.l7policies.delete"
     ]);
    ("security",
     [
       "cloud.security_groups.create";
       "cloud.security_groups.list";
       "cloud.security_groups.get";
       "cloud.security_groups.update";
       "cloud.security_groups.delete";
       "cloud.security_groups.copy";
       "cloud.security_groups.revert_to_default";
       "cloud.security_groups.rules.create";
       "cloud.security_groups.rules.replace";
       "cloud.security_groups.rules.delete";
       "cloud.ssh_keys.create";
       "cloud.ssh_keys.list";
       "cloud.ssh_keys.get";
       "cloud.ssh_keys.update";
       "cloud.ssh_keys.delete";
       "cloud.secrets.create";
       "cloud.secrets.list";
       "cloud.secrets.get";
       "cloud.secrets.update";
       "cloud.secrets.delete"
     ]);
    ("storage",
     [
       "cloud.volumes.create";
       "cloud.volumes.list";
       "cloud.volumes.get";
       "cloud.volumes.update";
       "cloud.volumes.delete";
       "cloud.volumes.resize";
       "cloud.volumes.change_type";
       "cloud.volumes.revert_to_last_snapshot";
       "cloud.volumes.attach_to_instance";
       "cloud.volumes.detach_from_instance";
       "cloud.volumes.snapshots.create";
       "cloud.volumes.snapshots.list";
       "cloud.volumes.snapshots.get";
       "cloud.volumes.snapshots.update";
       "cloud.volumes.snapshots.delete";
       "cloud.file_shares.create";
       "cloud.file_shares.list";
       "cloud.file_shares.get";
       "cloud.file_shares.update";
       "cloud.file_shares.delete";
       "cloud.file_shares.extend";
       "cloud.file_shares.get_capacity_by_region"
     ]);
    ("management",
     [
       "cloud.projects.create";
       "cloud.projects.list";
       "cloud.projects.get";
       "cloud.projects.update";
       "cloud.projects.delete";
       "cloud.regions.list";
       "cloud.regions.get";
       "cloud.placement_groups.create";
       "cloud.placement_groups.list";
       "cloud.placement_groups.get";
       "cloud.placement_groups.update";
       "cloud.placement_groups.delete";
       "cloud.tasks.list";
       "cloud.tasks.get";
       "cloud.tasks.acknowledge_all";
       "cloud.tasks.acknowledge_one";
       "cloud.quotas.list";
       "cloud.quotas.get"
     ]);
    ("ai",
     [
       "cloud.ai_clusters.create";
       "cloud.ai_clusters.list";
       "cloud.ai_clusters.get";
       "cloud.ai_clusters.update";
       "cloud.ai_clusters.delete";
       "cloud.inference.deployments.create";
       "cloud.inference.deployments.list";
       "cloud.inference.deployments.get";
       "cloud.inference.deployments.update";
       "cloud.inference.deployments.delete"
     ]);
    ("containers",
     [
       "cloud.registries.create";
       "cloud.registries.list";
       "cloud.registries.get";
       "cloud.registries.update";
       "cloud.registries.delete"
     ])
  ].

End GcoreDomainHandler.

(* ================================================================== *)
(** * config/settings.py: name shortening *)
(* ================================================================== *)

Module Settings.

Definition MAX_TOOL_NAME_LEN : Z := 60.

Definition additional_rules : gmap string string :=
  dict_of [
    ("interfaces", "ifaces");
    ("metrics", "metr");
    ("baremetal", "bm");
    ("gpu_baremetal_clusters", "gpu_bm_clusters");
    ("l7_policies", "l7pols");
    ("health_monitors", "health_mon");
    ("members", "membs");
    ("statuses", "stats");
    ("ip_ranges", "iprngs");
    ("rules", "rls");
    ("access_rules", "accessrls");
    ("repositories", "repos");
    ("artifacts", "arts");
    ("users", "usrs");
    ("tasks", "tsks");
    ("quotas", "qotas");
    ("requests", "reqs");
    ("role_assignments", "roleasgns");
    ("billing_reservations", "billresrvs");
    ("models", "mdls");
    ("logs", "logs");
    ("registry_credentials", "regcreds");
    ("resize", "resz");
    ("get_console", "get_con");
    ("action", "act");
    ("list_suitable", "ls_suit");
    ("list_for_resize", "ls_resz");
    ("attach", "att");
    ("detach", "det");
    ("upload", "upl");
    ("list", "ls");
    ("get", "get");
    ("powercycle_all_servers", "pwrall_srvs");
    ("reboot_all_servers", "rebootall_srvs");
    ("servers", "srvs");
    ("powercycle", "pwrcycle");
    ("failover", "failovr");
    ("remove", "rm");
    ("list_candidate_ports", "ls_cand_ports");
    ("list_connected_ports", "ls_conn_ports");
    ("replace_connected_ports", "repl_conn_ports");
    ("update_connected_ports", "upd_conn_ports");
    ("copy", "cp");
    ("change_type", "chng_type");
    ("create_multiple", "new_multi");
    ("refresh_secret", "refresh_secr");
    ("acknowledge_all", "ack_all");
    ("acknowledge_one", "ack_one");
    ("upload_tls_certificate", "upl_tls_cert");
    ("get_api_key", "get_apikey")
  ].

Definition get_shortening_rules : gmap string string :=
  let rules : gmap string string := ∅ in
  let rules := GcoreDomainHandler.get_resource_shortening_rules ∪ rules in
  let rules := GcoreDomainHandler.get_method_shortening_rules ∪ rules in
  let rules := additional_rules ∪ rules in
  rules.

(** The body of [generate_short_tool_name] over a given rule table. *)
Definition short_name_with (shortening_rules : gmap string string)
    (original_dot_name : string) (max_len : Z) : string :=
  let parts := PyStr.split "." original_dot_name in
  let shortened_parts :=
    (λ part, default part (shortening_rules !! part)) <$> parts in
  let short_name_untruncated := PyStr.join "." shortened_parts in
  if bool_decide (PyStr.len short_name_untruncated ≤ max_len)
  then short_name_untruncated
  else PyStr.slice_to short_name_untruncated max_len.

Definition generate_short_tool_name_len
    (original_dot_name : string) (max_len : Z) : string :=
  short_name_with get_shortening_rules original_dot_name max_len.

(** [generate_short_tool_name(name)] with the default [max_len]. *)
Definition generate_short_tool_name (original_dot_name : string) : string :=
  generate_short_tool_name_len original_dot_name MAX_TOOL_NAME_LEN.

End Settings.

(* ================================================================== *)
(** * The fragment of Python's [re] the configuration code relies on *)
(* ================================================================== *)

Module Re.

(** The characters [re.escape] prefixes with a backslash:
    [()[]{}?*+-|^$\.&~#], space, tab, LF, CR, VT and FF. *)
Definition special_chars : list ascii :=
  ["("; ")"; "["; "]"; "{"; "}"; "?"; "*"; "+"; "-"; "|"; "^"; "$";
   "\"; "."; "&"; "~"; "#"; " ";
   ascii_of_nat 9; ascii_of_nat 10; ascii_of_nat 13; ascii_of_nat 11;
   ascii_of_nat 12]%char.

Definition is_special (c : ascii) : bool := bool_decide (c ∈ special_chars).

(** [re.escape(pattern)] *)
Fixpoint escape (pattern : string) : string :=
  match pattern with
  | EmptyString => EmptyString
  | String c rest =>
      if is_special c then String "\" (String c (escape rest))
      else String c (escape rest)
  end.

(** [s.replace(r"\*", r".*")]: every non-overlapping occurrence of a
    backslash followed by a star, scanning from the left. *)
Fixpoint replace_escaped_star (s : string) : string :=
  match s with
  | EmptyString => EmptyString
  | String c rest =>
      match rest with
      | String c' rest' =>
          if bool_decide (c = "\"%char) && bool_decide (c' = "*"%char)
          then String "." (String "*" (replace_escaped_star rest'))
          else String c (replace_escaped_star rest)
      | EmptyString => String c EmptyString
      end
  end.

(** Regular expression syntax: single characters, the dot, and the
    star quantifier applied to either. *)
Inductive atom : Type :=
| Lit (c : ascii)
| AnyChar.

Inductive item : Type :=
| One (a : atom)
| Star (a : atom).

(** Characters with a meaning of their own in a pattern. *)
Definition is_meta (c : ascii) : bool :=
  bool_decide (c ∈ ["("; ")"; "["; "]"; "{"; "}"; "?"; "*"; "+"; "|";
                    "^"; "$"; "\"; "."]%char).

(** ASCII letters, digits and the underscore: a backslash before one of
    them is a class or an anchor, not a literal. *)
Definition is_word (c : ascii) : bool :=
  let n := nat_of_ascii c in
  ((48 <=? n) && (n <=? 57) || (65 <=? n) && (n <=? 90)
   || (97 <=? n) && (n <=? 122) || (n =? 95))%nat.

(** Compilation of a pattern; [None] for syntax outside the fragment. *)
Fixpoint parse (regex : string) : option (list item) :=
  match regex with
  | EmptyString => Some []
  | String c r1 =>
      if bool_decide (c = "\"%char) then
        match r1 with
        | EmptyString => None
        | String e r2 =>
            if is_word e then None
            else match r2 with
                 | String "*"%char r3 => cons (Star (Lit e)) <$> parse r3
                 | _ => cons (One (Lit e)) <$> parse r2
                 end
        end
      else if bool_decide (c = "."%char) then
        match r1 with
        | String "*"%char r2 => cons (Star AnyChar) <$> parse r2
        | _ => cons (One AnyChar) <$> parse r1
        end
      else if is_meta c then None
      else
        match r1 with
        | String "*"%char r2 => cons (Star (Lit c)) <$> parse r2
        | _ => cons (One (Lit c)) <$> parse r1
        end
  end.

(** Without [re.DOTALL] the dot matches everything but a line feed. *)
Definition atom_matches (a : atom) (c : ascii) : bool :=
  match a with
  | Lit c' => bool_decide (c = c')
  | AnyChar => negb (bool_decide (c = LF))
  end.

(** Does the compiled pattern match at the start of [s]?  Nothing is
    required of what follows the match. *)
Fixpoint match_here (r : list item) (s : string) : bool :=
  match r with
  | [] => true
  | One a :: r' =>
      match s with
      | EmptyString => false
      | String c s' => atom_matches a c && match_here r' s'
      end
  | Star a :: r' =>
      (fix star (s : string) : bool :=
         match_here r' s ||
         match s with
         | EmptyString => false
         | String c s' => atom_matches a c && star s'
         end) s
  end.

(** Truthiness of [re.match(regex, s)]. *)
Definition matches (regex s : string) : bool :=
  match parse regex with
  | Some r => match_here r s
  | None => false
  end.

End Re.

(* ================================================================== *)
(** * config/settings.py and config/toolsets.py: tool selection *)
(* ================================================================== *)

Module Config.

Import Settings.

Definition UNIFIED_TOOLS_ENV_VAR : string := "GCORE_TOOLS".

(** [convert_pattern_to_regex] *)
Definition convert_pattern_to_regex (pattern : string) : string :=
  let escaped := Re.escape pattern in
  let regex_pattern := Re.replace_escaped_star escaped in
  "^" +:+ regex_pattern +:+ "$".

(** The process environment; [os.getenv] is the lookup. *)
Abbreviation environ := (gmap string string).

(** The selection code over a toolset table and a default list, which
    the module binds once at import time. *)
Section selection.
Variable TOOLSETS : gmap string (list string).
Variable DEFAULT_TOOLSETS : list string.

(** [parse_unified_tool_config] *)
Definition parse_unified_tool_config (config_str : string)
  : list string * list string :=
  let entries :=
    PyStr.strip <$>
      filter (λ entry, PyStr.truthy (PyStr.strip entry) = true)
             (PyStr.split "," config_str) in
  foldl (λ '(toolset_names, pattern_filters) entry,
           if bool_decide (is_Some (TOOLSETS !! entry))
           then (toolset_names ++ [entry], pattern_filters)
           else (toolset_names, pattern_filters ++ [entry]))
        ([], []) entries.

(** [get_unified_tool_config] *)
Definition get_unified_tool_config (env : environ)
  : list string * list string :=
  match env !! UNIFIED_TOOLS_ENV_VAR with
  | Some unified_config =>
      if PyStr.truthy unified_config
      then parse_unified_tool_config unified_config
      else ([], [])
  | None => ([], [])
  end.

(** [get_active_toolset_names] *)
Definition get_active_toolset_names (env : environ) : list string :=
  let '(toolset_names, _) := get_unified_tool_config env in
  if negb (bool_decide (toolset_names = []))
     || bool_decide (is_Some (env !! UNIFIED_TOOLS_ENV_VAR))
  then toolset_names
  else DEFAULT_TOOLSETS.

(** The test the pattern loop applies to one pattern and one name. *)
Definition pattern_matches (pattern tool_name : string) : bool :=
  bool_decide (pattern = tool_name)
  || (PyStr.contains_char "*" pattern
      && Re.matches (Re.replace_escaped_star (Re.escape pattern))
                    tool_name).

(** The inner loop with its [break]: does any pattern match? *)
Definition matched_by_some (pattern_filters : list string)
    (tool_name : string) : bool :=
  existsb (λ pattern, pattern_matches pattern tool_name) pattern_filters.

(** [get_allowed_tools_list]; [all_available_tools] is [None] for the
    default argument. *)
Definition get_allowed_tools_list (env : environ)
    (all_available_tools : option (list string)) : list string :=
  let '(toolset_names, pattern_filters) := get_unified_tool_config env in
  let toolset_names :=
    if bool_decide (toolset_names = [])
       && bool_decide (pattern_filters = [])
       && bool_decide (env !! UNIFIED_TOOLS_ENV_VAR = None)
    then DEFAULT_TOOLSETS else toolset_names in
  let toolset_tools :=
    foldl (λ toolset_tools toolset_name,
             match TOOLSETS !! toolset_name with
             | Some tools => toolset_tools ++ tools
             | None => toolset_tools
             end) [] toolset_names in
  let toolset_tools := fromkeys toolset_tools in
  let pattern_matched_tools :=
    (* [None] and the empty list are both false *)
    let tools := default [] all_available_tools in
    if bool_decide (pattern_filters ≠ []) && bool_decide (tools ≠ [])
    then generate_short_tool_name <$>
           filter (λ tool_name,
                     matched_by_some pattern_filters tool_name = true)
                  tools
    else [] in
  fromkeys (toolset_tools ++ pattern_matched_tools).

(** [derive_allowed_resources] *)
Definition derive_allowed_resources (tool_list : list string) : list string :=
  let resources : gset string :=
    list_to_set
      (omap (λ tool, match PyStr.split "." tool with
                     | _ :: resource :: _ => Some resource
                     | _ => None
                     end) tool_list) in
  sorted_strings resources.
End selection.

Definition additional_toolsets : gmap string (list string) :=
  dict_of [
    ("baremetal",
     [
       "cloud.baremetal.images.list";
       "cloud.baremetal.flavors.list";
       "cloud.baremetal.flavors.list_suitable";
       "cloud.baremetal.servers.create";
       "cloud.baremetal.servers.list";
       "cloud.baremetal.servers.rebuild"
     ]);
    ("gpu_baremetal",
     [
       "cloud.gpu_baremetal_clusters.create";
       "cloud.gpu_baremetal_clusters.get";
       "cloud.gpu_baremetal_clusters.delete";
       "cloud.gpu_baremetal_clusters.list";
       "cloud.gpu_baremetal_clusters.rebuild";
       "cloud.gpu_baremetal_clusters.resize";
       "cloud.gpu_baremetal_clusters.powercycle_all_servers";
       "cloud.gpu_baremetal_clusters.reboot_all_servers";
       "cloud.gpu_baremetal_clusters.interfaces.list";
       "cloud.gpu_baremetal_clusters.servers.delete";
       "cloud.gpu_baremetal_clusters.servers.attach_interface";
       "cloud.gpu_baremetal_clusters.servers.detach_interface";
       "cloud.gpu_baremetal_clusters.servers.get_console";
       "cloud.gpu_baremetal_clusters.servers.powercycle";
       "cloud.gpu_baremetal_clusters.servers.reboot";
       "cloud.gpu_baremetal_clusters.flavors.list";
       "cloud.gpu_baremetal_clusters.images.upload";
       "cloud.gpu_baremetal_clusters.images.list";
       "cloud.gpu_baremetal_clusters.images.get";
       "cloud.gpu_baremetal_clusters.images.delete"
     ]);
    ("ai_ml",
     [
       "cloud.inference.get_capacity_by_region";
       "cloud.inference.flavors.list";
       "cloud.inference.flavors.get";
       "cloud.inference.models.list";
       "cloud.inference.models.get";
       "cloud.inference.deployments.create";
       "cloud.inference.deployments.list";
       "cloud.inference.deployments.get";
       "cloud.inference.deployments.update";
       "cloud.inference.deployments.delete";
       "cloud.inference.deployments.get_api_key";
       "cloud.inference.deployments.start";
       "cloud.inference.deployments.stop";
       "cloud.inference.deployments.logs.list";
       "cloud.inference.registry_credentials.create";
       "cloud.inference.registry_credentials.list";
       "cloud.inference.registry_credentials.get";
       "cloud.inference.registry_credentials.replace";
       "cloud.inference.registry_credentials.delete";
       "cloud.inference.secrets.create";
       "cloud.inference.secrets.list";
       "cloud.inference.secrets.get";
       "cloud.inference.secrets.replace";
       "cloud.inference.secrets.delete"
     ]);
    ("cleanup",
     [
       "cloud.secrets.delete";
       "cloud.ssh_keys.delete";
       "cloud.load_balancers.delete";
       "cloud.load_balancers.l7policies.delete";
       "cloud.load_balancers.listeners.delete";
       "cloud.load_balancers.pools.delete";
       "cloud.reserved_fixed_ips.delete";
       "cloud.networks.delete";
       "cloud.networks.subnets.delete";
       "cloud.networks.routers.delete";
       "cloud.volumes.delete";
       "cloud.floating_ips.delete";
       "cloud.security_groups.delete";
       "cloud.inference.deployments.delete";
       "cloud.placement_groups.delete";
       "cloud.registries.delete";
       "cloud.file_shares.delete";
       "cloud.gpu_baremetal_clusters.delete";
       "cloud.gpu_baremetal_clusters.servers.delete";
       "cloud.gpu_baremetal_clusters.images.delete";
       "cloud.instances.delete";
       "cloud.instances.images.delete"
     ]);
    ("list",
     [
       "cloud.instances.list";
       "cloud.instances.flavors.list";
       "cloud.instances.images.list";
       "cloud.baremetal.images.list";
       "cloud.baremetal.flavors.list";
       "cloud.baremetal.servers.list";
       "cloud.gpu_baremetal_clusters.list";
       "cloud.gpu_baremetal_clusters.flavors.list";
       "cloud.gpu_baremetal_clusters.images.list";
       "cloud.networks.list";
       "cloud.networks.subnets.list";
       "cloud.networks.routers.list"
     ])
  ].

(** [get_raw_toolsets] *)
Definition get_raw_toolsets : gmap string (list string) :=
  let base_toolsets := GcoreDomainHandler.get_toolset_definitions in
  let result := base_toolsets in
  let result := additional_toolsets ∪ result in
  result.

(** [_generate_toolsets] *)
Definition _generate_toolsets : gmap string (list string) :=
  (λ tool_list : list string, generate_short_tool_name <$> tool_list)
    <$> get_raw_toolsets.

Definition TOOLSETS : gmap string (list string) := _generate_toolsets.

Definition DEFAULT_TOOLSETS : list string := ["management"; "instances"].

(** The selection entry point as the server calls it. *)
Definition allowed_tools (env : environ)
    (all_available_tools : option (list string)) : list string :=
  get_allowed_tools_list TOOLSETS DEFAULT_TOOLSETS env all_available_tools.

End Config.

(* ================================================================== *)
(** * core/schema.py: type annotations to schema fragments *)
(* ================================================================== *)

Module Schema.

(** What the translator reads off a type object by reflection:
    [getattr(t, "__name__", ...)] and [str(t)]. *)
Record reflect : Type := Reflect {
  r_name : option string;
  r_str : string;
}.

(** A value inside [Literal[...]], with its [repr]. *)
Record literal : Type := LiteralValue {
  lit_value : json;
  lit_repr : string;
}.

(** A class object: [__name__], [str], [inspect.getdoc] (empty when
    there is none) and whether it is [gcore.NotGiven]. *)
Record class_info : Type := ClassInfo {
  cls_name : string;
  cls_str : string;
  cls_doc : string;
  cls_is_NotGiven : bool;
}.

(** A [TypedDict] class: reflection data, docstring, the
    [__required_keys__] attribute when present and [__total__]. *)
Record typeddict_info : Type := TypedDictInfo {
  td_reflect : reflect;
  td_doc : string;
  td_required_keys : option (gset string);
  td_total : bool;
}.

(** Type annotations, by the cases the translator tells apart. *)
Inductive PyType : Type :=
| TInt | TFloat | TBool | TStr
| TAny                              (* typing.Any *)
| TEmpty                            (* inspect.Parameter.empty *)
| TNone                             (* the value None *)
| TNoneType                         (* type(None) *)
| TRequired (r : reflect) (arg : option PyType)
| TNotRequired (r : reflect) (arg : option PyType)
| TLiteral (r : reflect) (values : list literal)
| TUnion (r : reflect) (args : list PyType)     (* origin is typing.Union *)
| TTypedDict (td : typeddict_info) (hints : list (string * PyType))
| TContainer (r : reflect) (args : list PyType) (* list, set, tuple,
                               Iterable, Sequence, Set, Collection *)
| TDict (r : reflect) (args : list PyType)
| TModel (c : class_info) (json_schema : option schema)
                                    (* a pydantic.BaseModel subclass and
                                       what model_json_schema() returns,
                                       None when it raises *)
| TClass (c : class_info) (annotations : list (string * PyType))
| TOther (r : reflect).             (* anything else, PEP 604 unions
                                       [X | None] included *)

(** [getattr(t, "__name__", default)] *)
Definition type_name (t : PyType) : option string :=
  match t with
  | TInt => Some "int" | TFloat => Some "float"
  | TBool => Some "bool" | TStr => Some "str"
  | TAny => Some "Any"
  | TEmpty => Some "_empty"
  | TNone => None
  | TNoneType => Some "NoneType"
  | TRequired r _ | TNotRequired r _ | TLiteral r _ | TUnion r _
  | TContainer r _ | TDict r _ | TOther r => r_name r
  | TTypedDict td _ => r_name (td_reflect td)
  | TModel c _ | TClass c _ => Some (cls_name c)
  end.

(** [str(t)] *)
Definition type_str (t : PyType) : string :=
  match t with
  | TInt => "<class 'int'>" | TFloat => "<class 'float'>"
  | TBool => "<class 'bool'>" | TStr => "<class 'str'>"
  | TAny => "typing.Any"
  | TEmpty => "<class 'inspect._empty'>"
  | TNone => "None"
  | TNoneType => "<class 'NoneType'>"
  | TRequired r _ | TNotRequired r _ | TLiteral r _ | TUnion r _
  | TContainer r _ | TDict r _ | TOther r => r_str r
  | TTypedDict td _ => r_str (td_reflect td)
  | TModel c _ | TClass c _ => cls_str c
  end.

(** [getattr(t, "__name__", str(t))] *)
Definition type_name_or_str (t : PyType) : string :=
  default (type_str t) (type_name t).

(** [arg is type(None) or arg is NotGiven] *)
Definition is_null_marker (t : PyType) : bool :=
  match t with
  | TNoneType => true
  | TClass c _ => cls_is_NotGiven c
  | _ => false
  end.

Definition is_Required (t : PyType) : bool :=
  match t with TRequired _ _ => true | _ => false end.
Definition is_NotRequired (t : PyType) : bool :=
  match t with TNotRequired _ _ => true | _ => false end.
(** [get_origin(t) is Union and type(None) in get_args(t)] *)
Definition is_Union_with_None (t : PyType) : bool :=
  match t with
  | TUnion _ args =>
      existsb (λ a, match a with TNoneType => true | _ => false end) args
  | _ => false
  end.

(** The part of [s] before the first occurrence of [sep]:
    [s.split(sep)[0]]. *)
Fixpoint before_first (sep s : string) : string :=
  if PyStr.startswith s sep then EmptyString
  else match s with
       | EmptyString => EmptyString
       | String c s' => String c (before_first sep s')
       end.

(** The part of [s] after the first [sep]: [s.split(sep, 1)[1]]. *)
Fixpoint after_first (sep : ascii) (s : string) : string :=
  match s with
  | EmptyString => EmptyString
  | String c s' => if bool_decide (c = sep) then s' else after_first sep s'
  end.

Definition blank_line : string := String LF (String LF EmptyString).

(** [raw_doc.split("\n\n")[0].strip()] *)
Definition first_paragraph (doc : string) : string :=
  PyStr.strip (before_first blank_line doc).

(** State of the docstring scan: the table built so far, the field
    being described and the lines collected for it. *)
Record doc_scan : Type := DocScan {
  field_docs : gmap string string;
  current_field : option string;
  current_doc_lines : list string;
}.

(** [if current_field and current_doc_lines: field_docs[...] = ...] *)
Definition save_field (st : doc_scan) : gmap string string :=
  match current_field st, current_doc_lines st with
  | Some f, _ :: _ =>
      if PyStr.truthy f
      then <[f := PyStr.strip (PyStr.join " " (current_doc_lines st))]>
             (field_docs st)
      else field_docs st
  | _, _ => field_docs st
  end.

(** One iteration of the loop over the docstring's lines. *)
Definition scan_line (field_names : list string) (st : doc_scan)
    (line : string) : doc_scan :=
  let stripped_line := PyStr.strip line in
  if negb (PyStr.truthy stripped_line) then
    DocScan (save_field st) None []
  else
    match
      list_find (λ field_name,
                   PyStr.startswith stripped_line (field_name +:+ ":")
                   || PyStr.startswith stripped_line (field_name +:+ " (")
                   = true)
                field_names
    with
    | Some (_, field_name) =>
        let desc_part :=
          if PyStr.contains_char ":" stripped_line
          then PyStr.strip (after_first ":" stripped_line)
          else EmptyString in
        DocScan (save_field st) (Some field_name)
                (if PyStr.truthy desc_part then [desc_part] else [])
    | None =>
        match current_field st with
        | Some f =>
            if PyStr.truthy f
            then DocScan (field_docs st) (current_field st)
                         (current_doc_lines st ++ [stripped_line])
            else st
        | None => st
        end
    end.

(** [_parse_typeddict_field_docstrings] *)
Definition _parse_typeddict_field_docstrings (class_docstring : string)
    (field_names : list string) : gmap string string :=
  if negb (PyStr.truthy class_docstring) then ∅
  else
    save_field
      (foldl (scan_line field_names) (DocScan ∅ None [])
             (PyStr.split LF class_docstring)).

(** Fragments the translator returns without looking any further. *)
Definition any_schema : schema :=
  [("type", JStr "object");
   ("description",
    JStr "Any type, can be a flexible JSON object or an appropriate primitive.")].

Definition null_schema : schema := [("type", JStr "null")].

(** The [type] an enumeration gets from its first value. *)
Definition literal_schema_type (enum_values : list literal) : string :=
  match enum_values with
  | v :: _ =>
      match lit_value v with
      | JBool _ => "boolean"
      | JInt _ => "integer"
      | JFloat _ => "number"
      | _ => "string"
      end
  | [] => "string"
  end.

(** The class docstring's first paragraph, or the given default. *)
Definition class_description (raw_doc fallback : string) : string :=
  if PyStr.truthy raw_doc && negb (PyStr.startswith raw_doc "dict() ->")
  then first_paragraph raw_doc
  else fallback.

(** The keys a [TypedDict] schema lists as required. *)
Definition required_keys (td : typeddict_info)
    (field_hints : list (string * PyType)) : gset string :=
  let required_keys_set : gset string :=
    match td_required_keys td with
    | Some keys => keys
    | None =>
        if td_total td then
          let candidates : gset string :=
            list_to_set
              (fst <$> filter (λ kv, negb (is_NotRequired kv.2
                                           || is_Union_with_None kv.2)
                                     = true) field_hints) in
          candidates ∖
            list_to_set
              (fst <$> filter (λ kv, is_NotRequired kv.2 = true)
                              field_hints)
        else ∅
    end in
  required_keys_set ∪
    list_to_set
      (fst <$> filter (λ kv, is_Required kv.2 = true) field_hints).

(** [convert_param_type_to_schema_type] *)
Fixpoint convert_param_type_to_schema_type
    (param_type : PyType) (param_name : string) {struct param_type}
  : schema :=
  match param_type with
  (* Required[T] and NotRequired[T] *)
  | TRequired _ (Some inner) =>
      let inner_schema :=
        convert_param_type_to_schema_type inner param_name in
      if PyDict.has "description" inner_schema then
        PyDict.set "description"
          (JStr (PyStr.strip (PyDict.get_str "description" inner_schema
                              +:+ " (explicitly required)")))
          inner_schema
      else
        PyDict.set "description" (JStr "(explicitly required)") inner_schema
  | TNotRequired _ (Some inner) =>
      convert_param_type_to_schema_type inner param_name
  | TRequired _ None | TNotRequired _ None =>
      [("type", JStr "object");
       ("description", JStr "Any type (from empty Required/NotRequired)")]
  (* basic types *)
  | TInt => [("type", JStr "integer")]
  | TFloat => [("type", JStr "number")]
  | TBool => [("type", JStr "boolean")]
  | TStr => [("type", JStr "string")]
  | TAny | TEmpty => any_schema
  | TNone | TNoneType => null_schema
  (* Literal *)
  | TLiteral _ enum_values =>
      [("type", JStr (literal_schema_type enum_values));
       ("enum", JList (lit_value <$> enum_values));
       ("description",
        JStr ("Must be one of: "
              +:+ PyStr.join ", " (lit_repr <$> enum_values)))]
  (* Union, Optional[T] included *)
  | TUnion _ args =>
      let is_optional := existsb is_null_marker args in
      (* the non-null members translated under [param_name] *)
      let translated :=
        (fix go (l : list PyType) : list schema :=
           match l with
           | [] => []
           | arg :: l' =>
               if is_null_marker arg then go l'
               else convert_param_type_to_schema_type arg param_name
                      :: go l'
           end) args in
      match translated with
      | [] => null_schema
      | [schema] =>
          if is_optional then
            if PyDict.has "description" schema
            then PyDict.add_str "description" " (optional)" schema
            else PyDict.set "description" (JStr "Optional") schema
          else schema
      | _ =>
          let one_of_schemas :=
            (fix go (l : list PyType) : list json :=
               match l with
               | [] => []
               | arg_type :: l' =>
                   if is_null_marker arg_type then go l'
                   else
                     JObj (convert_param_type_to_schema_type arg_type
                             (default param_name (type_name arg_type)))
                       :: go l'
               end) args in
          let type_names_for_desc :=
            type_name_or_str
              <$> filter (λ arg, is_null_marker arg = false) args in
          let one_of_schemas :=
            if is_optional
            then one_of_schemas ++ [JObj null_schema]
            else one_of_schemas in
          let union_desc :=
            "One of the following types: "
            +:+ PyStr.join ", " type_names_for_desc in
          let union_desc :=
            if is_optional then union_desc +:+ " or null"
            else union_desc in
          let final_schema : schema :=
            [("oneOf", JList one_of_schemas);
             ("description", JStr union_desc)] in
          if GcoreDomainHandler.is_special_parameter param_name then
            PyDict.set "description"
              (JStr (GcoreDomainHandler.get_union_type_description_enhancement
                       param_name union_desc))
              final_schema
          else final_schema
      end
  (* TypedDict *)
  | TTypedDict td field_hints =>
      let type_name := default "TypedDict" (r_name (td_reflect td)) in
      let docstring := td_doc td in
      let field_docstrings :=
        _parse_typeddict_field_docstrings docstring (fst <$> field_hints) in
      let properties :=
        (fix fields (l : list (string * PyType)) : schema :=
           match l with
           | [] => []
           | (field_name, field_type_hint) :: l' =>
               let field_schema :=
                 match field_type_hint with
                 | TRequired _ (Some t) | TNotRequired _ (Some t) =>
                     convert_param_type_to_schema_type t field_name
                 | TRequired _ None | TNotRequired _ None => any_schema
                 | t => convert_param_type_to_schema_type t field_name
                 end in
               let field_schema :=
                 match field_docstrings !! field_name with
                 | Some doc =>
                     PyDict.set "description" (JStr doc) field_schema
                 | None =>
                     if PyDict.has "description" field_schema
                     then field_schema
                     else PyDict.set "description"
                            (JStr ("Field: " +:+ field_name)) field_schema
                 end in
               (field_name, JObj field_schema) :: fields l'
           end) field_hints in
      let schema : schema :=
        [("type", JStr "object"); ("properties", JObj properties)] in
      let required_keys_set := required_keys td field_hints in
      let schema :=
        if bool_decide (required_keys_set = ∅) then schema
        else PyDict.set "required"
               (JList (JStr <$> sorted_strings required_keys_set)) schema in
      let main_doc := first_paragraph docstring in
      if PyStr.truthy main_doc
         && negb (existsb (λ field_name,
                             PyStr.contains (field_name +:+ ":") main_doc)
                          (fst <$> field_hints))
      then PyDict.set "description"
             (JStr ("Object of type " +:+ type_name +:+ ": " +:+ main_doc))
             schema
      else PyDict.set "description"
             (JStr ("Object of type " +:+ type_name)) schema
  (* list, set, tuple, Iterable, Sequence, Set, Collection *)
  | TContainer _ args =>
      let item_param_name :=
        if PyStr.truthy param_name then param_name +:+ "_item"
        else "item" in
      let items_schema :=
        match args with
        | item_type :: _ =>
            convert_param_type_to_schema_type item_type item_param_name
        | [] => any_schema
        end in
      let item_type_name :=
        match args with
        | item_type :: _ => type_name_or_str item_type
        | [] => type_name_or_str TAny
        end in
      let array_description := "Array of " +:+ item_type_name in
      let final_array_schema : schema :=
        [("type", JStr "array"); ("items", JObj items_schema);
         ("description", JStr array_description)] in
      if GcoreDomainHandler.is_special_parameter param_name then
        let domain_description :=
          GcoreDomainHandler.get_parameter_description
            param_name array_description in
        let domain_examples :=
          GcoreDomainHandler.get_parameter_examples param_name in
        let final_array_schema :=
          PyDict.set "description" (JStr domain_description)
            final_array_schema in
        match domain_examples with
        | [] => final_array_schema
        | _ :: _ =>
            PyDict.set "examples" (JList domain_examples) final_array_schema
        end
      else final_array_schema
  (* dict *)
  | TDict _ args =>
      let value_param_name :=
        if PyStr.truthy param_name then param_name +:+ "_value"
        else EmptyString in
      let value_schema :=
        match args with
        | _ :: value_type :: _ =>
            convert_param_type_to_schema_type value_type value_param_name
        | _ => any_schema
        end in
      let value_type_name :=
        match args with
        | _ :: value_type :: _ => type_name_or_str value_type
        | _ => type_name_or_str TAny
        end in
      [("type", JStr "object");
       ("additionalProperties", JObj value_schema);
       ("description",
        JStr ("Dictionary with string keys and values of type "
              +:+ value_type_name))]
  (* pydantic models *)
  | TModel c (Some json_schema) =>
      let json_schema :=
        if PyDict.has "type" json_schema then json_schema
        else PyDict.set "type" (JStr "object") json_schema in
      if PyDict.has "description" json_schema then json_schema
      else PyDict.set "description"
             (JStr (class_description (cls_doc c)
                      ("Pydantic model: " +:+ cls_name c)))
             json_schema
  | TModel c None =>
      [("type", JStr "object");
       ("description",
        JStr (class_description (cls_doc c)
                ("Pydantic model: " +:+ cls_name c)))]
  (* other classes *)
  | TClass c annotations =>
      let description :=
        class_description (cls_doc c) ("Object of type " +:+ cls_name c) in
      match annotations with
      | _ :: _ =>
          let class_properties :=
            (fix props (l : list (string * PyType)) : schema :=
               match l with
               | [] => []
               | (attr_name, attr_type) :: l' =>
                   (attr_name,
                    JObj (convert_param_type_to_schema_type
                            attr_type attr_name)) :: props l'
               end) annotations in
          [("type", JStr "object"); ("properties", JObj class_properties);
           ("description", JStr description)]
      | [] =>
          [("type", JStr "object"); ("description", JStr description)]
      end
  (* fallback *)
  | TOther r =>
      let type_repr := r_str r in
      let type_repr :=
        if PyStr.startswith type_repr "<class '"
           && PyStr.endswith type_repr "'>"
        then PyStr.slice_between type_repr 8 2
        else type_repr in
      [("type", JStr "object");
       ("description",
        JStr ("Data of type " +:+ type_repr
              +:+ " (schema generation may be incomplete for this type)"))]
  end.

End Schema.

(* ================================================================== *)
(** * core/inspection.py: method discovery and its cache *)
(* ================================================================== *)

Module Inspection.

Import Schema.

(** One entry of an [inspect.Signature]. *)
Record parameter : Type := MkParam {
  p_name : string;
  p_annotation : PyType;
  p_has_default : bool;       (* param.default is not Parameter.empty *)
}.

(** What happens when a method is inspected ([inspect.signature],
    [inspect.getdoc], [get_type_hints]). *)
Inductive inspection : Type :=
| Inspected (docstring : string) (param_types : odict PyType)
| InspectionError               (* ValueError or TypeError *)
| OtherException.               (* any other exception *)

(** A bound method of an SDK object. *)
Record bound_method : Type := BoundMethod {
  bm_handle : nat;                    (* which callable this is *)
  bm_name : string;                   (* method.__name__ *)
  bm_signature : list parameter;      (* inspect.signature(method) *)
  bm_doc : option string;             (* method.__doc__ *)
  bm_inspection : inspection;
}.

(** The record stored for a discovered method. *)
Record method_info : Type := MethodInfo {
  signature : list parameter;
  docstring : string;
  param_types : odict PyType;
  return_type : option PyType;
  method_obj : bound_method;
}.

(** [ResourceMethodsDict] *)
Abbreviation ResourceMethodsDict := (odict (odict method_info)).

(** An object of the SDK graph as [inspect] shows it: the module of
    its class ([None] when it cannot be determined), the lower-cased
    class name, the members [inspect.ismethod] accepts and the members
    that are not routines. *)
Inductive sdk_object : Type :=
| SdkObject (module_name : option string) (class_name_lower : string)
            (methods : list (string * bound_method))
            (attributes : list (string * sdk_object)).

Definition module_name (o : sdk_object) : option string :=
  match o with SdkObject m _ _ _ => m end.
Definition class_name_lower (o : sdk_object) : string :=
  match o with SdkObject _ c _ _ => c end.
Definition methods (o : sdk_object) : list (string * bound_method) :=
  match o with SdkObject _ _ ms _ => ms end.
Definition attributes (o : sdk_object) : list (string * sdk_object) :=
  match o with SdkObject _ _ _ attrs => attrs end.

Definition skip_names : list string :=
  ["_client"; "_version"; "_qs"; "_session"; "_options"; "_params";
   "_response_timeout"; "api_key"; "project_id"; "region_id";
   "with_raw_response"; "with_streaming_response"; "copy"; "model_copy"].

Definition skip_top_level : list string :=
  ["api_key"; "project_id"; "region_id"; "with_raw_response";
   "with_streaming_response"; "copy"; "model_copy"; "from_env"].

(** [attr_module and attr_module.__name__.startswith(base_module_name)] *)
Definition in_sdk (base_module_name : string) (o : sdk_object) : bool :=
  match module_name o with
  | Some name => PyStr.startswith name base_module_name
  | None => false
  end.

Definition make_info (m : bound_method) (doc : string)
    (hints : odict PyType) : method_info :=
  MethodInfo (bm_signature m) doc hints (PyDict.get "return" hints) m.

(** The loop over an object's methods, filling [resource_entry].  The
    boolean is [false] when an exception other than [ValueError] and
    [TypeError] ended the loop; the entries made before stay. *)
Fixpoint inspect_methods (skip : list string)
    (ms : list (string * bound_method))
    (resource_entry : odict method_info) : odict method_info * bool :=
  match ms with
  | [] => (resource_entry, true)
  | (method_name, method_obj) :: ms' =>
      if PyStr.startswith method_name "_"
         || bool_decide (method_name ∈ skip)
      then inspect_methods skip ms' resource_entry
      else
        match bm_inspection method_obj with
        | Inspected doc hints =>
            inspect_methods skip ms'
              (PyDict.set method_name (make_info method_obj doc hints)
                 resource_entry)
        | InspectionError => inspect_methods skip ms' resource_entry
        | OtherException => (resource_entry, false)
        end
  end.

(** [_inspect_recursive].  The result is the catalog after the call
    and whether the call returned ([true]) or raised ([false]).
    [resource_entry] aliases the catalog's entry when the path is
    already a key, so its updates show even when the call raises. *)
Fixpoint _inspect_recursive (obj : sdk_object)
    (current_path_parts : list string) (methods_dict : ResourceMethodsDict)
    (base_module_name : string) {struct obj}
  : ResourceMethodsDict * bool :=
  match obj with
  | SdkObject _ cls_lower obj_methods obj_attributes =>
      let current_path :=
        match current_path_parts with
        | [] => cls_lower
        | _ => PyStr.join "." current_path_parts
        end in
      let resource_entry := default [] (PyDict.get current_path methods_dict) in
      let '(resource_entry, finished) :=
        inspect_methods skip_names obj_methods resource_entry in
      if negb finished then
        (if PyDict.has current_path methods_dict
         then PyDict.set current_path resource_entry methods_dict
         else methods_dict, false)
      else
        let methods_dict :=
          match resource_entry with
          | [] => methods_dict
          | _ :: _ => PyDict.set current_path resource_entry methods_dict
          end in
        ((fix nested (attrs : list (string * sdk_object))
              (methods_dict : ResourceMethodsDict) : ResourceMethodsDict :=
            match attrs with
            | [] => methods_dict
            | (attr_name, attr_value) :: attrs' =>
                if PyStr.startswith attr_name "_"
                   || bool_decide (attr_name ∈ skip_names)
                then nested attrs' methods_dict
                else if in_sdk base_module_name attr_value
                then
                  (* an exception raised below is swallowed here *)
                  nested attrs'
                    (_inspect_recursive attr_value
                       (current_path_parts ++ [attr_name]) methods_dict
                       base_module_name).1
                else nested attrs' methods_dict
            end) obj_attributes methods_dict, true)
  end.

(** The client: the module of its class and all its members. *)
Record client : Type := Client {
  client_module : option string;
  client_members : list (string * sdk_object);
}.

(** The loop over a service's non-routine attributes. *)
Fixpoint inspect_service_attributes (service_name : string)
    (attrs : list (string * sdk_object))
    (inspected_methods : ResourceMethodsDict) (base_module_name : string)
  : ResourceMethodsDict * bool :=
  match attrs with
  | [] => (inspected_methods, true)
  | (attr_name, attr_value) :: attrs' =>
      if PyStr.startswith attr_name "_"
      then inspect_service_attributes service_name attrs'
             inspected_methods base_module_name
      else if in_sdk base_module_name attr_value then
        let '(inspected_methods, finished) :=
          _inspect_recursive attr_value [service_name; attr_name]
            inspected_methods base_module_name in
        if finished
        then inspect_service_attributes service_name attrs'
               inspected_methods base_module_name
        else (inspected_methods, false)
      else inspect_service_attributes service_name attrs'
             inspected_methods base_module_name
  end.

(** The loop over the methods bound to a service object itself. *)
Fixpoint inspect_service_methods (resource_path : string)
    (ms : list (string * bound_method))
    (inspected_methods : ResourceMethodsDict)
  : ResourceMethodsDict * bool :=
  match ms with
  | [] => (inspected_methods, true)
  | (method_name, method_obj) :: ms' =>
      if PyStr.startswith method_name "_"
      then inspect_service_methods resource_path ms' inspected_methods
      else
        let inspected_methods :=
          if PyDict.has resource_path inspected_methods
          then inspected_methods
          else PyDict.set resource_path [] inspected_methods in
        match bm_inspection method_obj with
        | Inspected doc hints =>
            let entry :=
              default [] (PyDict.get resource_path inspected_methods) in
            inspect_service_methods resource_path ms'
              (PyDict.set resource_path
                 (PyDict.set method_name (make_info method_obj doc hints)
                    entry)
                 inspected_methods)
        | InspectionError =>
            inspect_service_methods resource_path ms' inspected_methods
        | OtherException => (inspected_methods, false)
        end
  end.

(** The loop over the client's members. *)
Fixpoint inspect_services (members : list (string * sdk_object))
    (inspected_methods : ResourceMethodsDict) (base_module_name : string)
  : ResourceMethodsDict * bool :=
  match members with
  | [] => (inspected_methods, true)
  | (service_name, service_obj) :: members' =>
      if PyStr.startswith service_name "_"
         || bool_decide (service_name ∈ skip_top_level)
      then inspect_services members' inspected_methods base_module_name
      else if negb (in_sdk base_module_name service_obj)
      then inspect_services members' inspected_methods base_module_name
      else
        let '(inspected_methods, finished) :=
          inspect_service_attributes service_name (attributes service_obj)
            inspected_methods base_module_name in
        if negb finished then (inspected_methods, false)
        else
          let '(inspected_methods, finished) :=
            inspect_service_methods service_name (methods service_obj)
              inspected_methods in
          if negb finished then (inspected_methods, false)
          else inspect_services members' inspected_methods base_module_name
  end.

(** The walk [inspect_sdk_methods] makes when the cache is empty:
    [Some catalog], or [None] when an exception escapes. *)
Definition walk (c : client) : option ResourceMethodsDict :=
  let inspected_methods : ResourceMethodsDict := [] in
  let base_module_name :=
    match client_module c with
    | Some name =>
        match PyStr.split "." name with
        | first :: _ => first
        | [] => EmptyString
        end
    | None => "gcore"
    end in
  let '(inspected_methods, finished) :=
    inspect_services (client_members c) inspected_methods base_module_name in
  if finished then Some inspected_methods else None.

(** Dictionaries are objects with an identity: a location in a heap. *)
Definition loc := nat.

(** The interpreter state the module touches: the dictionaries in
    existence and the global [_resource_methods_cache]. *)
Record state : Type := State {
  heap : gmap loc ResourceMethodsDict;
  _resource_methods_cache : option loc;
}.

(** A location no dictionary lives at yet. *)
Definition fresh_loc (h : gmap loc ResourceMethodsDict) : loc :=
  fresh (dom h).

(** [inspect_sdk_methods]: the returned reference ([None] when the
    call raises) and the state afterwards. *)
Definition inspect_sdk_methods (c : client) (st : state)
  : option loc * state :=
  match _resource_methods_cache st with
  | Some cached => (Some cached, st)
  | None =>
      match walk c with
      | Some inspected_methods =>
          let l := fresh_loc (heap st) in
          (Some l,
           State (<[l := inspected_methods]> (heap st)) (Some l))
      | None => (None, st)
      end
  end.

(** [clear_inspection_cache] *)
Definition clear_inspection_cache (st : state) : state :=
  State (heap st) None.

(** [get_all_resources] *)
Definition get_all_resources (c : client) (st : state)
  : option (list string) * state :=
  let '(r, st') := inspect_sdk_methods c st in
  (match r with
   | Some l =>
       match heap st' !! l with
       | Some resource_methods_data => Some (fst <$> resource_methods_data)
       | None => None
       end
   | None => None
   end, st').

(** The pairs [iter_sdk_methods] yields from a catalog. *)
Definition iter_catalog (resource_methods_data : ResourceMethodsDict)
  : list (string * bound_method) :=
  concat
    (map (λ '(resource_path, ms),
            map (λ '(method_name, method_info),
                   (resource_path +:+ "." +:+ method_name,
                    method_obj method_info)) ms)
         resource_methods_data).

End Inspection.

(* ================================================================== *)
(** * server.py: wrappers and tool registration *)
(* ================================================================== *)

Module Server.

Import Schema Inspection.

(** What an SDK call returns, by the cases [_serialize_result] tells
    apart.  For an object: the outcome of [model_dump()] when there is
    such a method ([Some None] when it raises), its [__dict__] when it
    has one, and [str(result)]. *)
Inductive pyresult : Type :=
| RNone
| RBasic (v : json)                 (* str, int, float or bool *)
| RList (items : list pyresult)
| RDict (entries : list (string * pyresult))
| RObject (model_dump : option (option pyresult))
          (attrs : option (list (string * pyresult)))
          (str_repr : string).

(** [_serialize_result] *)
Fixpoint _serialize_result (result : pyresult) : json :=
  match result with
  | RNone => JNull
  | RBasic v => v
  | RList items =>
      JList ((fix each (l : list pyresult) : list json :=
                match l with
                | [] => []
                | item :: l' => _serialize_result item :: each l'
                end) items)
  | RDict entries =>
      JObj ((fix each (l : list (string * pyresult)) : schema :=
               match l with
               | [] => []
               | (key, value) :: l' =>
                   (key, _serialize_result value) :: each l'
               end) entries)
  | RObject (Some (Some dumped)) _ _ => _serialize_result dumped
  | RObject _ (Some attrs) _ =>
      JObj ((fix each (l : list (string * pyresult)) : schema :=
               match l with
               | [] => []
               | (key, value) :: l' =>
                   if PyStr.startswith key "_" then each l'
                   else (key, _serialize_result value) :: each l'
               end) attrs)
  | RObject _ None str_repr => JStr str_repr
  end.

(** The annotations [make_wrapper] gives the wrapper. *)
Inductive simple_annotation : Type :=
| AnnStr                            (* str *)
| AnnStrOrNone                      (* str | None *)
| AnnAny.                           (* Any *)

Global Instance simple_annotation_eq_dec : EqDecision simple_annotation.
Proof. solve_decision. Defined.

(** A record written by [logger.warning] in the wrapper:
    "Could not JSON-decode <key> for <full_name>". *)
Record log_record : Type := Warning {
  log_key : string;
  log_full_name : string;
}.

(** The async function [make_wrapper] returns: the method it proxies,
    the name it was made for, its [__annotations__], [__doc__] and
    [__name__]. *)
Record wrapper : Type := Wrapper {
  w_method : bound_method;
  w_full_name : string;
  w_annotations : odict simple_annotation;
  w_doc : string;
  w_name : string;
}.

(** The annotations loop of [make_wrapper]. *)
Definition simple_annotations (sig : list parameter)
  : odict simple_annotation :=
  let simple_annotations :=
    foldl (λ simple_annotations param,
             if p_has_default param
             then PyDict.set (p_name param) AnnStrOrNone simple_annotations
             else PyDict.set (p_name param) AnnStr simple_annotations)
          [] sig in
  PyDict.set "return" AnnAny simple_annotations.

(** [make_wrapper]; [functools.wraps] copies the method's [__name__]. *)
Definition make_wrapper (method : bound_method) (full_name : string)
  : wrapper :=
  let sig := bm_signature method in
  Wrapper method full_name (simple_annotations sig)
    (match bm_doc method with
     | Some doc =>
         if PyStr.truthy doc then doc
         else "Proxy for `" +:+ full_name +:+ "`"
     | None => "Proxy for `" +:+ full_name +:+ "`"
     end)
    (bm_name method).

(** What [json.loads] does on a string: it returns the decoded value,
    raises [json.JSONDecodeError], or raises another exception
    ([ValueError] on an integer literal with more digits than the
    interpreter converts, [RecursionError] on a document nested too
    deep). *)
Inductive loads_result : Type :=
| Decoded (value : json)
| JSONDecodeError
| OtherError.

(** What a call of the wrapper leaves behind: the warnings logged, the
    keyword arguments the SDK method was called with ([None] when it
    was not called) and the value returned ([None] when the wrapper
    raises). *)
Record call : Type := Call {
  call_log : list log_record;
  call_kwargs : option (gmap string json);
  call_result : option json;
}.

Section calls.
(** [json.loads] on a string. *)
Variable json_loads : string → loads_result.
(** The SDK call with the given keyword arguments, awaited when it
    is awaitable; [None] when it raises. *)
Variable invoke : bound_method → gmap string json → option pyresult.

(** One iteration of the loop over the JSON conversion parameters.
    The keyword arguments are [None] once an exception has left the
    loop: the [except] clause names [json.JSONDecodeError] only, and no
    iteration runs after another exception. *)
Definition convert_json_parameter (full_name : string)
    (st : option (gmap string json) * list log_record) (key : string)
  : option (gmap string json) * list log_record :=
  match st with
  | (Some filtered_kwargs, log) =>
      match filtered_kwargs !! key with
      | Some (JStr text) =>
          match json_loads text with
          | Decoded decoded =>
              (Some (<[key := decoded]> filtered_kwargs), log)
          | JSONDecodeError =>
              (Some filtered_kwargs, log ++ [Warning key full_name])
          | OtherError => (None, log)
          end
      | _ => st
      end
  | (None, _) => st
  end.

(** The keyword arguments the SDK method is to be called with ([None]
    when [json.loads] raised an exception the wrapper does not catch),
    and the warnings logged on the way.  The set of parameter names is
    walked in the order of [elements]; Python fixes no order, and the
    properties below use only that every name comes once. *)
Definition prepare_kwargs (full_name : string) (kwargs : gmap string json)
  : option (gmap string json) * list log_record :=
  let filtered_kwargs :=
    filter (λ kv, is_None kv.2 = false) kwargs in
  let json_conversion_params :=
    GcoreDomainHandler.get_json_conversion_parameters in
  foldl (convert_json_parameter full_name) (Some filtered_kwargs, [])
        (elements json_conversion_params).

(** A call of the wrapper.  An exception of [json.loads] that is not
    caught, and an exception of the SDK call, leave the wrapper. *)
Definition async_wrapper (w : wrapper) (kwargs : gmap string json) : call :=
  match prepare_kwargs (w_full_name w) kwargs with
  | (Some filtered_kwargs, log) =>
      Call log (Some filtered_kwargs)
           (_serialize_result <$> invoke (w_method w) filtered_kwargs)
  | (None, log) => Call log None None
  end.
End calls.

(** [wrapper.__name__ = tool_name] *)
Definition set_name (name : string) (w : wrapper) : wrapper :=
  Wrapper (w_method w) (w_full_name w) (w_annotations w) (w_doc w) name.

(** A tool as handed to [Tool.from_function] and [mcp.add_tool]. *)
Record tool : Type := Tool {
  tool_fn : wrapper;
  tool_name : string;
  tool_description : string;
}.

(** [short_name.replace(".", "_")] *)
Fixpoint dots_to_underscores (s : string) : string :=
  match s with
  | EmptyString => EmptyString
  | String c s' =>
      String (if bool_decide (c = "."%char) then "_"%char else c)
             (dots_to_underscores s')
  end.

(** The body of the registration loop for one discovered method:
    [None] when the method is not enabled. *)
Definition register_one (ALLOWED_TOOLS_SHORT : gset string)
    (full_name : string) (method : bound_method) : option tool :=
  let short_name := Settings.generate_short_tool_name full_name in
  if bool_decide (short_name ∈ ALLOWED_TOOLS_SHORT) then
    let wrapper := make_wrapper method full_name in
    let tool_name := dots_to_underscores short_name in
    let wrapper := set_name tool_name wrapper in
    Some (Tool wrapper tool_name (w_doc wrapper))
  else None.

(** The tools registered for the discovered leaves under the process
    environment. *)
Definition registered_tools (env : Config.environ)
    (leaves : list (string * bound_method)) : list tool :=
  let all_full_tool_names := fst <$> leaves in
  let ALLOWED_TOOLS_SHORT : gset string :=
    list_to_set (Config.allowed_tools env (Some all_full_tool_names)) in
  omap (λ '(full_name, method),
          register_one ALLOWED_TOOLS_SHORT full_name method) leaves.

End Server.

(* ================================================================== *)
(** * server.py: transport and tool selection at start-up *)
(* ================================================================== *)

Module Startup.

Import Inspection Server.

Definition TRANSPORT_ENV_VAR : string := "GCORE_TRANSPORT".

(** [c.lower()] for a code point below 256: the ASCII capitals and the
    Latin-1 capitals (U+00C0 to U+00DE, the multiplication sign
    excepted) move up by 32. *)
Definition lower_char (c : ascii) : ascii :=
  let n := nat_of_ascii c in
  if ((65 <=? n) && (n <=? 90)
      || (192 <=? n) && (n <=? 222) && negb (n =? 215))%nat
  then ascii_of_nat (n + 32)
  else c.

(** [s.lower()] *)
Fixpoint lower (s : string) : string :=
  match s with
  | EmptyString => EmptyString
  | String c s' => String (lower_char c) (lower s')
  end.

(** [os.getenv("GCORE_TRANSPORT", "stdio").lower()] *)
Definition _transport_raw (env : Config.environ) : string :=
  lower (default "stdio" (env !! TRANSPORT_ENV_VAR)).

Definition _TRANSPORT_MAP : gmap string string :=
  dict_of [
    ("stdio", "stdio");
    ("http", "streamable-http");
    ("stream", "streamable-http");
    ("streamable-http", "streamable-http");
    ("sse", "sse")
  ].

(** [TRANSPORT] *)
Definition TRANSPORT (env : Config.environ) : string :=
  default "stdio" (_TRANSPORT_MAP !! _transport_raw env).

(** Is the warning about an unknown transport logged? *)
Definition unknown_transport_warning (env : Config.environ) : bool :=
  bool_decide (_TRANSPORT_MAP !! _transport_raw env = None).

(** The environment after the module's start-up code: outside stdio
    mode an unset or empty [GCORE_TOOLS] is set to [management]. *)
Definition startup_environ (env : Config.environ) : Config.environ :=
  if bool_decide (TRANSPORT env ≠ "stdio")
     && negb (match env !! Config.UNIFIED_TOOLS_ENV_VAR with
              | Some value => PyStr.truthy value
              | None => false
              end)
  then <[Config.UNIFIED_TOOLS_ENV_VAR := "management"]> env
  else env.

(** The tools the module registers for the discovered leaves. *)
Definition startup_tools (env : Config.environ)
    (leaves : list (string * bound_method)) : list tool :=
  registered_tools (startup_environ env) leaves.

End Startup.

(* ================================================================== *)
(** * Reference definitions and inputs *)
(* ================================================================== *)

(** The name before truncation: every dot-separated segment replaced
    by its abbreviation when the table has one. *)
Definition short_name_untruncated (rules : gmap string string)
    (original_dot_name : string) : string :=
  PyStr.join "."
    ((λ part, default part (rules !! part))
       <$> PyStr.split "." original_dot_name).

(** The six names the additional table lists under [baremetal]. *)
Definition additional_baremetal : list string :=
  ["cloud.baremetal.images.list"; "cloud.baremetal.flavors.list";
   "cloud.baremetal.flavors.list_suitable";
   "cloud.baremetal.servers.create"; "cloud.baremetal.servers.list";
   "cloud.baremetal.servers.rebuild"].

(** The names the domain handler lists under [baremetal]. *)
Definition domain_baremetal : list string :=
  default [] (GcoreDomainHandler.get_toolset_definitions !! "baremetal").

(** The environment in which [GCORE_TOOLS] is [baremetal]. *)
Definition env_baremetal : Config.environ :=
  {[ Config.UNIFIED_TOOLS_ENV_VAR := "baremetal" ]}.

(** The tools of a list of toolset names: the accumulation loop of
    [get_allowed_tools_list] followed by its deduplication. *)
Definition toolset_tools_of (TOOLSETS : gmap string (list string))
    (toolset_names : list string) : list string :=
  fromkeys
    (foldl (λ toolset_tools toolset_name,
              match TOOLSETS !! toolset_name with
              | Some tools => toolset_tools ++ tools
              | None => toolset_tools
              end) [] toolset_names).

(** The match of a pattern filter in the words of the specification:
    equal to the name, or containing a star and matching the whole name
    with every star standing for zero or more characters of any kind. *)
Fixpoint glob_matches (pattern name : string) : bool :=
  match pattern with
  | EmptyString => bool_decide (name = EmptyString)
  | String c pattern' =>
      if bool_decide (c = "*"%char) then
        (fix star (name : string) : bool :=
           glob_matches pattern' name ||
           match name with
           | EmptyString => false
           | String _ name' => star name'
           end) name
      else
        match name with
        | EmptyString => false
        | String c' name' => bool_decide (c' = c) && glob_matches pattern' name'
        end
  end.

Definition spec_pattern_matches (pattern name : string) : bool :=
  bool_decide (pattern = name)
  || (PyStr.contains_char "*" pattern && glob_matches pattern name).

(** The match the selection loop makes, read off the code: the whole of
    [name] matches [pattern] where a star stands for zero or more
    characters other than a line feed. *)
Fixpoint glob_line_matches (pattern name : string) : bool :=
  match pattern with
  | EmptyString => bool_decide (name = EmptyString)
  | String c pattern' =>
      if bool_decide (c = "*"%char) then
        (fix star (name : string) : bool :=
           glob_line_matches pattern' name ||
           match name with
           | EmptyString => false
           | String c' name' => negb (bool_decide (c' = LF)) && star name'
           end) name
      else
        match name with
        | EmptyString => false
        | String c' name' =>
            bool_decide (c' = c) && glob_line_matches pattern' name'
        end
  end.

(** What the translated pattern compiles to: a star for every star of
    the filter, a literal for every other character. *)
Fixpoint glob_items (pattern : string) : list Re.item :=
  match pattern with
  | EmptyString => []
  | String c pattern' =>
      (if bool_decide (c = "*"%char) then Re.Star Re.AnyChar
       else Re.One (Re.Lit c)) :: glob_items pattern'
  end.

(** The first character of a string, if any. *)
Definition head_char (s : string) : option ascii :=
  match s with EmptyString => None | String c _ => Some c end.

(** The environment in which [GCORE_TOOLS] is the filter
    [cloud.*.create]. *)
Definition env_create_filter : Config.environ :=
  {[ Config.UNIFIED_TOOLS_ENV_VAR := "cloud.*.create" ]}.

Import Schema.






(** The annotation [Optional[str]], that is [Union[str, None]]. *)
Definition optional_str : PyType :=
  TUnion (Reflect None "typing.Optional[str]") [TStr; TNoneType].

(** The annotation [Optional[list[str]]]. *)
Definition list_str : PyType :=
  TContainer (Reflect (Some "list") "list[str]") [TStr].

Import Inspection Server.

(** The annotation [make_wrapper] gives a parameter. *)
Definition annotation_of (param : parameter) : simple_annotation :=
  if p_has_default param then AnnStrOrNone else AnnStr.

(** Registration in the words of the specification: whatever the
    transport derives from the annotation a wrapper carries for a
    parameter, it is the translator's fragment of the parameter's
    declared type. *)
Definition carries_translated_fragments
    (derive : simple_annotation → schema) (method : bound_method) : Prop :=
  ∀ param, param ∈ bm_signature method →
    derive <$> PyDict.get (p_name param)
                 (simple_annotations (bm_signature method))
    = Some (convert_param_type_to_schema_type
              (p_annotation param) (p_name param)).

(** Two methods that differ in the declared type of their parameter. *)
Definition resize_int : bound_method :=
  BoundMethod 0 "resize" [MkParam "size" TInt false] None
    (Inspected "" [("size", TInt)]).
Definition resize_list : bound_method :=
  BoundMethod 1 "resize" [MkParam "size" list_str false] None
    (Inspected "" [("size", list_str)]).

(** One iteration of the annotations loop. *)
Definition annotate (acc : odict simple_annotation) (param : parameter)
  : odict simple_annotation :=
  if p_has_default param
  then PyDict.set (p_name param) AnnStrOrNone acc
  else PyDict.set (p_name param) AnnStr acc.

(** A method with a required and an optional parameter, discovered as
    [cloud.volumes.create], and the tool registered for it when
    [GCORE_TOOLS] is [cloud.volumes.*]. *)
Definition volumes_create : bound_method :=
  BoundMethod 7 "create"
    [MkParam "size" TInt false; MkParam "name" optional_str true]
    (Some "Create a volume.")
    (Inspected "Create a volume."
       [("size", TInt); ("name", optional_str)]).

Definition env_volumes_filter : Config.environ :=
  {[ Config.UNIFIED_TOOLS_ENV_VAR := "cloud.volumes.*" ]}.

Definition volumes_create_tool : tool :=
  Tool (set_name "cloud_vols_new"
          (make_wrapper volumes_create "cloud.volumes.create"))
       "cloud_vols_new" "Create a volume.".

(** A string of [n] digits [1]. *)
Fixpoint ones (n : nat) : string :=
  match n with
  | O => EmptyString
  | S n' => String "1" (ones n')
  end.

(** The integer a string of digits [1] spells; [None] for a string with
    another character. *)
Fixpoint ones_value (acc : Z) (text : string) : option Z :=
  match text with
  | EmptyString => Some acc
  | String c text' =>
      if bool_decide (c = "1"%char) then ones_value (10 * acc + 1) text'
      else None
  end.

(** A stand-in for [json.loads] that does what [json.loads] does on the
    non-empty strings of digits [1]: it returns the integer, and raises
    [ValueError] when the string has more than 4300 digits, the default
    limit of integer string conversion.  It rejects every other
    string. *)
Definition loads_ones (text : string) : loads_result :=
  match text with
  | EmptyString => JSONDecodeError
  | String _ _ =>
      match ones_value 0 text with
      | Some n =>
          if bool_decide (PyStr.len text ≤ 4300) then Decoded (JInt n)
          else OtherError
      | None => JSONDecodeError
      end
  end.

(** An SDK that raises on every call, and a call that passes [volumes]
    as a string of 5000 digits. *)
Definition sdk_raises (method : bound_method) (kwargs : gmap string json)
  : option pyresult := None.

Definition volumes_wrapper : wrapper :=
  make_wrapper volumes_create "cloud.volumes.create".

Definition kwargs_volumes_digits : gmap string json :=
  {[ "volumes" := JStr (ones 5000) ]}.

(** No resource path of the catalog is bound to an empty method table. *)
Definition no_empty_entries (catalog : ResourceMethodsDict) : Prop :=
  Forall (λ entry, entry.2 ≠ []) catalog.

Global Instance no_empty_entries_dec catalog : Decision (no_empty_entries catalog).
Proof.
  apply Forall_dec. intros [path [|m ms]]; [right|left]; simpl; congruence.
Defined.

(** A service whose only public method cannot be inspected
    ([inspect.signature] raises [ValueError]), on a client of the SDK. *)
Definition uninspectable : bound_method :=
  BoundMethod 0 "list_zones" [] None InspectionError.

Definition dns_service : sdk_object :=
  SdkObject (Some "gcore.resources.dns.dns") "dnsresource"
    [("list_zones", uninspectable)] [].

Definition dns_client : client :=
  Client (Some "gcore._client") [("dns", dns_service)].

(** The cache is empty or holds a catalog discovered from [c]: the
    object graph is the same throughout. *)
Definition cache_from (c : client) (st : state) : Prop :=
  match _resource_methods_cache st with
  | Some cached =>
      ∃ catalog, heap st !! cached = Some catalog ∧ walk c = Some catalog
  | None => True
  end.

(** The table the selection tests install as [TOOLSETS]. *)
Definition test_toolsets : gmap string (list string) :=
  {[ "instances" := ["cloud.insts.new"] ]}.

(** [MockVolumeSpec] of the schema tests: a [TypedDict] declared with
    [total=False] whose only required key is [source]. *)
Definition MockVolumeSpec : PyType :=
  TTypedDict
    (TypedDictInfo
       (Reflect (Some "MockVolumeSpec") "<class 'tests.conftest.MockVolumeSpec'>")
       "Mock volume specification for testing."
       (Some {[ "source" ]}) false)
    [("source",
      TRequired (Reflect None "typing.Required[...]")
        (Some (TLiteral (Reflect None "typing.Literal['image', 'snapshot', 'volume']")
                 [LiteralValue (JStr "image") "'image'";
                  LiteralValue (JStr "snapshot") "'snapshot'";
                  LiteralValue (JStr "volume") "'volume'"])));
     ("image_id", TNotRequired (Reflect None "typing.NotRequired[str]") (Some TStr));
     ("size", TNotRequired (Reflect None "typing.NotRequired[int]") (Some TInt))].

(** A client with one service, [cloud], whose resource [instances] has
    the method [create]. *)
Definition instances_create : bound_method :=
  BoundMethod 1 "create" [MkParam "name" TStr false]
    (Some "Create an instance.")
    (Inspected "Create an instance." [("name", TStr)]).

Definition cloud_client : client :=
  Client (Some "gcore._client")
    [("cloud",
      SdkObject (Some "gcore.resources.cloud.cloud") "cloudresource" []
        [("instances",
          SdkObject (Some "gcore.resources.cloud.instances")
            "instancesresource" [("create", instances_create)] [])])].

Definition cloud_catalog : ResourceMethodsDict :=
  [("cloud.instances",
    [("create",
      MethodInfo [MkParam "name" TStr false] "Create an instance."
        [("name", TStr)] None instances_create)])].

(** The state of a process that has not discovered anything yet. *)
Definition initial_state : state := State ∅ None.

(** The entries of a configuration string: its comma-separated pieces,
    stripped, without the blank ones. *)
Definition config_entries (config_str : string) : list string :=
  PyStr.strip <$>
    filter (λ entry, PyStr.truthy (PyStr.strip entry) = true)
           (PyStr.split "," config_str).

(** The available names a list of pattern filters selects, shortened:
    the pattern loop of [get_allowed_tools_list] and the shortening that
    follows it. *)
Definition pattern_tools_of (pattern_filters : list string)
    (all_available_tools : option (list string)) : list string :=
  let tools := default [] all_available_tools in
  if bool_decide (pattern_filters ≠ []) && bool_decide (tools ≠ [])
  then Settings.generate_short_tool_name <$>
         filter (λ tool_name,
                   Config.matched_by_some pattern_filters tool_name = true)
                tools
  else [].

(** The abbreviation of one segment of a dotted name. *)
Definition shorten_part (rules : gmap string string) (part : string)
  : string :=
  default part (rules !! part).

(** Every full method name the merged toolset table lists. *)
Definition listed_tool_names : list string :=
  remove_dups (map_to_list Config.get_raw_toolsets ≫= snd).

(** A parameterless method discovered as [cloud.projects.list], and the
    tool registered for it. *)
Definition projects_list : bound_method :=
  BoundMethod 2 "list" [] (Some "List projects.")
    (Inspected "List projects." []).

Definition projects_list_tool : tool :=
  Tool (set_name "cloud_projs_ls"
          (make_wrapper projects_list "cloud.projects.list"))
       "cloud_projs_ls" "List projects.".

(** The names the method loops record are public. *)
Definition public_names (entry : odict method_info) : Prop :=
  Forall (λ m, PyStr.startswith m.1 "_" = false) entry.

Definition catalog_public (catalog : ResourceMethodsDict) : Prop :=
  Forall (λ e, public_names e.2) catalog.

(** Where an empty method table can be: at the names in [services]. *)
Definition empty_only_at (services : list string)
    (catalog : ResourceMethodsDict) : Prop :=
  Forall (λ e, e.2 = [] → e.1 ∈ services) catalog.

(** The saved table only gains the field being described. *)
Definition documents_only (field_names : list string) (st : doc_scan)
  : Prop :=
  (∀ f, is_Some (field_docs st !! f) → f ∈ field_names)
  ∧ (∀ f, current_field st = Some f → f ∈ field_names).


(** What the translation makes of one character of a filter. *)
Definition translate_char (c : ascii) : string :=
  if bool_decide (c = "*"%char) then ".*"
  else if Re.is_special c then String "\" (String c EmptyString)
  else String c EmptyString.

Fixpoint translate_glob (pattern : string) : string :=
  match pattern with
  | EmptyString => EmptyString
  | String c pattern' => translate_char c +:+ translate_glob pattern'
  end.

(** The path is the service's name or lies below it. *)
Definition under_service (service path : string) : Prop :=
  path = service ∨ PyStr.startswith path (service +:+ ".") = true.

Definition paths_under (services : list string)
    (catalog : ResourceMethodsDict) : Prop :=
  Forall (λ e, ∃ service, service ∈ services ∧ under_service service e.1)
         catalog.

(** The members of the client the walk takes for services. *)
Definition is_service (base : string) (member : string * sdk_object)
  : bool :=
  negb (PyStr.startswith member.1 "_"
        || bool_decide (member.1 ∈ skip_top_level))
  && in_sdk base member.2.

(* ================================================================== *)
(** * Properties *)
(* ================================================================== *)

(** ** The repository's tests, replayed on the embedding *)

Example test_parse_mixed_entries :
  Config.parse_unified_tool_config
    {[ "instances" := []; "management" := [] ]}
    "instances,management,cloud.volumes.*,dns.records.create"
  = (["instances"; "management"], ["cloud.volumes.*"; "dns.records.create"]).
Proof. vm_compute. reflexivity. Qed.

Example test_parse_whitespace :
  Config.parse_unified_tool_config
    {[ "instances" := []; "management" := [] ]}
    " instances , cloud.volumes.* , management , dns.* "
  = (["instances"; "management"], ["cloud.volumes.*"; "dns.*"]).
Proof. vm_compute. reflexivity. Qed.

Example test_unified_new_config :
  Config.get_allowed_tools_list test_toolsets Config.DEFAULT_TOOLSETS
    {[ Config.UNIFIED_TOOLS_ENV_VAR := "instances,cloud.volumes.*" ]}
    (Some ["cloud.instances.create"; "cloud.instances.delete";
           "cloud.volumes.create"; "cloud.volumes.delete"])
  = ["cloud.insts.new"; "cloud.vols.new"; "cloud.vols.del"].
Proof. vm_compute. reflexivity. Qed.

Example test_empty_config_uses_defaults :
  Config.get_allowed_tools_list test_toolsets ["instances"] ∅
    (Some ["cloud.instances.create"])
  = ["cloud.insts.new"].
Proof. vm_compute. reflexivity. Qed.

Example test_convert_pattern_to_regex :
  Config.convert_pattern_to_regex "cloud.instances.create"
  = "^cloud\.instances\.create$"
  ∧ Config.convert_pattern_to_regex "cloud.*" = "^cloud\..*$"
  ∧ Config.convert_pattern_to_regex "cloud.*.create" = "^cloud\..*\.create$".
Proof. split_and!; vm_compute; reflexivity. Qed.

Example test_pattern_cloud_star :
  Config.pattern_matches "cloud.*" "cloud.instances.create" = true
  ∧ Config.pattern_matches "cloud.*" "other.instances.create" = false.
Proof. split; vm_compute; reflexivity. Qed.

Example test_derive_allowed_resources :
  Config.derive_allowed_resources ["cloud.insts.new"; "cloud.vols.ls"]
  = ["insts"; "vols"].
Proof. vm_compute. reflexivity. Qed.

Example test_shorten_names :
  Settings.generate_short_tool_name "cloud.instances.create"
  = "cloud.insts.new"
  ∧ Settings.generate_short_tool_name
      "very.long.tool.name.with.many.segments.that.should.be.shortened"
    = "very.long.tool.name.with.many.segments.that.should.be.shorte".
Proof. split; vm_compute; reflexivity. Qed.

Example test_basic_and_literal_types :
  convert_param_type_to_schema_type TStr "" = [("type", JStr "string")]
  ∧ convert_param_type_to_schema_type TFloat "" = [("type", JStr "number")]
  ∧ convert_param_type_to_schema_type
      (TLiteral (Reflect None "typing.Literal['small', 'medium', 'large']")
         [LiteralValue (JStr "small") "'small'";
          LiteralValue (JStr "medium") "'medium'";
          LiteralValue (JStr "large") "'large'"]) ""
    = [("type", JStr "string");
       ("enum", JList [JStr "small"; JStr "medium"; JStr "large"]);
       ("description", JStr "Must be one of: 'small', 'medium', 'large'")].
Proof. split_and!; vm_compute; reflexivity. Qed.

Example test_dict_types :
  convert_param_type_to_schema_type
    (TDict (Reflect (Some "dict") "dict[str, int]") [TStr; TInt]) ""
  = [("type", JStr "object");
     ("additionalProperties", JObj [("type", JStr "integer")]);
     ("description",
      JStr "Dictionary with string keys and values of type int")].
Proof. vm_compute. reflexivity. Qed.

Example test_typeddict_conversion :
  convert_param_type_to_schema_type MockVolumeSpec ""
  = [("type", JStr "object");
     ("properties",
      JObj [("source",
             JObj [("type", JStr "string");
                   ("enum", JList [JStr "image"; JStr "snapshot";
                                   JStr "volume"]);
                   ("description",
                    JStr "Must be one of: 'image', 'snapshot', 'volume'")]);
            ("image_id", JObj [("type", JStr "string");
                               ("description", JStr "Field: image_id")]);
            ("size", JObj [("type", JStr "integer");
                           ("description", JStr "Field: size")])]);
     ("required", JList [JStr "source"]);
     ("description",
      JStr "Object of type MockVolumeSpec: Mock volume specification for testing.")].
Proof. vm_compute. reflexivity. Qed.

Example test_security_groups_special_handling :
  PyDict.get "examples"
    (convert_param_type_to_schema_type list_str "security_groups")
  = Some (JList [JList [JStr "<sg_uuid1>"; JStr "<sg_uuid2>"]]).
Proof. vm_compute. reflexivity. Qed.

Example test_nested_optional_union :
  PyDict.get "oneOf"
    (convert_param_type_to_schema_type
       (TUnion (Reflect None "typing.Union[str, list[int], NoneType]")
          [TStr; TContainer (Reflect (Some "list") "list[int]") [TInt];
           TNoneType]) "")
  = Some (JList [JObj [("type", JStr "string")];
                 JObj [("type", JStr "array");
                       ("items", JObj [("type", JStr "integer")]);
                       ("description", JStr "Array of int")];
                 JObj [("type", JStr "null")]]).
Proof. vm_compute. reflexivity. Qed.

Example test_discovery_of_nested_resource :
  walk cloud_client = Some cloud_catalog
  ∧ iter_catalog cloud_catalog = [("cloud.instances.create", instances_create)].
Proof. split; vm_compute; reflexivity. Qed.

(** ** Strings *)

Section string_facts.

Lemma take_length n s :
  String.length (PyStr.take n s) = (n `min` String.length s)%nat.
Proof.
  revert s; induction n as [|n IH]; intros [|c s]; simpl; auto.
Qed.

Lemma slice_to_length s stop :
  0 ≤ stop →
  PyStr.len (PyStr.slice_to s stop) = Z.min stop (PyStr.len s).
Proof.
  intros Hstop. unfold PyStr.slice_to, PyStr.len.
  rewrite bool_decide_eq_true_2 by done.
  rewrite take_length. lia.
Qed.

Lemma slice_to_take s stop :
  0 ≤ stop → PyStr.slice_to s stop = PyStr.take (Z.to_nat stop) s.
Proof.
  intros Hstop. unfold PyStr.slice_to.
  by rewrite bool_decide_eq_true_2.
Qed.

End string_facts.

(** ** Name shortening *)

Lemma short_name_with_cases rules name max_len :
  Settings.short_name_with rules name max_len =
    if bool_decide (PyStr.len (short_name_untruncated rules name) ≤ max_len)
    then short_name_untruncated rules name
    else PyStr.slice_to (short_name_untruncated rules name) max_len.
Proof. reflexivity. Qed.

(** For a non-negative bound the result never exceeds it, whatever the
    rule table. *)
Lemma short_name_with_bound rules name max_len :
  0 ≤ max_len →
  PyStr.len (Settings.short_name_with rules name max_len)
  = Z.min (PyStr.len (short_name_untruncated rules name)) max_len.
Proof.
  intros Hmax. rewrite short_name_with_cases.
  case_bool_decide as Hfit.
  - lia.
  - rewrite slice_to_length by done. lia.
Qed.

(** The shortened name depends on the rule table through the entries
    of the name's segments only. *)
Lemma short_name_with_table rules1 rules2 name max_len :
  (∀ part, part ∈ PyStr.split "." name → rules1 !! part = rules2 !! part) →
  Settings.short_name_with rules1 name max_len
  = Settings.short_name_with rules2 name max_len.
Proof.
  intros Hagree. rewrite !short_name_with_cases.
  assert (short_name_untruncated rules1 name
          = short_name_untruncated rules2 name) as ->; [|done].
  unfold short_name_untruncated. f_equal.
  apply list_fmap_ext. intros i part Hpart.
  rewrite Hagree; [done|]. by eapply list_elem_of_lookup_2.
Qed.

(** C9.  For every dotted name the shortened name has at most 60
    characters: it is the segment-wise shortened name when that fits,
    and its first 60 characters otherwise, so that a truncated name has
    exactly 60 characters.  The result is a function of the rule table,
    the name and the bound alone: it is the value of [short_name_with]
    at the module's rule table. *)
Theorem generate_short_tool_name_bound (name : string) :
  let untruncated :=
    short_name_untruncated Settings.get_shortening_rules name in
  Settings.generate_short_tool_name name =
    (if bool_decide (PyStr.len untruncated ≤ 60) then untruncated
     else PyStr.take 60 untruncated)
  ∧ PyStr.len (Settings.generate_short_tool_name name)
    = Z.min (PyStr.len untruncated) 60
  ∧ PyStr.len (Settings.generate_short_tool_name name) ≤ 60
  ∧ Settings.generate_short_tool_name name
    = Settings.short_name_with Settings.get_shortening_rules name
        Settings.MAX_TOOL_NAME_LEN.
Proof.
  intros untruncated.
  unfold Settings.generate_short_tool_name,
    Settings.generate_short_tool_name_len, Settings.MAX_TOOL_NAME_LEN.
  split_and!.
  - rewrite short_name_with_cases. fold untruncated.
    case_bool_decide; [done|]. by rewrite slice_to_take.
  - by rewrite short_name_with_bound.
  - rewrite short_name_with_bound by done. lia.
  - done.
Qed.

(** ** Toolset tables *)

(** C10.  Both the domain handler (twenty names) and the additional
    table define [baremetal]; the merged table keeps the additional
    definition only: exactly its six names, shortened in [TOOLSETS].
    Selecting the toolset by name yields those six, and no domain
    entry outside the six is in the merged toolset or, shortened, in
    the selection. *)
Theorem baremetal_keeps_additional_definition :
  length domain_baremetal = 20%nat
  ∧ Config.additional_toolsets !! "baremetal" = Some additional_baremetal
  ∧ Config.get_raw_toolsets !! "baremetal" = Some additional_baremetal
  ∧ Config.TOOLSETS !! "baremetal"
    = Some (Settings.generate_short_tool_name <$> additional_baremetal)
  ∧ Config.allowed_tools env_baremetal None
    = Settings.generate_short_tool_name <$> additional_baremetal
  ∧ Forall (λ name,
              name ∈ additional_baremetal
              ∨ ((name ∉ default [] (Config.get_raw_toolsets !! "baremetal"))
                 ∧ (Settings.generate_short_tool_name name
                    ∉ Config.allowed_tools env_baremetal None)))
           domain_baremetal
  ∧ length (filter (λ name, name ∉ additional_baremetal) domain_baremetal)
    = 18%nat.
Proof.
  split_and!; try (vm_compute; reflexivity).
  apply (bool_decide_unpack _). vm_compute. reflexivity.
Qed.

(** ** Tool selection: defaults *)

Section selection_facts.
Variable TOOLSETS : gmap string (list string).
Variable DEFAULT_TOOLSETS : list string.

Lemma unified_config_unset (env : Config.environ) :
  env !! Config.UNIFIED_TOOLS_ENV_VAR = None →
  Config.get_unified_tool_config TOOLSETS env = ([], []).
Proof. intros Hunset. unfold Config.get_unified_tool_config. by rewrite Hunset. Qed.

Lemma unified_config_empty (env : Config.environ) :
  env !! Config.UNIFIED_TOOLS_ENV_VAR = Some EmptyString →
  Config.get_unified_tool_config TOOLSETS env = ([], []).
Proof. intros Hempty. unfold Config.get_unified_tool_config. by rewrite Hempty. Qed.

(** Without the variable the default toolsets are selected. *)
Lemma allowed_tools_unset env avail :
  env !! Config.UNIFIED_TOOLS_ENV_VAR = None →
  Config.get_allowed_tools_list TOOLSETS DEFAULT_TOOLSETS env avail
  = fromkeys (toolset_tools_of TOOLSETS DEFAULT_TOOLSETS ++ []).
Proof.
  intros Hunset. unfold Config.get_allowed_tools_list.
  by rewrite (unified_config_unset _ Hunset), Hunset.
Qed.

(** With the variable set to the empty string nothing is selected. *)
Lemma allowed_tools_empty env avail :
  env !! Config.UNIFIED_TOOLS_ENV_VAR = Some EmptyString →
  Config.get_allowed_tools_list TOOLSETS DEFAULT_TOOLSETS env avail = [].
Proof.
  intros Hempty. unfold Config.get_allowed_tools_list.
  by rewrite (unified_config_empty _ Hempty), Hempty.
Qed.

End selection_facts.

(** C6.  In any environment from which [GCORE_TOOLS] is absent the
    selection is the tools of the default toolsets [management] and
    [instances], whatever the available names; in any environment where
    it is the empty string the selection is empty; the first selection
    is not empty, so the two cases differ. *)
Theorem unset_defaults_but_empty_stays_empty
    (env : Config.environ) (avail : option (list string)) :
  Config.allowed_tools (delete Config.UNIFIED_TOOLS_ENV_VAR env) avail
  = toolset_tools_of Config.TOOLSETS Config.DEFAULT_TOOLSETS
  ∧ Config.DEFAULT_TOOLSETS = ["management"; "instances"]
  ∧ Config.allowed_tools
      (<[Config.UNIFIED_TOOLS_ENV_VAR := EmptyString]> env) avail = []
  ∧ length (Config.allowed_tools
              (delete Config.UNIFIED_TOOLS_ENV_VAR env) avail) = 45%nat
  ∧ Config.allowed_tools (delete Config.UNIFIED_TOOLS_ENV_VAR env) avail
    ≠ Config.allowed_tools
        (<[Config.UNIFIED_TOOLS_ENV_VAR := EmptyString]> env) avail.
Proof.
  assert (Config.allowed_tools (delete Config.UNIFIED_TOOLS_ENV_VAR env) avail
          = toolset_tools_of Config.TOOLSETS Config.DEFAULT_TOOLSETS) as Hunset.
  { unfold Config.allowed_tools.
    rewrite allowed_tools_unset by apply lookup_delete_eq.
    vm_compute. reflexivity. }
  assert (Config.allowed_tools
            (<[Config.UNIFIED_TOOLS_ENV_VAR := EmptyString]> env) avail = [])
    as Hempty.
  { unfold Config.allowed_tools.
    by rewrite allowed_tools_empty by apply lookup_insert_eq. }
  rewrite Hunset, Hempty.
  split_and!; [done | done | done | by vm_compute | by vm_compute].
Qed.

(** ** Pattern filters *)

Section regex_facts.

Lemma special_not_word c : Re.is_special c = true → Re.is_word c = false.
Proof. destruct c as [[] [] [] [] [] [] [] []]; vm_compute; congruence. Qed.

Lemma meta_is_special c : Re.is_meta c = true → Re.is_special c = true.
Proof. destruct c as [[] [] [] [] [] [] [] []]; vm_compute; congruence. Qed.

Lemma backslash_is_special : Re.is_special "\"%char = true.
Proof. reflexivity. Qed.

Lemma escape_head_not_star p : head_char (Re.escape p) ≠ Some "*"%char.
Proof.
  destruct p as [|c p]; simpl; [done|].
  destruct (Re.is_special c) eqn:Hc; simpl; [done|].
  intros [= ->]. done.
Qed.

Lemma replace_head_not_star s :
  head_char s ≠ Some "*"%char →
  head_char (Re.replace_escaped_star s) ≠ Some "*"%char.
Proof.
  destruct s as [|c [|c' s]]; simpl; [done..|].
  intros Hc. case_match; simpl; [done|]. done.
Qed.

Lemma replace_cons_no_backslash c s :
  c ≠ "\"%char →
  Re.replace_escaped_star (String c s) = String c (Re.replace_escaped_star s).
Proof.
  intros Hc. destruct s as [|c' s]; simpl; [done|].
  by rewrite (bool_decide_eq_false_2 _ Hc).
Qed.

Lemma replace_cons_no_star c s :
  head_char s ≠ Some "*"%char →
  Re.replace_escaped_star (String c s) = String c (Re.replace_escaped_star s).
Proof.
  intros Hs. destruct s as [|c' s]; simpl; [done|].
  rewrite (bool_decide_eq_false_2 (c' = "*"%char)); [|by intros ->].
  by rewrite andb_false_r.
Qed.

Lemma parse_literal_escaped e r :
  Re.is_word e = false → head_char r ≠ Some "*"%char →
  Re.parse (String "\" (String e r)) = cons (Re.One (Re.Lit e)) <$> Re.parse r.
Proof.
  intros He Hr. simpl. rewrite He.
  destruct r as [|c r]; [done|].
  destruct (decide (c = "*"%char)) as [->|Hc]; [done|].
  destruct c as [[] [] [] [] [] [] [] []]; try done.
Qed.

Lemma parse_literal_plain c r :
  Re.is_special c = false → head_char r ≠ Some "*"%char →
  Re.parse (String c r) = cons (Re.One (Re.Lit c)) <$> Re.parse r.
Proof.
  intros Hc Hr.
  assert (c ≠ "\"%char) as Hbs by (intros ->; done).
  assert (c ≠ "."%char) as Hdot by (intros ->; done).
  assert (Re.is_meta c = false) as Hmeta.
  { destruct (Re.is_meta c) eqn:Hm; [|done].
    apply meta_is_special in Hm. congruence. }
  cbn [Re.parse].
  rewrite (bool_decide_eq_false_2 _ Hbs), (bool_decide_eq_false_2 _ Hdot), Hmeta.
  destruct r as [|c' r]; [done|].
  destruct (decide (c' = "*"%char)) as [->|Hc']; [done|].
  destruct c' as [[] [] [] [] [] [] [] []]; try done.
Qed.

(** The pattern the selection code hands to [re.match] always
    compiles, to [glob_items]. *)
Lemma parse_translated_pattern p :
  Re.parse (Re.replace_escaped_star (Re.escape p)) = Some (glob_items p).
Proof.
  induction p as [|c p IH]; [done|].
  cbn [Re.escape glob_items].
  destruct (decide (c = "*"%char)) as [->|Hstar].
  - (* a star: escaped, replaced by dot star *)
    change (Re.is_special "*") with true. cbn iota.
    change (Re.replace_escaped_star (String "\" (String "*" (Re.escape p))))
      with (String "." (String "*" (Re.replace_escaped_star (Re.escape p)))).
    cbn [Re.parse]. rewrite IH. done.
  - rewrite (bool_decide_eq_false_2 _ Hstar).
    pose proof (escape_head_not_star p) as Hhead.
    pose proof (replace_head_not_star _ Hhead) as Hhead'.
    destruct (Re.is_special c) eqn:Hc; cbv iota.
    + (* another special character: escaped, kept *)
      rewrite (replace_cons_no_star "\" (String c (Re.escape p)))
        by (simpl; congruence).
      rewrite (replace_cons_no_star c) by done.
      rewrite parse_literal_escaped by eauto using special_not_word.
      by rewrite IH.
    + assert (c ≠ "\"%char) as Hbs by (intros ->; done).
      rewrite replace_cons_no_backslash by done.
      rewrite parse_literal_plain by done.
      by rewrite IH.
Qed.

Lemma translated_pattern_matches p n :
  Re.matches (Re.replace_escaped_star (Re.escape p)) n
  = Re.match_here (glob_items p) n.
Proof. unfold Re.matches. by rewrite parse_translated_pattern. Qed.

(** A filter without a star compiles to literals only; it matches at
    the start of a name exactly when it is a prefix of the name. *)
Lemma match_here_no_star p n :
  PyStr.contains_char "*" p = false →
  Re.match_here (glob_items p) n = PyStr.startswith n p.
Proof.
  revert n. induction p as [|c p IH]; intros n Hp; [by destruct n|].
  simpl in Hp. apply orb_false_elim in Hp as [Hc Hp].
  cbn [glob_items]. rewrite Hc. destruct n as [|c' n]; [done|].
  cbn [Re.match_here Re.atom_matches PyStr.startswith].
  by rewrite IH.
Qed.

(** Where the specification's match accepts a name free of line
    feeds, so does the code's. *)
Lemma match_here_glob_matches p n :
  PyStr.contains_char LF n = false →
  glob_matches p n = true → Re.match_here (glob_items p) n = true.
Proof.
  revert n. induction p as [|c p IH]; intros n Hn Hm; [done|].
  cbn [glob_items glob_matches] in *.
  destruct (bool_decide (c = "*"%char)) eqn:Hc.
  - cbn [Re.match_here]. clear Hc.
    induction n as [|c' n IHn].
    + apply orb_true_iff in Hm as [Hm|?]; [|done].
      by rewrite IH.
    + simpl in Hn. apply orb_false_elim in Hn as [Hc' Hn].
      apply orb_true_iff in Hm as [Hm|Hm].
      * rewrite IH; [done| |done]. simpl. by rewrite Hc', Hn.
      * apply orb_true_iff. right.
        cbn [Re.atom_matches]. rewrite Hc'. simpl. by apply IHn.
  - destruct n as [|c' n]; [done|].
    simpl in Hn. apply orb_false_elim in Hn as [_ Hn].
    apply andb_true_iff in Hm as [Hcc Hm].
    cbn [Re.match_here Re.atom_matches]. rewrite Hcc. simpl. by apply IH.
Qed.

Lemma match_here_star a r s :
  Re.match_here (Re.Star a :: r) s =
    Re.match_here r s ||
    match s with
    | EmptyString => false
    | String c s' => Re.atom_matches a c && Re.match_here (Re.Star a :: r) s'
    end.
Proof. by destruct s. Qed.

Lemma glob_line_matches_star p m :
  glob_line_matches (String "*" p) m =
    glob_line_matches p m ||
    match m with
    | EmptyString => false
    | String c m' =>
        negb (bool_decide (c = LF)) && glob_line_matches (String "*" p) m'
    end.
Proof. by destruct m. Qed.

Lemma glob_line_matches_literal c p m :
  c ≠ "*"%char →
  glob_line_matches (String c p) m =
    match m with
    | EmptyString => false
    | String c' m' => bool_decide (c' = c) && glob_line_matches p m'
    end.
Proof.
  intros Hc. cbn [glob_line_matches]. by rewrite bool_decide_eq_false_2.
Qed.

(** [re.match] on the translated pattern accepts a name exactly when
    some prefix of the name matches the whole filter. *)
Lemma match_here_prefix p n :
  Re.match_here (glob_items p) n = true
  ↔ ∃ k, glob_line_matches p (PyStr.take k n) = true.
Proof.
  revert n. induction p as [|c p IH]; intros n.
  - split; [|done]. intros _. exists 0%nat. by destruct n.
  - destruct (decide (c = "*"%char)) as [->|Hc].
    + (* a star *)
      change (glob_items (String "*" p))
        with (Re.Star Re.AnyChar :: glob_items p).
      induction n as [|c' n IHn].
      * rewrite match_here_star, orb_false_r, IH.
        split; intros [k Hk]; exists k.
        -- rewrite glob_line_matches_star, Hk. done.
        -- rewrite glob_line_matches_star in Hk.
           destruct k; simpl in Hk; by rewrite orb_false_r in Hk.
      * rewrite match_here_star, orb_true_iff, andb_true_iff, IH, IHn.
        cbn [Re.atom_matches]. split.
        -- intros [[k Hk]|[Hc' [k Hk]]].
           ++ exists k. by rewrite glob_line_matches_star, Hk.
           ++ exists (S k). cbn [PyStr.take].
              rewrite glob_line_matches_star, Hc', Hk.
              by rewrite orb_true_r.
        -- intros [k Hk]. rewrite glob_line_matches_star in Hk.
           apply orb_true_iff in Hk as [Hk|Hk]; [left; by exists k|].
           destruct k as [|k]; [done|]. cbn [PyStr.take] in Hk.
           apply andb_true_iff in Hk as [Hc' Hk]. right. eauto.
    + cbn [glob_items]. rewrite (bool_decide_eq_false_2 _ Hc).
      destruct n as [|c' n].
      * split; [done|]. intros [k Hk].
        rewrite glob_line_matches_literal in Hk by done. by destruct k.
      * cbn [Re.match_here Re.atom_matches].
        rewrite andb_true_iff, IH. split.
        -- intros [Hcc [k Hk]]. exists (S k). cbn [PyStr.take].
           rewrite glob_line_matches_literal by done.
           by rewrite Hcc, Hk.
        -- intros [k Hk].
           rewrite glob_line_matches_literal in Hk by done.
           destruct k as [|k]; [done|]. cbn [PyStr.take] in Hk.
           apply andb_true_iff in Hk as [Hcc Hk]. eauto.
Qed.

End regex_facts.

(** A filter without a star selects a name exactly when it equals it. *)
Lemma pattern_matches_no_star p n :
  PyStr.contains_char "*" p = false →
  Config.pattern_matches p n = bool_decide (p = n).
Proof.
  intros Hp. unfold Config.pattern_matches. rewrite Hp. simpl.
  apply orb_false_r.
Qed.

(** What the selection loop accepts: the equal name, or for a filter
    with a star any name that has a prefix matching the filter. *)
Lemma pattern_matches_prefix p n :
  Config.pattern_matches p n = true
  ↔ p = n
    ∨ (PyStr.contains_char "*" p = true
       ∧ ∃ k, glob_line_matches p (PyStr.take k n) = true).
Proof.
  unfold Config.pattern_matches.
  rewrite orb_true_iff, andb_true_iff, bool_decide_eq_true.
  by rewrite translated_pattern_matches, match_here_prefix.
Qed.

(** The code selects every name the specification's match selects. *)
Lemma pattern_matches_complete p n :
  PyStr.contains_char LF n = false →
  spec_pattern_matches p n = true → Config.pattern_matches p n = true.
Proof.
  intros Hn. unfold spec_pattern_matches, Config.pattern_matches.
  intros [Heq|[Hstar Hm]%andb_true_iff]%orb_true_iff;
    apply orb_true_iff; [by left|right].
  rewrite Hstar, translated_pattern_matches. simpl.
  by apply match_here_glob_matches.
Qed.

(** C1.  The filter [cloud.*.create] does not match the whole name
    [cloud.instances.images.create_from_volume], yet the selection loop
    accepts the name, on its prefix [cloud.instances.images.create],
    and selects the method: the translated pattern is tried with
    [re.match], which anchors it at the start of the name only, while
    [convert_pattern_to_regex] closes the same translation with an end
    anchor. *)
Theorem pattern_filter_accepts_prefix_match :
  Config.pattern_matches "cloud.*.create"
    "cloud.instances.images.create_from_volume" = true
  ∧ spec_pattern_matches "cloud.*.create"
      "cloud.instances.images.create_from_volume" = false
  ∧ Config.allowed_tools env_create_filter
      (Some ["cloud.instances.images.create_from_volume"])
    = ["cloud.insts.imgs.new_vol"]
  ∧ PyStr.take 29 "cloud.instances.images.create_from_volume"
    = "cloud.instances.images.create"
  ∧ glob_line_matches "cloud.*.create" "cloud.instances.images.create" = true
  ∧ Re.replace_escaped_star (Re.escape "cloud.*.create")
    = "cloud\..*\.create"
  ∧ Config.convert_pattern_to_regex "cloud.*.create"
    = "^cloud\..*\.create$".
Proof. split_and!; vm_compute; reflexivity. Qed.

(** ** Schema fragments *)

Section dict_facts.
Context {V : Type}.
Implicit Types (d : odict V) (k : string) (v : V).

Lemma get_set d k k' v :
  PyDict.get k (PyDict.set k' v d)
  = if bool_decide (k' = k) then Some v else PyDict.get k d.
Proof.
  induction d as [|[k0 w] d IH]; simpl.
  - done.
  - destruct (decide (k0 = k')) as [->|Hne].
    + rewrite bool_decide_eq_true_2 by done. simpl.
      by case_bool_decide.
    + rewrite (bool_decide_eq_false_2 _ Hne). simpl. rewrite IH.
      repeat case_bool_decide; congruence.
Qed.



Lemma has_true_get d k : PyDict.has k d = true ↔ is_Some (PyDict.get k d).
Proof. unfold PyDict.has. apply bool_decide_eq_true. Qed.


End dict_facts.




Section union_facts.





End union_facts.

Example union_str_int :
  convert_param_type_to_schema_type
    (TUnion (Reflect None "typing.Union[str, int]") [TStr; TInt]) "value"
  = [("oneOf", JList [JObj [("type", JStr "string")];
                      JObj [("type", JStr "integer")]]);
     ("description", JStr "One of the following types: str, int")].
Proof. vm_compute. reflexivity. Qed.

Section type_key.







End type_key.



(** ** Optional types *)







(** ** Tool registration *)

Section annotation_facts.

Lemma annotate_set acc param :
  annotate acc param = PyDict.set (p_name param) (annotation_of param) acc.
Proof. unfold annotate, annotation_of. by destruct (p_has_default param). Qed.

Lemma simple_annotations_fold sig :
  simple_annotations sig = PyDict.set "return" AnnAny (foldl annotate [] sig).
Proof. reflexivity. Qed.

Lemma annotate_fold_other sig acc name :
  name ∉ p_name <$> sig →
  PyDict.get name (foldl annotate acc sig) = PyDict.get name acc.
Proof.
  revert acc. induction sig as [|q sig IH]; intros acc Hname; [done|].
  rewrite fmap_cons, not_elem_of_cons in Hname. destruct Hname as [Hq Hsig].
  simpl. rewrite IH by done. rewrite annotate_set, get_set.
  by rewrite bool_decide_eq_false_2.
Qed.

Lemma annotate_fold_lookup sig acc param :
  NoDup (p_name <$> sig) → param ∈ sig →
  PyDict.get (p_name param) (foldl annotate acc sig)
  = Some (annotation_of param).
Proof.
  revert acc. induction sig as [|q sig IH]; intros acc Hnodup Hin.
  - by apply elem_of_nil in Hin.
  - rewrite fmap_cons in Hnodup. apply NoDup_cons in Hnodup as [Hq Hnodup].
    apply elem_of_cons in Hin as [->|Hin]; simpl.
    + rewrite annotate_fold_other by done.
      rewrite annotate_set, get_set. by rewrite bool_decide_eq_true_2.
    + by apply IH.
Qed.

Lemma simple_annotations_lookup sig param :
  NoDup (p_name <$> sig) → param ∈ sig → p_name param ≠ "return" →
  PyDict.get (p_name param) (simple_annotations sig)
  = Some (annotation_of param).
Proof.
  intros Hnodup Hin Hret. rewrite simple_annotations_fold, get_set.
  rewrite bool_decide_eq_false_2 by done.
  by apply annotate_fold_lookup.
Qed.

End annotation_facts.

(** C3, as stated, fails: the wrappers of two methods whose parameter
    [size] is declared [int] in one and [list[str]] in the other carry
    the same annotations, [str] for [size], while the translator gives
    the two declared types different fragments; so nothing derived from
    what a wrapper carries is the translator's fragment for both. *)
Lemma wrapper_annotations_ignore_declared_type :
  simple_annotations (bm_signature resize_int)
  = [("size", AnnStr); ("return", AnnAny)]
  ∧ simple_annotations (bm_signature resize_list)
    = [("size", AnnStr); ("return", AnnAny)]
  ∧ convert_param_type_to_schema_type TInt "size"
    = [("type", JStr "integer")]
  ∧ convert_param_type_to_schema_type list_str "size"
    = [("type", JStr "array"); ("items", JObj [("type", JStr "string")]);
       ("description", JStr "Array of str")]
  ∧ ¬ (∃ derive,
         carries_translated_fragments derive resize_int
         ∧ carries_translated_fragments derive resize_list).
Proof.
  split_and!; try reflexivity.
  intros (derive & Hint & Hlist).
  specialize (Hint (MkParam "size" TInt false)).
  specialize (Hlist (MkParam "size" list_str false)).
  unfold resize_int, resize_list in *. simpl in Hint, Hlist.
  assert (Some (derive AnnStr) = Some [("type", JStr "integer")]) as H1
    by (apply Hint; set_solver).
  assert (Some (derive AnnStr)
          = Some [("type", JStr "array");
                  ("items", JObj [("type", JStr "string")]);
                  ("description", JStr "Array of str")]) as H2
    by (apply Hlist; set_solver).
  rewrite H1 in H2. discriminate H2.
Qed.

(** C3, amended.  Every tool registered for the discovered methods
    wraps one of them, under the name made from its shortened name; for
    each parameter of that method (the names of a signature are
    distinct, and none is [return]) the wrapper's annotation is [str]
    when the parameter has no default and [str | None] when it has
    one, whatever type the parameter declares: a parameter is marked
    required exactly when it has no default.  The translator takes no
    part in registration. *)
Theorem registered_tool_annotations
    (env : Config.environ) (leaves : list (string * bound_method))
    (registered : tool) :
  registered ∈ registered_tools env leaves →
  ∃ full_name method,
    (full_name, method) ∈ leaves
    ∧ Settings.generate_short_tool_name full_name
      ∈ Config.allowed_tools env (Some (fst <$> leaves))
    ∧ w_method (tool_fn registered) = method
    ∧ tool_name registered
      = dots_to_underscores (Settings.generate_short_tool_name full_name)
    ∧ w_annotations (tool_fn registered)
      = simple_annotations (bm_signature method)
    ∧ (NoDup (p_name <$> bm_signature method) →
       ∀ param, param ∈ bm_signature method → p_name param ≠ "return" →
         PyDict.get (p_name param) (w_annotations (tool_fn registered))
         = Some (if p_has_default param then AnnStrOrNone else AnnStr)
         ∧ (PyDict.get (p_name param) (w_annotations (tool_fn registered))
            = Some AnnStr ↔ p_has_default param = false)).
Proof.
  unfold registered_tools. intros Hreg.
  apply list_elem_of_omap in Hreg as ([full_name method] & Hleaf & Hone).
  exists full_name, method. unfold register_one in Hone.
  case_bool_decide as Hallowed; [|done].
  injection Hone as <-. simpl.
  split_and!; try done.
  - by apply elem_of_list_to_set in Hallowed.
  - intros Hnodup param Hparam Hret.
    rewrite simple_annotations_lookup by done.
    unfold annotation_of. split; [done|].
    destruct (p_has_default param); split; congruence.
Qed.

Lemma registered_tool_annotations_witness :
  volumes_create_tool
    ∈ registered_tools env_volumes_filter
        [("cloud.volumes.create", volumes_create)]
  ∧ w_annotations (tool_fn volumes_create_tool)
    = [("size", AnnStr); ("name", AnnStrOrNone); ("return", AnnAny)]
  ∧ ∃ full_name method,
      (full_name, method) ∈ [("cloud.volumes.create", volumes_create)]
      ∧ w_method (tool_fn volumes_create_tool) = method
      ∧ w_annotations (tool_fn volumes_create_tool)
        = simple_annotations (bm_signature method).
Proof.
  assert (volumes_create_tool
            ∈ registered_tools env_volumes_filter
                [("cloud.volumes.create", volumes_create)]) as Hregistered.
  { vm_compute. left. }
  split; [exact Hregistered|]. split; [reflexivity|].
  destruct (registered_tool_annotations env_volumes_filter
              [("cloud.volumes.create", volumes_create)]
              volumes_create_tool Hregistered)
    as (full_name & method & Hleaf & _ & Hmethod & _ & Hannotations & _).
  exists full_name, method. auto.
Defined.

(** ** JSON coercion in the wrapper *)

Section wrapper_calls.
Variable json_loads : string → loads_result.
Variable full_name : string.

Local Abbreviation step := (convert_json_parameter json_loads full_name).

(** Once an exception has left the loop nothing more happens. *)
Lemma fold_raised keys log : foldl step (None, log) keys = (None, log).
Proof. induction keys as [|k keys IH]; [done|]. exact IH. Qed.

(** One iteration, by what it finds at its key. *)
Lemma step_outcome kw log k :
  match step (Some kw, log) k with
  | (Some kw1, log1) =>
      (∀ key, key ≠ k → kw1 !! key = kw !! key)
      ∧ (∀ record, record ∈ log → record ∈ log1)
      ∧ (∀ record, record ∈ log1 →
           record ∈ log
           ∨ ∃ text, record = Warning k full_name
                     ∧ kw !! k = Some (JStr text)
                     ∧ json_loads text = JSONDecodeError)
      ∧ ((∀ text, kw !! k ≠ Some (JStr text)) → kw1 !! k = kw !! k)
      ∧ (∀ text, kw !! k = Some (JStr text) →
           match json_loads text with
           | Decoded decoded => kw1 !! k = Some decoded
           | JSONDecodeError =>
               kw1 !! k = Some (JStr text) ∧ Warning k full_name ∈ log1
           | OtherError => False
           end)
  | (None, log1) =>
      log1 = log
      ∧ ∃ text, kw !! k = Some (JStr text) ∧ json_loads text = OtherError
  end.
Proof.
  unfold convert_json_parameter.
  destruct (kw !! k) as [v|] eqn:Hlook.
  - assert ((∃ text, v = JStr text) ∨ (∀ text, v ≠ JStr text))
      as [[text ->]|Hother]
      by (destruct v; eauto; right; intros text; discriminate).
    + destruct (json_loads text) as [decoded| |] eqn:Hloads.
      * split_and!.
        -- intros key Hne. by apply lookup_insert_ne.
        -- done.
        -- intros record Hin. by left.
        -- intros Hnot. by destruct (Hnot text).
        -- intros text' [= <-]. rewrite Hloads. apply lookup_insert_eq.
      * split_and!.
        -- done.
        -- intros record Hin. apply elem_of_app. by left.
        -- intros record [Hin|Hin%list_elem_of_singleton]%elem_of_app;
             [by left|right]. by exists text.
        -- done.
        -- intros text' [= <-]. rewrite Hloads. split; [done|].
           apply elem_of_app. right. by apply list_elem_of_singleton.
      * split; [done|]. by exists text.
    + destruct v; try (by destruct (Hother s));
        (split_and!;
         [ by intros | by intros | intros record Hin; by left | by intros
         | intros text Htext; discriminate Htext ]).
  - split_and!;
      [ by intros | by intros | intros record Hin; by left | by intros
      | intros text Htext; discriminate Htext ].
Qed.

(** The whole loop over keys without repetition, by what the keyword
    arguments hold at the start. *)
Lemma fold_outcome keys :
  ∀ kw log,
    NoDup keys →
    (∀ record,
       record ∈ (foldl step (Some kw, log) keys).2 →
       record ∈ log
       ∨ ∃ key text, record = Warning key full_name ∧ key ∈ keys
                     ∧ kw !! key = Some (JStr text)
                     ∧ json_loads text = JSONDecodeError)
    ∧ match (foldl step (Some kw, log) keys).1 with
      | Some final =>
          (∀ key, key ∉ keys → final !! key = kw !! key)
          ∧ (∀ key, (∀ text, kw !! key ≠ Some (JStr text)) →
                    final !! key = kw !! key)
          ∧ (∀ key text,
               key ∈ keys → kw !! key = Some (JStr text) →
               match json_loads text with
               | Decoded decoded => final !! key = Some decoded
               | JSONDecodeError =>
                   final !! key = Some (JStr text)
                   ∧ Warning key full_name
                       ∈ (foldl step (Some kw, log) keys).2
               | OtherError => False
               end)
          ∧ (∀ record, record ∈ log →
                       record ∈ (foldl step (Some kw, log) keys).2)
      | None =>
          ∃ key text, key ∈ keys ∧ kw !! key = Some (JStr text)
                      ∧ json_loads text = OtherError
      end.
Proof.
  induction keys as [|k keys IH]; intros kw log Hnodup.
  - cbn [foldl fst snd]. split; [by left|].
    split_and!; try done.
    intros key text Hin. by apply elem_of_nil in Hin.
  - apply NoDup_cons in Hnodup as [Hk Hnodup].
    cbn [foldl]. pose proof (step_outcome kw log k) as Hstep.
    destruct (step (Some kw, log) k) as [[kw1|] log1].
    + destruct Hstep as (Hsame & Hgrows & Hlog1 & Hkeeps & Hconverts).
      destruct (IH kw1 log1 Hnodup) as [Hlog Hfinal].
      assert (∀ key, key ∈ keys → kw1 !! key = kw !! key) as Hrest.
      { intros key Hin. apply Hsame. by intros ->. }
      split.
      * intros record Hin. destruct (Hlog record Hin)
          as [Hin1|(key & text & -> & Hkey & Hbound & Hloads)].
        -- destruct (Hlog1 record Hin1)
             as [?|(text & -> & Hbound & Hloads)]; [by left|right].
           exists k, text. split_and!; try done. apply list_elem_of_here.
        -- right. exists key, text. split_and!; try done.
           ++ by apply list_elem_of_further.
           ++ by rewrite <- Hrest.
      * destruct (foldl step (Some kw1, log1) keys) as [[final|] log'].
        -- cbn [fst snd] in *.
           destruct Hfinal as (Hout & Hnon & Hstr & Hlog').
           split_and!.
           ++ intros key [Hne Hnot]%not_elem_of_cons.
              rewrite Hout by done. by apply Hsame.
           ++ intros key Hnot. destruct (decide (key = k)) as [->|Hne].
              ** rewrite Hout by done. by apply Hkeeps.
              ** rewrite Hnon; [by apply Hsame|].
                 intros text. rewrite Hsame by done. apply Hnot.
           ++ intros key text [->|Hin]%elem_of_cons Hbound.
              ** specialize (Hconverts text Hbound).
                 rewrite Hout by done.
                 destruct (json_loads text); [done| |done].
                 destruct Hconverts as [? ?]. split; [done|]. by apply Hlog'.
              ** apply Hstr; [done|]. by rewrite Hrest.
           ++ intros record Hin. by apply Hlog', Hgrows.
        -- cbn [fst] in Hfinal.
           destruct Hfinal as (key & text & Hin & Hbound & Hloads).
           exists key, text. split_and!; try done.
           ++ by apply list_elem_of_further.
           ++ by rewrite <- Hrest.
    + destruct Hstep as (-> & text & Hbound & Hloads).
      rewrite fold_raised. cbn [fst snd]. split; [by left|].
      exists k, text. split_and!; try done. apply list_elem_of_here.
Qed.

(** The loop of the wrapper, over the JSON conversion parameters. *)
Lemma prepare_kwargs_outcome kwargs :
  let filtered := filter (λ kv : string * json, is_None kv.2 = false) kwargs in
  let params := GcoreDomainHandler.get_json_conversion_parameters in
  (∀ record,
     record ∈ (prepare_kwargs json_loads full_name kwargs).2 →
     ∃ key text, record = Warning key full_name ∧ key ∈ params
                 ∧ filtered !! key = Some (JStr text)
                 ∧ json_loads text = JSONDecodeError)
  ∧ match (prepare_kwargs json_loads full_name kwargs).1 with
    | Some final =>
        (∀ key, key ∉ params → final !! key = filtered !! key)
        ∧ (∀ key, (∀ text, filtered !! key ≠ Some (JStr text)) →
                  final !! key = filtered !! key)
        ∧ (∀ key text,
             key ∈ params → filtered !! key = Some (JStr text) →
             match json_loads text with
             | Decoded decoded => final !! key = Some decoded
             | JSONDecodeError =>
                 final !! key = Some (JStr text)
                 ∧ Warning key full_name
                     ∈ (prepare_kwargs json_loads full_name kwargs).2
             | OtherError => False
             end)
    | None =>
        ∃ key text, key ∈ params ∧ filtered !! key = Some (JStr text)
                    ∧ json_loads text = OtherError
    end.
Proof.
  intros filtered params. unfold prepare_kwargs. fold filtered. fold params.
  pose proof (NoDup_elements params) as Hnodup.
  assert (∀ k, k ∈ elements params ↔ k ∈ params) as Hkeys
    by (intros k; apply elem_of_elements).
  revert Hnodup Hkeys. generalize (elements params). clearbody params.
  intros keys Hnodup Hkeys.
  destruct (fold_outcome keys filtered [] Hnodup) as [Hlog Hfinal].
  split.
  - intros record Hin.
    destruct (Hlog record Hin)
      as [[]%elem_of_nil|(key & text & -> & Hkey & Hbound & Hloads)].
    exists key, text. split_and!; try done. by apply Hkeys.
  - destruct (foldl _ _ keys) as [[final|] log']; cbn [fst snd] in *.
    + destruct Hfinal as (Hout & Hnon & Hstr & _). split_and!.
      * intros key Hkey. apply Hout. by rewrite Hkeys.
      * exact Hnon.
      * intros key text Hkey. apply Hstr. by apply Hkeys.
    + destruct Hfinal as (key & text & Hkey & Hbound & Hloads).
      exists key, text. split_and!; try done. by apply Hkeys.
Qed.

(** What the filter on [None] leaves of the keyword arguments. *)
Lemma filtered_lookup (kwargs : gmap string json) key :
  filter (λ kv : string * json, is_None kv.2 = false) kwargs !! key
  = match kwargs !! key with
    | Some JNull => None
    | other => other
    end.
Proof.
  destruct (kwargs !! key) as [v|] eqn:Hlook.
  - destruct (is_None v) eqn:Hv.
    + destruct v; try discriminate Hv.
      apply map_lookup_filter_None. right. intros v' Hv'.
      rewrite Hlook in Hv'. injection Hv' as <-. done.
    + transitivity (Some v); [|by destruct v].
      apply map_lookup_filter_Some. by split.
  - apply map_lookup_filter_None. by left.
Qed.

End wrapper_calls.

Lemma conversion_parameter_listed key :
  key ∈ ["volumes"; "interfaces"; "security_groups"] →
  key ∈ GcoreDomainHandler.get_json_conversion_parameters.
Proof.
  intros Hkey. unfold GcoreDomainHandler.get_json_conversion_parameters.
  rewrite !elem_of_union, !elem_of_singleton.
  rewrite !elem_of_cons in Hkey.
  destruct Hkey as [->|[->|[->|Hkey]]].
  - left. left. reflexivity.
  - left. right. reflexivity.
  - right. reflexivity.
  - exfalso. exact (proj1 (elem_of_nil key) Hkey).
Qed.

(** C7.  When a wrapped tool is called with one of the parameters
    [volumes], [interfaces] and [security_groups] bound to a string,
    the wrapper tries [json.loads] on it.  The SDK method is called,
    and what it returns is serialized, exactly when [json.loads] raises
    nothing but [JSONDecodeError] on the strings bound to these
    parameters; the method then gets the decoded value, or the string
    itself with a warning logged.  On any other exception of
    [json.loads] the recovery fails: the wrapper raises without calling
    the method and without a warning about the parameter, as the
    [except] clause names [json.JSONDecodeError] only. *)
Theorem json_decoding_recovers_from_JSONDecodeError_only
    (json_loads : string → loads_result)
    (invoke : bound_method → gmap string json → option pyresult)
    (w : wrapper) (kwargs : gmap string json) (key text : string) :
  key ∈ ["volumes"; "interfaces"; "security_groups"] →
  kwargs !! key = Some (JStr text) →
  let c := async_wrapper json_loads invoke w kwargs in
  (call_kwargs c = None
   ↔ ∃ key' text',
       key' ∈ GcoreDomainHandler.get_json_conversion_parameters
       ∧ kwargs !! key' = Some (JStr text')
       ∧ json_loads text' = OtherError)
  ∧ (∀ final,
       call_kwargs c = Some final →
       call_result c = _serialize_result <$> invoke (w_method w) final
       ∧ match json_loads text with
         | Decoded decoded => final !! key = Some decoded
         | JSONDecodeError =>
             final !! key = Some (JStr text)
             ∧ Warning key (w_full_name w) ∈ call_log c
         | OtherError => False
         end)
  ∧ (json_loads text = OtherError →
     call_kwargs c = None ∧ call_result c = None
     ∧ Warning key (w_full_name w) ∉ call_log c).
Proof.
  intros Hkey%conversion_parameter_listed Hbound c. subst c.
  assert (∀ k t, kwargs !! k = Some (JStr t) →
                 filter (λ kv : string * json, is_None kv.2 = false) kwargs
                   !! k = Some (JStr t)) as Hkept.
  { intros k t Hk. by rewrite filtered_lookup, Hk. }
  assert (∀ k t,
            filter (λ kv : string * json, is_None kv.2 = false) kwargs
              !! k = Some (JStr t) → kwargs !! k = Some (JStr t)) as Hfrom.
  { intros k t. rewrite filtered_lookup.
    by destruct (kwargs !! k) as [[]|]. }
  destruct (prepare_kwargs_outcome json_loads (w_full_name w) kwargs)
    as [Hlog Hfinal].
  unfold async_wrapper.
  destruct (prepare_kwargs json_loads (w_full_name w) kwargs)
    as [[final|] log]; cbn [fst snd] in *;
    cbn [call_kwargs call_result call_log].
  - destruct Hfinal as (_ & _ & Hstr).
    split_and!.
    + split; [done|]. intros (key' & text' & Hkey' & Hbound' & Hloads').
      specialize (Hstr key' text' Hkey' (Hkept _ _ Hbound')).
      by rewrite Hloads' in Hstr.
    + intros final' [= <-]. split; [reflexivity|].
      exact (Hstr key text Hkey (Hkept _ _ Hbound)).
    + intros Hloads. specialize (Hstr key text Hkey (Hkept _ _ Hbound)).
      by rewrite Hloads in Hstr.
  - destruct Hfinal as (key' & text' & Hkey' & Hbound' & Hloads').
    split_and!.
    + split; [|done]. intros _. exists key', text'.
      split_and!; try done. by apply Hfrom.
    + intros final' Hfinal'. discriminate Hfinal'.
    + intros Hloads. split_and!; try done.
      intros (key'' & text'' & [= <-] & _ & Hbound'' & Hloads'')%Hlog.
      apply Hfrom in Hbound''. rewrite Hbound in Hbound''.
      injection Hbound'' as <-. congruence.
Qed.

Lemma json_decoding_recovers_from_JSONDecodeError_only_witness :
  "volumes" ∈ ["volumes"; "interfaces"; "security_groups"]
  ∧ kwargs_volumes_digits !! "volumes" = Some (JStr (ones 5000))
  ∧ loads_ones (ones 5000) = OtherError
  ∧ call_kwargs (async_wrapper loads_ones sdk_raises volumes_wrapper
                   kwargs_volumes_digits) = None
  ∧ call_result (async_wrapper loads_ones sdk_raises volumes_wrapper
                   kwargs_volumes_digits) = None
  ∧ Warning "volumes" (w_full_name volumes_wrapper)
      ∉ call_log (async_wrapper loads_ones sdk_raises volumes_wrapper
                    kwargs_volumes_digits).
Proof.
  assert ("volumes" ∈ ["volumes"; "interfaces"; "security_groups"]) as Hkey
    by apply list_elem_of_here.
  assert (kwargs_volumes_digits !! "volumes" = Some (JStr (ones 5000)))
    as Hbound by (vm_compute; reflexivity).
  assert (loads_ones (ones 5000) = OtherError) as Hloads
    by (vm_compute; reflexivity).
  split; [exact Hkey|]. split; [exact Hbound|]. split; [exact Hloads|].
  exact (proj2 (proj2 (json_decoding_recovers_from_JSONDecodeError_only
                         loads_ones sdk_raises volumes_wrapper
                         kwargs_volumes_digits "volumes" (ones 5000)
                         Hkey Hbound))
           Hloads).
Defined.

(** ** Discovery *)

(** Induction over SDK objects, with the hypothesis available for every
    attribute. *)
Lemma sdk_object_nested_ind (P : sdk_object → Prop) :
  (∀ module cls ms attrs,
     Forall (λ attr, P attr.2) attrs → P (SdkObject module cls ms attrs)) →
  ∀ obj, P obj.
Proof.
  intros Hobj. fix IH 1. intros [module cls ms attrs].
  apply Hobj. induction attrs as [|[name attr] attrs IHattrs]; constructor;
    [apply IH|apply IHattrs].
Qed.

Section discovery_facts.

Lemma set_not_nil {V} key (v : V) (d : odict V) : PyDict.set key v d ≠ [].
Proof. destruct d as [|[k w] d]; simpl; [done|]. by case_bool_decide. Qed.

Lemma set_no_empty_entries path (entry : odict method_info) catalog :
  entry ≠ [] → no_empty_entries catalog →
  no_empty_entries (PyDict.set path entry catalog).
Proof.
  intros Hentry. unfold no_empty_entries.
  induction catalog as [|[k e] catalog IH]; intros Hcat; simpl.
  - by constructor.
  - apply Forall_cons in Hcat as [He Hcat].
    case_bool_decide; constructor; auto.
Qed.

Lemma get_no_empty_entries path catalog (entry : odict method_info) :
  no_empty_entries catalog → PyDict.get path catalog = Some entry →
  entry ≠ [].
Proof.
  unfold no_empty_entries.
  induction catalog as [|[k e] catalog IH]; intros Hcat Hget; simpl in *.
  - done.
  - apply Forall_cons in Hcat as [He Hcat].
    case_bool_decide; [by injection Hget as <-|by apply IH].
Qed.

(** The method loop only adds to the entry it is given. *)
Lemma inspect_methods_not_nil skip ms entry :
  entry ≠ [] → (inspect_methods skip ms entry).1 ≠ [].
Proof.
  revert entry. induction ms as [|[name m] ms IH]; intros entry Hentry; simpl.
  - done.
  - case_match; [by apply IH|].
    destruct (bm_inspection m); simpl; [|by apply IH|done].
    apply IH, set_not_nil.
Qed.

(** [_inspect_recursive] never binds a path to an empty table: it
    assigns the entry only when it is not empty. *)
Lemma _inspect_recursive_no_empty_entries obj :
  ∀ path catalog base,
    no_empty_entries catalog →
    no_empty_entries (_inspect_recursive obj path catalog base).1.
Proof.
  induction obj as [module cls ms attrs IHattrs] using sdk_object_nested_ind.
  intros path catalog base Hcat.
  cbn [_inspect_recursive].
  set (current_path := match path with
                       | [] => cls
                       | _ => PyStr.join "." path
                       end).
  destruct (inspect_methods skip_names ms
              (default [] (PyDict.get current_path catalog)))
    as [entry finished] eqn:Hloop.
  destruct finished; cbn [negb fst].
  - (* the method loop finished: the entry is assigned when not empty *)
    assert (no_empty_entries
              match entry with
              | [] => catalog
              | _ :: _ => PyDict.set current_path entry catalog
              end) as Hcat'.
    { destruct entry; [done|]. by apply set_no_empty_entries. }
    revert Hcat'.
    generalize (match entry with
                | [] => catalog
                | _ :: _ => PyDict.set current_path entry catalog
                end).
    clear Hloop Hcat.
    induction attrs as [|[name attr] attrs IH]; intros catalog' Hcat'; [done|].
    apply Forall_cons in IHattrs as [Hattr IHattrs].
    repeat case_match; try by apply IH.
    apply IH; [done|]. by apply Hattr.
  - (* the method loop raised: an aliased entry shows its additions *)
    destruct (PyDict.has current_path catalog) eqn:Hhas; [|done].
    apply set_no_empty_entries; [|done].
    apply has_true_get in Hhas as [entry0 Hentry0].
    rewrite Hentry0 in Hloop. simpl in Hloop.
    replace entry with (inspect_methods skip_names ms entry0).1
      by (by rewrite Hloop).
    apply inspect_methods_not_nil.
    by eapply get_no_empty_entries.
Qed.

End discovery_facts.

(** C4.  On a client whose service [dns] has one public method that
    fails inspection, discovery returns a catalog in which [dns] is
    bound to an empty method table: the loop over a service's own
    methods creates the entry before it tries the inspection.  The same
    object walked as a nested resource leaves no entry, as
    [_inspect_recursive] assigns only non-empty ones. *)
Theorem service_entry_left_empty :
  walk dns_client = Some [("dns", [])]
  ∧ bool_decide (no_empty_entries [("dns", @nil (string * method_info))])
    = false
  ∧ (inspect_sdk_methods dns_client (State ∅ None)).1 = Some 0%nat
  ∧ heap (inspect_sdk_methods dns_client (State ∅ None)).2 !! 0%nat
    = Some [("dns", [])]
  ∧ _inspect_recursive dns_service ["cloud"; "dns"] [] "gcore" = ([], true).
Proof. split_and!; vm_compute; reflexivity. Qed.

(** ** The inspection cache *)

Section cache_facts.

Lemma fresh_loc_not_in (h : gmap loc ResourceMethodsDict) l :
  is_Some (h !! l) → fresh_loc h ≠ l.
Proof.
  intros Hl Heq. apply elem_of_dom in Hl.
  rewrite <- Heq in Hl. exact (is_fresh (dom h) Hl).
Qed.

(** A call on an empty cache walks the graph and stores the result at
    a new location. *)
Lemma inspect_on_empty_cache c h catalog :
  walk c = Some catalog →
  inspect_sdk_methods c (State h None)
  = (Some (fresh_loc h),
     State (<[fresh_loc h := catalog]> h) (Some (fresh_loc h))).
Proof. intros Hwalk. unfold inspect_sdk_methods. simpl. by rewrite Hwalk. Qed.

(** A call on a filled cache returns what is cached. *)
Lemma inspect_on_filled_cache c h cached :
  inspect_sdk_methods c (State h (Some cached))
  = (Some cached, State h (Some cached)).
Proof. reflexivity. Qed.

End cache_facts.

(** C8.  For a fixed object graph, when a discovery call returns a
    catalog, the next call returns the same reference and changes
    nothing; after [clear_inspection_cache] the next call walks the
    graph again and returns another reference, to a catalog with the
    same content as the first, which is the walk's result. *)
Theorem discovery_cached_until_cleared
    (c : client) (st st1 : state) (l1 : loc) :
  cache_from c st →
  inspect_sdk_methods c st = (Some l1, st1) →
  inspect_sdk_methods c st1 = (Some l1, st1)
  ∧ ∃ l2 st2 catalog,
      inspect_sdk_methods c (clear_inspection_cache st1) = (Some l2, st2)
      ∧ l2 ≠ l1
      ∧ heap st2 !! l1 = Some catalog
      ∧ heap st2 !! l2 = Some catalog
      ∧ walk c = Some catalog
      ∧ _resource_methods_cache st2 = Some l2.
Proof.
  destruct st as [h [cached|]]; unfold cache_from; simpl.
  - (* the cache was filled: nothing is walked *)
    intros (catalog & Hcached & Hwalk) [= <- <-].
    split; [done|].
    exists (fresh_loc h), (State (<[fresh_loc h := catalog]> h)
                              (Some (fresh_loc h))), catalog.
    unfold clear_inspection_cache. simpl.
    rewrite (inspect_on_empty_cache _ _ _ Hwalk).
    assert (fresh_loc h ≠ cached) as Hfresh by by apply fresh_loc_not_in.
    split_and!; try done; simpl.
    + by rewrite lookup_insert_ne.
    + apply lookup_insert_eq.
  - (* the cache was empty: this call walked the graph *)
    intros _. unfold inspect_sdk_methods at 1. simpl.
    destruct (walk c) as [catalog|] eqn:Hwalk; [|done].
    intros [= <- <-]. split; [done|].
    set (h1 := <[fresh_loc h := catalog]> h).
    exists (fresh_loc h1), (State (<[fresh_loc h1 := catalog]> h1)
                               (Some (fresh_loc h1))), catalog.
    unfold clear_inspection_cache. simpl.
    rewrite (inspect_on_empty_cache _ _ _ Hwalk).
    assert (h1 !! fresh_loc h = Some catalog) as Hl1
      by apply lookup_insert_eq.
    assert (fresh_loc h1 ≠ fresh_loc h) as Hfresh
      by by apply fresh_loc_not_in.
    split_and!; try done; simpl.
    + by rewrite lookup_insert_ne.
    + apply lookup_insert_eq.
Qed.

Lemma discovery_cached_until_cleared_witness :
  cache_from cloud_client initial_state
  ∧ inspect_sdk_methods cloud_client initial_state
    = (Some 0%nat, State {[ 0%nat := cloud_catalog ]} (Some 0%nat))
  ∧ inspect_sdk_methods cloud_client
      (State {[ 0%nat := cloud_catalog ]} (Some 0%nat))
    = (Some 0%nat, State {[ 0%nat := cloud_catalog ]} (Some 0%nat))
  ∧ ∃ l2 st2 catalog,
      inspect_sdk_methods cloud_client
        (clear_inspection_cache
           (State {[ 0%nat := cloud_catalog ]} (Some 0%nat)))
      = (Some l2, st2)
      ∧ l2 ≠ 0%nat
      ∧ heap st2 !! 0%nat = Some catalog
      ∧ heap st2 !! l2 = Some catalog
      ∧ walk cloud_client = Some catalog
      ∧ _resource_methods_cache st2 = Some l2.
Proof.
  assert (cache_from cloud_client initial_state) as Hcache by exact I.
  assert (inspect_sdk_methods cloud_client initial_state
          = (Some 0%nat, State {[ 0%nat := cloud_catalog ]} (Some 0%nat)))
    as Hfirst by (vm_compute; reflexivity).
  split; [exact Hcache|]. split; [exact Hfirst|].
  exact (discovery_cached_until_cleared cloud_client initial_state
           (State {[ 0%nat := cloud_catalog ]} (Some 0%nat)) 0%nat
           Hcache Hfirst).
Defined.

(* ================================================================== *)
(** * Further properties of the code *)
(* ================================================================== *)

(** ** Order-preserving deduplication *)

Section fromkeys_facts.
Implicit Types (seen l : list string) (x : string).

Lemma dedup_keep_first_elem seen l x :
  x ∈ dedup_keep_first seen l ↔ x ∈ l ∧ x ∉ seen.
Proof.
  revert seen. induction l as [|y l IH]; intros seen; simpl.
  - rewrite elem_of_nil. tauto.
  - case_bool_decide as Hy.
    + rewrite IH, elem_of_cons. split; [tauto|].
      intros [[->|Hx] Hseen]; [done|tauto].
    + rewrite elem_of_cons, IH, !elem_of_cons.
      destruct (decide (x = y)) as [->|Hne]; [tauto|].
      split; [tauto|]. intros [[?|?] ?]; [done|]. right. tauto.
Qed.

Lemma dedup_keep_first_NoDup seen l : NoDup (dedup_keep_first seen l).
Proof.
  revert seen. induction l as [|y l IH]; intros seen; simpl.
  - constructor.
  - case_bool_decide; [apply IH|].
    constructor; [|apply IH].
    rewrite dedup_keep_first_elem, elem_of_cons. tauto.
Qed.

(** Only the members of [seen] matter, not their order. *)
Lemma dedup_keep_first_seen seen1 seen2 l :
  (∀ x, x ∈ seen1 ↔ x ∈ seen2) →
  dedup_keep_first seen1 l = dedup_keep_first seen2 l.
Proof.
  revert seen1 seen2. induction l as [|y l IH]; intros seen1 seen2 Hseen;
    simpl; [done|].
  destruct (decide (y ∈ seen1)) as [Hy|Hy].
  - rewrite (bool_decide_eq_true_2 _ Hy).
    rewrite (bool_decide_eq_true_2 (y ∈ seen2)) by by apply Hseen.
    by apply IH.
  - rewrite (bool_decide_eq_false_2 _ Hy).
    rewrite (bool_decide_eq_false_2 (y ∈ seen2)) by by rewrite <- Hseen.
    f_equal. apply IH. intros x. by rewrite !elem_of_cons, Hseen.
Qed.

Lemma dedup_keep_first_app seen l1 l2 :
  dedup_keep_first seen (l1 ++ l2)
  = dedup_keep_first seen l1 ++ dedup_keep_first (l1 ++ seen) l2.
Proof.
  revert seen. induction l1 as [|y l1 IH]; intros seen; simpl; [done|].
  case_bool_decide as Hy.
  - rewrite IH. f_equal. apply dedup_keep_first_seen.
    intros x. rewrite !elem_of_app, !elem_of_cons, !elem_of_app.
    intuition (subst; tauto).
  - simpl. f_equal. rewrite IH. f_equal. apply dedup_keep_first_seen.
    intros x. rewrite !elem_of_app, !elem_of_cons, !elem_of_app. tauto.
Qed.

Lemma dedup_keep_first_id seen l :
  NoDup l → (∀ x, x ∈ l → x ∉ seen) → dedup_keep_first seen l = l.
Proof.
  revert seen. induction l as [|y l IH]; intros seen Hnodup Hseen;
    simpl; [done|].
  apply NoDup_cons in Hnodup as [Hy Hnodup].
  rewrite bool_decide_eq_false_2 by (apply Hseen; left).
  f_equal. apply IH; [done|]. intros x Hx.
  rewrite elem_of_cons. intros [->|Hin]; [done|].
  by apply (Hseen x); [right|].
Qed.

Lemma fromkeys_elem l x : x ∈ fromkeys l ↔ x ∈ l.
Proof.
  unfold fromkeys. rewrite dedup_keep_first_elem, elem_of_nil. tauto.
Qed.

Lemma fromkeys_NoDup l : NoDup (fromkeys l).
Proof. apply dedup_keep_first_NoDup. Qed.

Lemma fromkeys_id l : NoDup l → fromkeys l = l.
Proof.
  intros Hnodup. apply dedup_keep_first_id; [done|].
  intros x _. apply not_elem_of_nil.
Qed.

Lemma fromkeys_app_prefix l1 l2 :
  NoDup l1 → l1 `prefix_of` fromkeys (l1 ++ l2).
Proof.
  intros Hnodup. unfold fromkeys. rewrite dedup_keep_first_app.
  exists (dedup_keep_first (l1 ++ []) l2). f_equal.
  apply dedup_keep_first_id; [done|]. intros x _. apply not_elem_of_nil.
Qed.

End fromkeys_facts.

(** ** Parsing the configuration string *)

Section parse_facts.
Variable TOOLSETS : gmap string (list string).

Lemma classify_fold (entries acc_t acc_p : list string) :
  foldl (λ '(toolset_names, pattern_filters) entry,
           if bool_decide (is_Some (TOOLSETS !! entry))
           then (toolset_names ++ [entry], pattern_filters)
           else (toolset_names, pattern_filters ++ [entry]))
        (acc_t, acc_p) entries
  = (acc_t ++ filter (λ entry, is_Some (TOOLSETS !! entry)) entries,
     acc_p ++ filter (λ entry, ¬ is_Some (TOOLSETS !! entry)) entries).
Proof.
  revert acc_t acc_p. induction entries as [|e entries IH];
    intros acc_t acc_p; simpl.
  - by rewrite !app_nil_r.
  - rewrite !filter_cons. case_bool_decide as He.
    + rewrite IH, decide_True, decide_False by auto.
      by rewrite <- app_assoc.
    + rewrite IH, decide_False, decide_True by auto.
      by rewrite <- app_assoc.
Qed.

Lemma config_entries_nonempty config_str :
  Forall (λ entry, entry ≠ EmptyString) (config_entries config_str).
Proof.
  unfold config_entries. apply Forall_fmap, Forall_forall.
  intros piece [Hpiece _]%list_elem_of_filter. simpl.
  by destruct (PyStr.strip piece).
Qed.

End parse_facts.

(** X1.  [parse_unified_tool_config] splits the entries of the
    configuration string, in their order, into the ones that are keys
    of [TOOLSETS] (the toolset names) and the others (the pattern
    filters): no entry is put in both lists, none is lost, and no entry
    is empty. *)
Theorem parse_splits_entries_by_toolset_table
    (TOOLSETS : gmap string (list string)) (config_str : string) :
  Config.parse_unified_tool_config TOOLSETS config_str
  = (filter (λ entry, is_Some (TOOLSETS !! entry)) (config_entries config_str),
     filter (λ entry, ¬ is_Some (TOOLSETS !! entry))
            (config_entries config_str))
  ∧ Forall (λ entry, entry ≠ EmptyString) (config_entries config_str)
  ∧ Forall (λ name, is_Some (TOOLSETS !! name))
           (Config.parse_unified_tool_config TOOLSETS config_str).1
  ∧ Forall (λ pattern, TOOLSETS !! pattern = None)
           (Config.parse_unified_tool_config TOOLSETS config_str).2.
Proof.
  assert (Config.parse_unified_tool_config TOOLSETS config_str
          = (filter (λ entry, is_Some (TOOLSETS !! entry))
                    (config_entries config_str),
             filter (λ entry, ¬ is_Some (TOOLSETS !! entry))
                    (config_entries config_str))) as Hparse.
  { unfold Config.parse_unified_tool_config. fold (config_entries config_str).
    by rewrite classify_fold. }
  rewrite Hparse. split_and!; [done|apply config_entries_nonempty|..]; simpl.
  - apply Forall_forall. by intros name [? _]%list_elem_of_filter.
  - apply Forall_forall. intros pattern [Hp _]%list_elem_of_filter.
    by apply eq_None_not_Some.
Qed.

(** ** The structure of a selection *)

Section selection_structure.
Variable TOOLSETS : gmap string (list string).
Variable DEFAULT_TOOLSETS : list string.

(** The toolset names [get_allowed_tools_list] works with are the ones
    [get_active_toolset_names] returns. *)
Lemma allowed_tools_decompose env avail :
  Config.get_allowed_tools_list TOOLSETS DEFAULT_TOOLSETS env avail
  = fromkeys
      (toolset_tools_of TOOLSETS
         (Config.get_active_toolset_names TOOLSETS DEFAULT_TOOLSETS env)
       ++ pattern_tools_of (Config.get_unified_tool_config TOOLSETS env).2
            avail).
Proof.
  unfold Config.get_allowed_tools_list, Config.get_active_toolset_names.
  destruct (env !! Config.UNIFIED_TOOLS_ENV_VAR) as [value|] eqn:Henv.
  - destruct (Config.get_unified_tool_config TOOLSETS env) as [ts ps].
    rewrite (bool_decide_eq_false_2 (Some value = None)) by done.
    rewrite andb_false_r.
    rewrite (bool_decide_eq_true_2 (is_Some (Some value))) by eauto.
    by rewrite orb_true_r.
  - by rewrite (unified_config_unset _ _ Henv).
Qed.

Lemma toolset_accumulation_elem names acc x :
  x ∈ foldl (λ toolset_tools toolset_name,
               match TOOLSETS !! toolset_name with
               | Some tools => toolset_tools ++ tools
               | None => toolset_tools
               end) acc names
  ↔ x ∈ acc
    ∨ ∃ name tools, name ∈ names ∧ TOOLSETS !! name = Some tools ∧ x ∈ tools.
Proof.
  revert acc. induction names as [|name names IH]; intros acc; simpl.
  - split; [by left|]. intros [?|(?&?&[]%elem_of_nil&_)]. done.
  - rewrite IH. split.
    + intros [Hacc|(name'&tools&Hin&Hlook&Hx)].
      * destruct (TOOLSETS !! name) as [tools|] eqn:Hname; [|by left].
        apply elem_of_app in Hacc as [?|?]; [by left|].
        right. exists name, tools. split_and!; [left|done..].
      * right. exists name', tools. split_and!; [by right|done..].
    + intros [Hacc|(name'&tools&Hin&Hlook&Hx)].
      * left. destruct (TOOLSETS !! name); [|done].
        apply elem_of_app. by left.
      * apply elem_of_cons in Hin as [->|Hin].
        -- left. rewrite Hlook. apply elem_of_app. by right.
        -- right. by exists name', tools.
Qed.

Lemma toolset_tools_of_elem names x :
  x ∈ toolset_tools_of TOOLSETS names
  ↔ ∃ name tools, name ∈ names ∧ TOOLSETS !! name = Some tools ∧ x ∈ tools.
Proof.
  unfold toolset_tools_of.
  rewrite fromkeys_elem, toolset_accumulation_elem, elem_of_nil. tauto.
Qed.

Lemma pattern_tools_of_elem patterns avail x :
  x ∈ pattern_tools_of patterns avail
  ↔ ∃ tool_name,
      tool_name ∈ default [] avail
      ∧ Config.matched_by_some patterns tool_name = true
      ∧ x = Settings.generate_short_tool_name tool_name.
Proof.
  unfold pattern_tools_of.
  destruct (bool_decide (patterns ≠ []) && bool_decide (default [] avail ≠ []))
    eqn:Hcond.
  - rewrite list_elem_of_fmap. split.
    + intros (tool_name & -> & [Hm Hin]%list_elem_of_filter). eauto.
    + intros (tool_name & Hin & Hm & ->). exists tool_name.
      split; [done|]. by apply list_elem_of_filter.
  - rewrite elem_of_nil. split; [done|].
    intros (tool_name & Hin & Hm & _).
    apply andb_false_iff in Hcond as [Hp|Ht].
    + apply bool_decide_eq_false in Hp.
      destruct patterns; [discriminate Hm|]. by destruct Hp.
    + apply bool_decide_eq_false in Ht.
      destruct (default [] avail); [by apply elem_of_nil in Hin|].
      by destruct Ht.
Qed.

End selection_structure.

(** X2.  Whatever the tables, the environment and the available names,
    the list [get_allowed_tools_list] returns has no duplicates, starts
    with the tools of the active toolsets in their order, and holds a
    name exactly when it is a tool of an active toolset that the table
    knows or the shortened name of an available name that some pattern
    filter matches: both sources are included in full, toolsets first. *)
Theorem selection_is_toolsets_then_patterns
    (TOOLSETS : gmap string (list string)) (DEFAULT_TOOLSETS : list string)
    (env : Config.environ) (avail : option (list string)) :
  let names :=
    Config.get_active_toolset_names TOOLSETS DEFAULT_TOOLSETS env in
  let patterns := (Config.get_unified_tool_config TOOLSETS env).2 in
  let result :=
    Config.get_allowed_tools_list TOOLSETS DEFAULT_TOOLSETS env avail in
  NoDup result
  ∧ toolset_tools_of TOOLSETS names `prefix_of` result
  ∧ ∀ x, x ∈ result
         ↔ (∃ name tools,
              name ∈ names ∧ TOOLSETS !! name = Some tools ∧ x ∈ tools)
           ∨ (∃ tool_name,
                tool_name ∈ default [] avail
                ∧ Config.matched_by_some patterns tool_name = true
                ∧ x = Settings.generate_short_tool_name tool_name).
Proof.
  intros names patterns result. subst result.
  rewrite allowed_tools_decompose. fold names patterns. split_and!.
  - apply fromkeys_NoDup.
  - apply fromkeys_app_prefix, fromkeys_NoDup.
  - intros x.
    by rewrite fromkeys_elem, elem_of_app, toolset_tools_of_elem,
      pattern_tools_of_elem.
Qed.

(** X3.  Once [GCORE_TOOLS] is set, to whatever value, the default
    toolsets play no part: the selection is the same for any two
    default lists. *)
Theorem set_variable_overrides_defaults
    (TOOLSETS : gmap string (list string)) (defaults1 defaults2 : list string)
    (env : Config.environ) (avail : option (list string)) :
  is_Some (env !! Config.UNIFIED_TOOLS_ENV_VAR) →
  Config.get_allowed_tools_list TOOLSETS defaults1 env avail
  = Config.get_allowed_tools_list TOOLSETS defaults2 env avail
  ∧ Config.get_active_toolset_names TOOLSETS defaults1 env
    = (Config.get_unified_tool_config TOOLSETS env).1.
Proof.
  intros [value Henv].
  assert (∀ defaults,
            Config.get_active_toolset_names TOOLSETS defaults env
            = (Config.get_unified_tool_config TOOLSETS env).1) as Hactive.
  { intros defaults. unfold Config.get_active_toolset_names.
    destruct (Config.get_unified_tool_config TOOLSETS env) as [ts ps].
    rewrite Henv, (bool_decide_eq_true_2 (is_Some (Some value))) by eauto.
    by rewrite orb_true_r. }
  split; [|apply Hactive].
  by rewrite !allowed_tools_decompose, !Hactive.
Qed.

Lemma set_variable_overrides_defaults_witness :
  is_Some (env_create_filter !! Config.UNIFIED_TOOLS_ENV_VAR)
  ∧ Config.get_allowed_tools_list Config.TOOLSETS ["management"]
      env_create_filter (Some ["cloud.volumes.create"])
    = Config.get_allowed_tools_list Config.TOOLSETS ["instances"]
        env_create_filter (Some ["cloud.volumes.create"])
  ∧ Config.get_active_toolset_names Config.TOOLSETS ["management"]
      env_create_filter
    = (Config.get_unified_tool_config Config.TOOLSETS env_create_filter).1.
Proof.
  assert (is_Some (env_create_filter !! Config.UNIFIED_TOOLS_ENV_VAR))
    as Hset by (vm_compute; eauto).
  split; [exact Hset|].
  exact (set_variable_overrides_defaults Config.TOOLSETS
           ["management"] ["instances"] env_create_filter
           (Some ["cloud.volumes.create"]) Hset).
Defined.

(** X4.  When no list of available names is given, or an empty one,
    pattern filters select nothing: the result is the tools of the
    active toolsets alone. *)
Theorem no_available_names_no_pattern_tools
    (TOOLSETS : gmap string (list string)) (DEFAULT_TOOLSETS : list string)
    (env : Config.environ) :
  Config.get_allowed_tools_list TOOLSETS DEFAULT_TOOLSETS env None
  = toolset_tools_of TOOLSETS
      (Config.get_active_toolset_names TOOLSETS DEFAULT_TOOLSETS env)
  ∧ Config.get_allowed_tools_list TOOLSETS DEFAULT_TOOLSETS env (Some [])
    = Config.get_allowed_tools_list TOOLSETS DEFAULT_TOOLSETS env None.
Proof.
  rewrite !allowed_tools_decompose.
  assert (∀ patterns, pattern_tools_of patterns None = []) as Hnone.
  { intros patterns. unfold pattern_tools_of. simpl.
    by destruct (bool_decide (patterns ≠ [])). }
  assert (∀ patterns, pattern_tools_of patterns (Some []) = []) as Hempty.
  { intros patterns. unfold pattern_tools_of. simpl.
    by destruct (bool_decide (patterns ≠ [])). }
  rewrite Hnone, Hempty, app_nil_r. split; [|done].
  apply fromkeys_id, fromkeys_NoDup.
Qed.

(** ** Resources of a selection *)

(** X5.  [derive_allowed_resources] returns the second segments of the
    given names that have one, each once and in increasing order. *)
Theorem derived_resources_sorted_unique (tool_list : list string) :
  Sorted String.le (Config.derive_allowed_resources tool_list)
  ∧ NoDup (Config.derive_allowed_resources tool_list)
  ∧ ∀ resource,
      resource ∈ Config.derive_allowed_resources tool_list
      ↔ ∃ tool first rest,
          tool ∈ tool_list
          ∧ PyStr.split "." tool = first :: resource :: rest.
Proof.
  unfold Config.derive_allowed_resources, sorted_strings. split_and!.
  - apply (Sorted_merge_sort _).
  - rewrite merge_sort_Permutation. apply NoDup_elements.
  - intros resource.
    rewrite merge_sort_Permutation, elem_of_elements, elem_of_list_to_set,
      list_elem_of_omap.
    split.
    + intros (tool & Hin & Hsplit).
      destruct (PyStr.split "." tool) as [|first [|second rest]] eqn:Hparts;
        try done.
      injection Hsplit as ->. eauto.
    + intros (tool & first & rest & Hin & Hsplit).
      exists tool. by rewrite Hsplit.
Qed.

(** ** Splitting and joining dotted names *)

Section split_join_facts.
Implicit Types (s : string) (parts : list string).

Lemma split_not_nil sep s : PyStr.split sep s ≠ [].
Proof.
  destruct s as [|c s]; simpl; [done|].
  case_bool_decide; [done|]. by destruct (PyStr.split sep s).
Qed.

Lemma join_cons_cons sep part part' parts :
  PyStr.join sep (part :: part' :: parts)
  = part +:+ sep +:+ PyStr.join sep (part' :: parts).
Proof. reflexivity. Qed.

(** Joining the pieces of a split gives the string back. *)
Lemma join_split (sep : ascii) s :
  PyStr.join (String sep EmptyString) (PyStr.split sep s) = s.
Proof.
  induction s as [|c s IH]; [done|]. simpl PyStr.split.
  pose proof (split_not_nil sep s) as Hne.
  destruct (PyStr.split sep s) as [|part parts] eqn:Hsplit; [done|].
  case_bool_decide as Hc.
  - subst c. rewrite join_cons_cons, IH. done.
  - destruct parts as [|part' parts].
    + simpl in *. by rewrite IH.
    + rewrite join_cons_cons. rewrite join_cons_cons in IH.
      simpl. by rewrite <- IH.
Qed.

(** The pieces of a split do not hold the separator. *)
Lemma split_parts_no_sep sep s :
  Forall (λ part, PyStr.contains_char sep part = false) (PyStr.split sep s).
Proof.
  induction s as [|c s IH]; simpl; [by repeat constructor|].
  case_bool_decide as Hc; [by constructor|].
  destruct (PyStr.split sep s) as [|part parts]; [|].
  - repeat constructor. simpl. by rewrite bool_decide_eq_false_2.
  - apply Forall_cons in IH as [Hpart Hparts]. constructor; [|done].
    simpl. by rewrite bool_decide_eq_false_2.
Qed.

Lemma split_app_no_sep sep part s :
  PyStr.contains_char sep part = false →
  PyStr.split sep (part +:+ String sep s) = part :: PyStr.split sep s.
Proof.
  induction part as [|c part IH]; intros Hpart.
  - change (EmptyString +:+ String sep s) with (String sep s).
    cbn [PyStr.split]. by rewrite bool_decide_eq_true_2.
  - simpl in Hpart. apply orb_false_elim in Hpart as [Hc Hpart].
    apply bool_decide_eq_false in Hc.
    change (String c part +:+ String sep s)
      with (String c (part +:+ String sep s)).
    cbn [PyStr.split].
    rewrite (bool_decide_eq_false_2 (c = sep)) by done.
    by rewrite IH.
Qed.

Lemma split_no_sep sep part :
  PyStr.contains_char sep part = false → PyStr.split sep part = [part].
Proof.
  induction part as [|c part IH]; intros Hpart; simpl; [done|].
  simpl in Hpart. apply orb_false_elim in Hpart as [Hc Hpart].
  apply bool_decide_eq_false in Hc.
  rewrite (bool_decide_eq_false_2 (c = sep)) by done.
  by rewrite IH.
Qed.

(** Splitting a join of pieces free of the separator gives the pieces
    back. *)
Lemma split_join (sep : ascii) parts :
  parts ≠ [] →
  Forall (λ part, PyStr.contains_char sep part = false) parts →
  PyStr.split sep (PyStr.join (String sep EmptyString) parts) = parts.
Proof.
  induction parts as [|part parts IH]; intros Hne Hparts; [done|].
  apply Forall_cons in Hparts as [Hpart Hparts].
  destruct parts as [|part' parts].
  - by apply split_no_sep.
  - rewrite join_cons_cons.
    change (String sep EmptyString +:+ ?s) with (String sep s).
    rewrite split_app_no_sep by done. f_equal. by apply IH.
Qed.

End split_join_facts.

(** ** More on name shortening *)

(** X6.  A name none of whose segments has an abbreviation, and that
    fits the bound, is returned unchanged. *)
Theorem unmapped_name_unchanged
    (rules : gmap string string) (name : string) (max_len : Z) :
  (∀ part, part ∈ PyStr.split "." name → rules !! part = None) →
  PyStr.len name ≤ max_len →
  Settings.short_name_with rules name max_len = name.
Proof.
  intros Hparts Hlen.
  assert (short_name_untruncated rules name = name) as Huntruncated.
  { unfold short_name_untruncated.
    rewrite <- (join_split "." name) at 2. f_equal.
    rewrite <- (list_fmap_id (PyStr.split "." name)) at 2.
    apply list_fmap_ext. intros i part Hpart. simpl.
    rewrite Hparts; [reflexivity|]. by eapply list_elem_of_lookup_2. }
  rewrite short_name_with_cases, Huntruncated.
  rewrite bool_decide_eq_true_2; [reflexivity|exact Hlen].
Qed.

Lemma unmapped_name_unchanged_witness :
  (∀ part, part ∈ PyStr.split "." "dns.zones.export" →
           Settings.get_shortening_rules !! part = None)
  ∧ PyStr.len "dns.zones.export" ≤ 60
  ∧ Settings.short_name_with Settings.get_shortening_rules
      "dns.zones.export" 60 = "dns.zones.export".
Proof.
  assert (∀ part, part ∈ PyStr.split "." "dns.zones.export" →
                  Settings.get_shortening_rules !! part = None) as Hparts.
  { intros part Hpart. vm_compute in Hpart.
    repeat (apply elem_of_cons in Hpart as [->|Hpart];
            [vm_compute; reflexivity|]).
    by apply elem_of_nil in Hpart. }
  assert (PyStr.len "dns.zones.export" ≤ 60) as Hlen by (vm_compute; discriminate).
  split; [exact Hparts|]. split; [exact Hlen|].
  exact (unmapped_name_unchanged Settings.get_shortening_rules
           "dns.zones.export" 60 Hparts Hlen).
Defined.

Lemma shortening_rules_values_no_dot :
  map_Forall (λ _ short, PyStr.contains_char "." short = false)
             Settings.get_shortening_rules.
Proof. apply (bool_decide_unpack _). vm_compute. reflexivity. Qed.

(** X7.  Shortening keeps the dot-separated format: before truncation,
    the segments of the shortened name are the abbreviations of the
    segments of the name, one for one, as no abbreviation of the
    module's rule table holds a dot. *)
Theorem shortening_keeps_segments (name : string) :
  PyStr.split "."
    (short_name_untruncated Settings.get_shortening_rules name)
  = shorten_part Settings.get_shortening_rules <$> PyStr.split "." name
  ∧ length (PyStr.split "."
              (short_name_untruncated Settings.get_shortening_rules name))
    = length (PyStr.split "." name).
Proof.
  assert (PyStr.split "."
            (short_name_untruncated Settings.get_shortening_rules name)
          = shorten_part Settings.get_shortening_rules
              <$> PyStr.split "." name) as Hsegments.
  { unfold short_name_untruncated. apply split_join.
    - pose proof (split_not_nil "." name).
      by destruct (PyStr.split "." name).
    - apply Forall_fmap. eapply Forall_impl; [apply split_parts_no_sep|].
      intros part Hpart.
      change (PyStr.contains_char "."
                (default part (Settings.get_shortening_rules !! part))
              = false).
      destruct (Settings.get_shortening_rules !! part) as [short|] eqn:Hrule;
        [|exact Hpart].
      exact (shortening_rules_values_no_dot part short Hrule). }
  split; [exact Hsegments|].
  rewrite Hsegments. apply length_fmap.
Qed.

(** X8.  A negative bound is not a bound: the shortened name loses its
    last [-max_len] characters, so its length is the larger of 0 and
    [len + max_len], which exceeds [max_len]. *)
Theorem negative_bound_drops_tail
    (rules : gmap string string) (name : string) (max_len : Z) :
  max_len < 0 →
  PyStr.len (Settings.short_name_with rules name max_len)
  = Z.max 0 (PyStr.len (short_name_untruncated rules name) + max_len)
  ∧ max_len < PyStr.len (Settings.short_name_with rules name max_len).
Proof.
  intros Hneg. rewrite short_name_with_cases.
  assert (0 ≤ PyStr.len (short_name_untruncated rules name)) as Hlen
    by (unfold PyStr.len; lia).
  rewrite bool_decide_eq_false_2 by lia.
  unfold PyStr.slice_to. rewrite bool_decide_eq_false_2 by lia.
  unfold PyStr.len in *. rewrite take_length. lia.
Qed.

Lemma negative_bound_drops_tail_witness :
  -3 < 0
  ∧ PyStr.len (Settings.short_name_with Settings.get_shortening_rules
                 "cloud.instances.create" (-3)) = 12
  ∧ Settings.short_name_with Settings.get_shortening_rules
      "cloud.instances.create" (-3) = "cloud.insts.".
Proof.
  assert (-3 < 0) as Hneg by lia.
  split; [exact Hneg|].
  split; [|vm_compute; reflexivity].
  rewrite (proj1 (negative_bound_drops_tail Settings.get_shortening_rules
                    "cloud.instances.create" (-3) Hneg)).
  vm_compute. reflexivity.
Defined.

(** ** The toolset tables *)

(** X26.  Over the method names the merged toolset table lists,
    shortening is injective and never truncates: no two listed methods
    share a tool name, and every listed name is shortened segment by
    segment only. *)
Theorem listed_names_shorten_without_collision :
  (∀ name,
     name ∈ listed_tool_names
     ↔ ∃ toolset names,
         Config.get_raw_toolsets !! toolset = Some names ∧ name ∈ names)
  ∧ NoDup listed_tool_names
  ∧ length listed_tool_names = 200%nat
  ∧ NoDup (Settings.generate_short_tool_name <$> listed_tool_names)
  ∧ Forall (λ name,
              Settings.generate_short_tool_name name
              = short_name_untruncated Settings.get_shortening_rules name)
           listed_tool_names.
Proof.
  split_and!.
  - intros name. unfold listed_tool_names.
    rewrite elem_of_remove_dups, list_elem_of_bind. split.
    + intros ([toolset names] & Hname & Hlisted).
      apply elem_of_map_to_list in Hlisted. by exists toolset, names.
    + intros (toolset & names & Hlisted & Hname).
      exists (toolset, names). split; [exact Hname|].
      by apply elem_of_map_to_list.
  - apply NoDup_remove_dups.
  - vm_compute. reflexivity.
  - apply (bool_decide_unpack _). vm_compute. reflexivity.
  - apply (bool_decide_unpack _). vm_compute. reflexivity.
Qed.

(** ** Pattern filters: where the prefix match shows *)

Section filter_facts.

Lemma glob_matches_star p m :
  glob_matches (String "*" p) m =
    glob_matches p m ||
    match m with
    | EmptyString => false
    | String c m' => glob_matches (String "*" p) m'
    end.
Proof. by destruct m. Qed.

Lemma glob_matches_literal c p m :
  c ≠ "*"%char →
  glob_matches (String c p) m =
    match m with
    | EmptyString => false
    | String c' m' => bool_decide (c' = c) && glob_matches p m'
    end.
Proof.
  intros Hc. cbn [glob_matches]. by rewrite bool_decide_eq_false_2.
Qed.

Lemma glob_matches_only_star m : glob_matches "*" m = true.
Proof.
  induction m as [|c m IH]; [done|].
  rewrite glob_matches_star, IH. apply orb_true_r.
Qed.

Lemma match_here_only_star m :
  Re.match_here [Re.Star Re.AnyChar] m = true.
Proof. by destruct m. Qed.

(** Under a filter that ends in a star, what [re.match] accepts is
    matched in whole. *)
Lemma match_here_trailing_star p n :
  Re.match_here (glob_items (p +:+ "*")) n = true →
  glob_matches (p +:+ "*") n = true.
Proof.
  revert n. induction p as [|c p IH]; intros n Hm.
  - apply glob_matches_only_star.
  - change (String c p +:+ "*") with (String c (p +:+ "*")) in *.
    destruct (decide (c = "*"%char)) as [->|Hc].
    + change (glob_items (String "*" (p +:+ "*")))
        with (Re.Star Re.AnyChar :: glob_items (p +:+ "*")) in Hm.
      induction n as [|c' n IHn].
      * rewrite match_here_star, orb_false_r in Hm.
        rewrite glob_matches_star, (IH _ Hm). done.
      * rewrite match_here_star in Hm. rewrite glob_matches_star.
        apply orb_true_iff in Hm as [Hm|[_ Hm]%andb_true_iff].
        -- by rewrite (IH _ Hm).
        -- rewrite (IHn Hm). apply orb_true_r.
    + cbn [glob_items] in Hm. rewrite (bool_decide_eq_false_2 _ Hc) in Hm.
      rewrite glob_matches_literal by done.
      destruct n as [|c' n]; [done|].
      cbn [Re.match_here Re.atom_matches] in Hm.
      apply andb_true_iff in Hm as [Hcc Hm].
      by rewrite Hcc, (IH _ Hm).
Qed.

Lemma contains_char_app_star p : PyStr.contains_char "*" (p +:+ "*") = true.
Proof.
  induction p as [|c p IH]; [done|].
  change (String c p +:+ "*") with (String c (p +:+ "*")).
  cbn [PyStr.contains_char]. rewrite IH. apply orb_true_r.
Qed.

(** A match at the start of a name is one at the start of every name
    that extends it. *)
Lemma match_here_app r n suffix :
  Re.match_here r n = true → Re.match_here r (n +:+ suffix) = true.
Proof.
  revert n. induction r as [|[a|a] r IH]; intros n Hm; [done|..].
  - destruct n as [|c n]; [done|].
    change (String c n +:+ suffix) with (String c (n +:+ suffix)).
    cbn [Re.match_here] in *.
    apply andb_true_iff in Hm as [Ha Hm]. by rewrite Ha, (IH _ Hm).
  - induction n as [|c n IHn].
    + rewrite match_here_star, orb_false_r in Hm.
      rewrite match_here_star, (IH _ Hm). done.
    + change (String c n +:+ suffix) with (String c (n +:+ suffix)).
      rewrite match_here_star in Hm. rewrite match_here_star.
      apply orb_true_iff in Hm as [Hm|[Ha Hm]%andb_true_iff].
      * apply (IH _) in Hm.
        change (String c n +:+ suffix) with (String c (n +:+ suffix)) in Hm.
        by rewrite Hm.
      * rewrite Ha, (IHn Hm). apply orb_true_r.
Qed.

(** Read as a pattern, a filter matches itself: a star matches a star. *)
Lemma match_here_self p : Re.match_here (glob_items p) p = true.
Proof.
  induction p as [|c p IH]; [done|].
  destruct (decide (c = "*"%char)) as [->|Hc].
  - change (glob_items (String "*" p))
      with (Re.Star Re.AnyChar :: glob_items p).
    rewrite match_here_star.
    assert (Re.match_here (Re.Star Re.AnyChar :: glob_items p) p = true)
      as Hrest.
    { rewrite match_here_star, IH. done. }
    rewrite Hrest. cbn [Re.atom_matches].
    rewrite (bool_decide_eq_false_2 ("*"%char = LF)) by done.
    apply orb_true_r.
  - cbn [glob_items]. rewrite (bool_decide_eq_false_2 _ Hc).
    cbn [Re.match_here Re.atom_matches].
    by rewrite bool_decide_eq_true_2, IH.
Qed.

End filter_facts.

(** X9.  For a filter that ends in a star, the selection loop and the
    whole-name match agree on every name without a line feed: the
    prefix the regular expression matches is completed by the last
    star. *)
Theorem trailing_star_filter_matches_whole_name (p n : string) :
  PyStr.contains_char LF n = false →
  Config.pattern_matches (p +:+ "*") n = spec_pattern_matches (p +:+ "*") n
  ∧ Config.pattern_matches (p +:+ "*") n = glob_matches (p +:+ "*") n.
Proof.
  intros Hn.
  assert (Config.pattern_matches (p +:+ "*") n = glob_matches (p +:+ "*") n)
    as Hcode.
  { unfold Config.pattern_matches.
    rewrite contains_char_app_star, translated_pattern_matches.
    cbn [andb].
    destruct (glob_matches (p +:+ "*") n) eqn:Hglob.
    - rewrite (match_here_glob_matches _ _ Hn Hglob). apply orb_true_r.
    - apply orb_false_intro.
      + apply bool_decide_eq_false_2. intros <-.
        pose proof (match_here_trailing_star p _
                      (match_here_self (p +:+ "*"))) as Hself.
        congruence.
      + destruct (Re.match_here _ n) eqn:Hm; [|done].
        apply match_here_trailing_star in Hm. congruence. }
  split; [|exact Hcode].
  rewrite Hcode. unfold spec_pattern_matches.
  rewrite contains_char_app_star. cbn [andb].
  destruct (glob_matches (p +:+ "*") n) eqn:Hglob.
  - symmetry. apply orb_true_r.
  - symmetry. apply orb_false_intro; [|done].
    apply bool_decide_eq_false_2. intros <-.
    pose proof (match_here_trailing_star p _
                  (match_here_self (p +:+ "*"))) as Hself.
    congruence.
Qed.

Lemma trailing_star_filter_matches_whole_name_witness :
  PyStr.contains_char LF "cloud.volumes.create" = false
  ∧ Config.pattern_matches ("cloud.volumes." +:+ "*") "cloud.volumes.create"
    = spec_pattern_matches ("cloud.volumes." +:+ "*") "cloud.volumes.create"
  ∧ Config.pattern_matches ("cloud.volumes." +:+ "*") "cloud.volumes.create"
    = glob_matches ("cloud.volumes." +:+ "*") "cloud.volumes.create".
Proof.
  assert (PyStr.contains_char LF "cloud.volumes.create" = false) as Hn
    by (vm_compute; reflexivity).
  split; [exact Hn|].
  exact (trailing_star_filter_matches_whole_name "cloud.volumes."
           "cloud.volumes.create" Hn).
Defined.

(** X10.  A filter with a star that selects a name selects every name
    that extends it: [re.match] looks at a prefix of the name only. *)
Theorem star_filter_selects_extensions (p n suffix : string) :
  PyStr.contains_char "*" p = true →
  Config.pattern_matches p n = true →
  Config.pattern_matches p (n +:+ suffix) = true.
Proof.
  intros Hstar. unfold Config.pattern_matches.
  rewrite Hstar, !translated_pattern_matches. cbn [andb].
  intros [Heq|Hm]%orb_true_iff; apply orb_true_iff; right.
  - apply bool_decide_eq_true in Heq as <-.
    apply match_here_app, match_here_self.
  - by apply match_here_app.
Qed.

Lemma star_filter_selects_extensions_witness :
  PyStr.contains_char "*" "cloud.*.create" = true
  ∧ Config.pattern_matches "cloud.*.create" "cloud.volumes.create" = true
  ∧ Config.pattern_matches "cloud.*.create"
      ("cloud.volumes.create" +:+ "_from_snapshot") = true.
Proof.
  assert (PyStr.contains_char "*" "cloud.*.create" = true) as Hstar
    by (vm_compute; reflexivity).
  assert (Config.pattern_matches "cloud.*.create" "cloud.volumes.create"
          = true) as Hm by (vm_compute; reflexivity).
  split; [exact Hstar|]. split; [exact Hm|].
  exact (star_filter_selects_extensions "cloud.*.create"
           "cloud.volumes.create" "_from_snapshot" Hstar Hm).
Defined.

(** ** Discovery: what the catalog can hold *)

Section catalog_facts.

Lemma dict_set_Forall {V} (P : string * V → Prop) key (v : V) (d : odict V) :
  P (key, v) → Forall P d → Forall P (PyDict.set key v d).
Proof.
  intros Hv. induction d as [|[k w] d IH]; intros Hd; simpl.
  - by constructor.
  - apply Forall_cons in Hd as [Hw Hd].
    case_bool_decide as Hk; [subst k|]; constructor; auto.
Qed.

Lemma dict_get_Forall {V} (P : string * V → Prop) key (v : V) (d : odict V) :
  Forall P d → PyDict.get key d = Some v → P (key, v).
Proof.
  induction d as [|[k w] d IH]; intros Hd Hget; simpl in *; [done|].
  apply Forall_cons in Hd as [Hw Hd].
  case_bool_decide as Hk; [|by apply IH].
  injection Hget as <-. by subst k.
Qed.

Lemma inspect_methods_public skip ms entry :
  public_names entry → public_names (inspect_methods skip ms entry).1.
Proof.
  revert entry. induction ms as [|[name m] ms IH]; intros entry Hentry;
    cbn [inspect_methods]; [done|].
  destruct (PyStr.startswith name "_") eqn:Hname; cbn [orb]; [by apply IH|].
  case_bool_decide; [by apply IH|].
  destruct (bm_inspection m); [|by apply IH|done].
  apply IH. by apply dict_set_Forall.
Qed.

Lemma _inspect_recursive_public obj :
  ∀ path catalog base,
    catalog_public catalog →
    catalog_public (_inspect_recursive obj path catalog base).1.
Proof.
  induction obj as [module cls ms attrs IHattrs] using sdk_object_nested_ind.
  intros path catalog base Hcat.
  cbn [_inspect_recursive].
  set (current_path := match path with
                       | [] => cls
                       | _ => PyStr.join "." path
                       end).
  assert (public_names (default [] (PyDict.get current_path catalog)))
    as Hentry0.
  { destruct (PyDict.get current_path catalog) as [entry0|] eqn:Hget;
      [|by constructor].
    exact (dict_get_Forall (λ e, public_names e.2) _ _ _ Hcat Hget). }
  pose proof (inspect_methods_public skip_names ms _ Hentry0) as Hentry.
  destruct (inspect_methods skip_names ms
              (default [] (PyDict.get current_path catalog)))
    as [entry finished].
  cbn [fst] in Hentry.
  destruct finished; cbn [negb fst].
  - assert (catalog_public
              match entry with
              | [] => catalog
              | _ :: _ => PyDict.set current_path entry catalog
              end) as Hcat'.
    { destruct entry; [done|]. by apply dict_set_Forall. }
    revert Hcat'.
    generalize (match entry with
                | [] => catalog
                | _ :: _ => PyDict.set current_path entry catalog
                end).
    clear Hcat Hentry0 Hentry.
    induction attrs as [|[name attr] attrs IH]; intros catalog' Hcat'; [done|].
    apply Forall_cons in IHattrs as [Hattr IHattrs].
    repeat case_match; try by apply IH.
    apply IH; [done|]. by apply Hattr.
  - destruct (PyDict.has current_path catalog); [|done].
    by apply dict_set_Forall.
Qed.

Lemma inspect_service_attributes_public service attrs catalog base :
  catalog_public catalog →
  catalog_public (inspect_service_attributes service attrs catalog base).1.
Proof.
  revert catalog. induction attrs as [|[name attr] attrs IH];
    intros catalog Hcat; cbn [inspect_service_attributes]; [done|].
  destruct (PyStr.startswith name "_"); [by apply IH|].
  destruct (in_sdk base attr); [|by apply IH].
  pose proof (_inspect_recursive_public attr [service; name] _ base Hcat)
    as Hrec.
  destruct (_inspect_recursive attr [service; name] catalog base)
    as [catalog' finished].
  destruct finished; [by apply IH|done].
Qed.

Lemma inspect_service_methods_public service ms catalog :
  catalog_public catalog →
  catalog_public (inspect_service_methods service ms catalog).1.
Proof.
  revert catalog. induction ms as [|[name m] ms IH]; intros catalog Hcat;
    cbn [inspect_service_methods]; [done|].
  destruct (PyStr.startswith name "_") eqn:Hname; [by apply IH|].
  set (catalog1 := if PyDict.has service catalog then catalog
                   else PyDict.set service [] catalog).
  assert (catalog_public catalog1) as Hcat1.
  { unfold catalog1. destruct (PyDict.has service catalog); [done|].
    apply dict_set_Forall; [constructor|done]. }
  destruct (bm_inspection m); [|by apply IH|done].
  apply IH. apply dict_set_Forall; [|done]. cbn [snd].
  apply dict_set_Forall; [exact Hname|].
  destruct (PyDict.get service catalog1) as [entry|] eqn:Hget;
    [|by constructor].
  exact (dict_get_Forall (λ e, public_names e.2) _ _ _ Hcat1 Hget).
Qed.

Lemma inspect_services_public members catalog base :
  catalog_public catalog →
  catalog_public (inspect_services members catalog base).1.
Proof.
  revert catalog. induction members as [|[service obj] members IH];
    intros catalog Hcat; cbn [inspect_services]; [done|].
  destruct (_ || _); [by apply IH|].
  destruct (negb _); [by apply IH|].
  pose proof (inspect_service_attributes_public service (attributes obj)
                _ base Hcat) as Hattrs.
  destruct (inspect_service_attributes service (attributes obj) catalog base)
    as [catalog1 finished1].
  destruct finished1; cbn [negb]; [|done]. cbn [fst] in Hattrs.
  pose proof (inspect_service_methods_public service (methods obj)
                _ Hattrs) as Hms.
  destruct (inspect_service_methods service (methods obj) catalog1)
    as [catalog2 finished2].
  destruct finished2; cbn [negb]; [apply IH; exact Hms|done].
Qed.

Lemma _inspect_recursive_empty_only_at services obj :
  ∀ path catalog base,
    empty_only_at services catalog →
    empty_only_at services (_inspect_recursive obj path catalog base).1.
Proof.
  induction obj as [module cls ms attrs IHattrs] using sdk_object_nested_ind.
  intros path catalog base Hcat.
  cbn [_inspect_recursive].
  set (current_path := match path with
                       | [] => cls
                       | _ => PyStr.join "." path
                       end).
  destruct (inspect_methods skip_names ms
              (default [] (PyDict.get current_path catalog)))
    as [entry finished] eqn:Hloop.
  destruct finished; cbn [negb fst].
  - assert (empty_only_at services
              match entry with
              | [] => catalog
              | _ :: _ => PyDict.set current_path entry catalog
              end) as Hcat'.
    { destruct entry; [done|]. by apply dict_set_Forall. }
    revert Hcat'.
    generalize (match entry with
                | [] => catalog
                | _ :: _ => PyDict.set current_path entry catalog
                end).
    clear Hloop Hcat.
    induction attrs as [|[name attr] attrs IH]; intros catalog' Hcat'; [done|].
    apply Forall_cons in IHattrs as [Hattr IHattrs].
    repeat case_match; try by apply IH.
    apply IH; [done|]. by apply Hattr.
  - destruct (PyDict.has current_path catalog) eqn:Hhas; [|done].
    apply dict_set_Forall; [|done]. cbn [fst snd]. intros Hempty.
    apply has_true_get in Hhas as [entry0 Hentry0].
    rewrite Hentry0 in Hloop. simpl in Hloop.
    apply (dict_get_Forall (λ e, e.2 = [] → e.1 ∈ services) _ _ _ Hcat Hentry0).
    cbn [snd]. destruct entry0 as [|m0 entry0]; [done|].
    exfalso.
    apply (inspect_methods_not_nil skip_names ms (m0 :: entry0)); [done|].
    by rewrite Hloop.
Qed.

Lemma inspect_service_attributes_empty_only_at services service attrs
    catalog base :
  empty_only_at services catalog →
  empty_only_at services
    (inspect_service_attributes service attrs catalog base).1.
Proof.
  revert catalog. induction attrs as [|[name attr] attrs IH];
    intros catalog Hcat; cbn [inspect_service_attributes]; [done|].
  destruct (PyStr.startswith name "_"); [by apply IH|].
  destruct (in_sdk base attr); [|by apply IH].
  pose proof (_inspect_recursive_empty_only_at services attr
                [service; name] _ base Hcat) as Hrec.
  destruct (_inspect_recursive attr [service; name] catalog base)
    as [catalog' finished].
  destruct finished; [by apply IH|done].
Qed.

Lemma inspect_service_methods_empty_only_at services service ms catalog :
  service ∈ services →
  empty_only_at services catalog →
  empty_only_at services (inspect_service_methods service ms catalog).1.
Proof.
  intros Hservice.
  revert catalog. induction ms as [|[name m] ms IH]; intros catalog Hcat;
    cbn [inspect_service_methods]; [done|].
  destruct (PyStr.startswith name "_"); [by apply IH|].
  set (catalog1 := if PyDict.has service catalog then catalog
                   else PyDict.set service [] catalog).
  assert (empty_only_at services catalog1) as Hcat1.
  { unfold catalog1. destruct (PyDict.has service catalog); [done|].
    by apply dict_set_Forall. }
  destruct (bm_inspection m); [|by apply IH|done].
  apply IH. by apply dict_set_Forall.
Qed.

Lemma inspect_services_empty_only_at services members catalog base :
  (∀ member, member ∈ members → member.1 ∈ services) →
  empty_only_at services catalog →
  empty_only_at services (inspect_services members catalog base).1.
Proof.
  revert catalog. induction members as [|[service obj] members IH];
    intros catalog Hmembers Hcat; cbn [inspect_services]; [done|].
  assert (service ∈ services) as Hservice
    by apply (Hmembers (service, obj)), list_elem_of_here.
  assert (∀ member, member ∈ members → member.1 ∈ services) as Hrest
    by (intros member Hin; by apply Hmembers, list_elem_of_further).
  destruct (_ || _); [by apply IH|].
  destruct (negb _); [by apply IH|].
  pose proof (inspect_service_attributes_empty_only_at services service
                (attributes obj) _ base Hcat) as Hattrs.
  destruct (inspect_service_attributes service (attributes obj) catalog base)
    as [catalog1 finished1].
  destruct finished1; cbn [negb]; [|done]. cbn [fst] in Hattrs.
  pose proof (inspect_service_methods_empty_only_at services service
                (methods obj) _ Hservice Hattrs) as Hms.
  destruct (inspect_service_methods service (methods obj) catalog1)
    as [catalog2 finished2].
  destruct finished2; cbn [negb]; [apply IH; [exact Hrest|exact Hms]|done].
Qed.

Lemma walk_result c catalog :
  walk c = Some catalog →
  ∃ base, catalog = (inspect_services (client_members c) [] base).1.
Proof.
  unfold walk.
  set (base := match client_module c with
               | Some name => _
               | None => _
               end).
  destruct (inspect_services (client_members c) [] base)
    as [catalog' finished] eqn:Hwalk.
  destruct finished; [|done]. intros [= <-]. exists base. by rewrite Hwalk.
Qed.

End catalog_facts.

(** X11.  In a catalog that discovery returns, a resource path bound to
    an empty method table is the name of a member of the client: the
    nested paths [_inspect_recursive] fills are never left empty. *)
Theorem empty_tables_only_at_services
    (c : client) (catalog : ResourceMethodsDict) (path : string) :
  walk c = Some catalog →
  PyDict.get path catalog = Some [] →
  path ∈ (client_members c).*1.
Proof.
  intros [base ->]%walk_result Hget.
  assert (empty_only_at (client_members c).*1
            (inspect_services (client_members c) [] base).1) as Hcat.
  { apply inspect_services_empty_only_at; [|by constructor].
    intros member Hin. apply list_elem_of_fmap. by exists member. }
  by apply (dict_get_Forall (λ e, e.2 = [] → e.1 ∈ (client_members c).*1)
              _ _ _ Hcat Hget).
Qed.

Lemma empty_tables_only_at_services_witness :
  walk dns_client = Some [("dns", [])]
  ∧ PyDict.get "dns" [("dns", @nil (string * method_info))] = Some []
  ∧ "dns" ∈ (client_members dns_client).*1.
Proof.
  assert (walk dns_client = Some [("dns", [])]) as Hwalk
    by (vm_compute; reflexivity).
  assert (PyDict.get "dns" [("dns", @nil (string * method_info))] = Some [])
    as Hget by (vm_compute; reflexivity).
  split; [exact Hwalk|]. split; [exact Hget|].
  exact (empty_tables_only_at_services dns_client _ "dns" Hwalk Hget).
Defined.

(** X12.  No method recorded in a catalog that discovery returns has a
    name starting with an underscore, at a service as at a nested
    path. *)
Theorem discovered_methods_are_public
    (c : client) (catalog : ResourceMethodsDict)
    (path : string) (entry : odict method_info)
    (name : string) (info : method_info) :
  walk c = Some catalog →
  PyDict.get path catalog = Some entry →
  PyDict.get name entry = Some info →
  PyStr.startswith name "_" = false.
Proof.
  intros [base ->]%walk_result Hpath Hname.
  assert (catalog_public (inspect_services (client_members c) [] base).1)
    as Hcat by (apply inspect_services_public; constructor).
  pose proof (dict_get_Forall (λ e, public_names e.2) _ _ _ Hcat Hpath) as Hentry.
  exact (dict_get_Forall (λ m, PyStr.startswith m.1 "_" = false) _ _ _
           Hentry Hname).
Qed.

Lemma discovered_methods_are_public_witness :
  walk cloud_client = Some cloud_catalog
  ∧ PyStr.startswith "create" "_" = false.
Proof.
  assert (walk cloud_client = Some cloud_catalog) as Hwalk
    by (vm_compute; reflexivity).
  split; [exact Hwalk|].
  eapply (discovered_methods_are_public cloud_client cloud_catalog
            "cloud.instances" _ "create" _ Hwalk);
    vm_compute; reflexivity.
Defined.

(** ** The leaves of a catalog *)

Section leaf_facts.
Context {A B : Type}.

Lemma elem_of_list_map_iff (f : A → B) (l : list A) (y : B) :
  y ∈ map f l ↔ ∃ x, y = f x ∧ x ∈ l.
Proof.
  induction l as [|a l IH]; cbn [map].
  - rewrite elem_of_nil. split; [done|]. by intros (x & _ & []%elem_of_nil).
  - rewrite elem_of_cons, IH. split.
    + intros [->|(x & -> & Hx)].
      * exists a. split; [done|]. apply list_elem_of_here.
      * exists x. split; [done|]. by apply list_elem_of_further.
    + intros (x & -> & [->|Hx]%elem_of_cons); [by left|right; eauto].
Qed.

Lemma elem_of_concat_map (f : A → list B) (l : list A) (y : B) :
  y ∈ concat (map f l) ↔ ∃ x, x ∈ l ∧ y ∈ f x.
Proof.
  induction l as [|a l IH]; cbn [map concat].
  - rewrite elem_of_nil. split; [done|]. by intros (x & []%elem_of_nil & _).
  - rewrite elem_of_app, IH. split.
    + intros [Hy|(x & Hx & Hy)].
      * exists a. split; [apply list_elem_of_here|done].
      * exists x. split; [by apply list_elem_of_further|done].
    + intros (x & [->|Hx]%elem_of_cons & Hy); [by left|right; eauto].
Qed.

End leaf_facts.

(** X13.  [iter_sdk_methods] yields one pair for every method of every
    table of the catalog, in the catalog's order, named by the path, a
    dot and the method's name; paths bound to empty tables yield
    nothing. *)
Theorem leaves_are_the_methods_of_the_tables
    (catalog : ResourceMethodsDict) :
  (∀ full method,
     (full, method) ∈ iter_catalog catalog
     ↔ ∃ path entry name info,
         (path, entry) ∈ catalog ∧ (name, info) ∈ entry
         ∧ full = path +:+ "." +:+ name ∧ method = method_obj info)
  ∧ length (iter_catalog catalog)
    = sum_list ((λ e, length e.2) <$> catalog)
  ∧ iter_catalog catalog
    = iter_catalog (filter (λ e, e.2 ≠ []) catalog).
Proof.
  split_and!.
  - intros full method. unfold iter_catalog. rewrite elem_of_concat_map.
    split.
    + intros ([path entry] & Hentry & Hin).
      apply elem_of_list_map_iff in Hin as ([name info] & [= -> ->] & Hinfo).
      by exists path, entry, name, info.
    + intros (path & entry & name & info & Hentry & Hinfo & -> & ->).
      exists (path, entry). split; [done|].
      apply elem_of_list_map_iff. by exists (name, info).
  - unfold iter_catalog.
    induction catalog as [|[path entry] catalog IH]; [done|].
    cbn [map concat fmap list_fmap sum_list snd].
    rewrite length_app, IH. f_equal. apply length_map.
  - unfold iter_catalog.
    induction catalog as [|[path entry] catalog IH]; [done|].
    rewrite filter_cons. cbn [snd].
    destruct (decide (entry ≠ [])) as [Hne|Hnil].
    + cbn [map concat]. by rewrite IH.
    + assert (entry = []) as ->
        by (destruct entry; [reflexivity|exfalso; by apply Hnil]).
      cbn [map concat app]. exact IH.
Qed.

(** ** The cache and the heap *)

(** X14.  [inspect_sdk_methods] never changes a dictionary that already
    exists; a call that raises leaves the state as it was, the cache
    included; a call that returns leaves its result in the cache; and
    [get_all_resources] leaves the same state and, when the cache is
    empty or holds a catalog of the client, returns the resource paths
    of the client's catalog in their order, or raises when discovery
    does. *)
Theorem discovery_keeps_existing_dictionaries (c : client) (st : state) :
  let r := (inspect_sdk_methods c st).1 in
  let st' := (inspect_sdk_methods c st).2 in
  (∀ l, is_Some (heap st !! l) → heap st' !! l = heap st !! l)
  ∧ (r = None → st' = st)
  ∧ (∀ l, r = Some l → _resource_methods_cache st' = Some l)
  ∧ (get_all_resources c st).2 = st'
  ∧ (cache_from c st →
     (get_all_resources c st).1
     = (λ catalog : ResourceMethodsDict, catalog.*1) <$> walk c).
Proof.
  destruct st as [h [cached|]];
    unfold get_all_resources, inspect_sdk_methods, cache_from;
    cbn [_resource_methods_cache heap].
  - cbn [fst snd heap _resource_methods_cache].
    split_and!; try done.
    intros (catalog & Hcached & Hwalk). by rewrite Hcached, Hwalk.
  - destruct (walk c) as [catalog|] eqn:Hwalk;
      cbn [fst snd heap _resource_methods_cache].
    + split_and!; try done.
      * intros l Hl. apply lookup_insert_ne. by apply fresh_loc_not_in.
      * intros _. by rewrite lookup_insert_eq.
    + by split_and!.
Qed.

(** ** Registration: which tools, under which names *)

Section registration_facts.

Lemma dots_to_underscores_no_dot s :
  PyStr.contains_char "." (dots_to_underscores s) = false.
Proof.
  induction s as [|c s IH]; [done|].
  cbn [dots_to_underscores PyStr.contains_char]. rewrite IH, orb_false_r.
  destruct (decide (c = "."%char)) as [->|Hc].
  - reflexivity.
  - rewrite (bool_decide_eq_false_2 (c = "."%char)) by done.
    by apply bool_decide_eq_false_2.
Qed.

Lemma dots_to_underscores_length s :
  PyStr.len (dots_to_underscores s) = PyStr.len s.
Proof.
  unfold PyStr.len. f_equal.
  induction s as [|c s IH]; [done|].
  cbn [dots_to_underscores String.length]. by rewrite IH.
Qed.

Lemma make_wrapper_doc_not_empty method full_name :
  w_doc (make_wrapper method full_name) ≠ EmptyString.
Proof.
  unfold make_wrapper. cbn [w_doc].
  destruct (bm_doc method) as [[|c doc]|]; done.
Qed.

Lemma generate_short_tool_name_fits full_name :
  PyStr.len (Settings.generate_short_tool_name full_name) ≤ 60.
Proof.
  unfold Settings.generate_short_tool_name,
    Settings.generate_short_tool_name_len, Settings.MAX_TOOL_NAME_LEN.
  rewrite short_name_with_bound by done. lia.
Qed.

Lemma omap_length_le {A B} (f : A → option B) (l : list A) :
  (length (omap f l) ≤ length l)%nat.
Proof.
  induction l as [|x l IH]; [done|].
  cbn [omap list_omap]. destruct (f x); cbn [length]; lia.
Qed.

(** A name some filter matches is selected, shortened. *)
Lemma matched_name_is_allowed env avail full_name :
  full_name ∈ avail →
  Config.matched_by_some
    (Config.get_unified_tool_config Config.TOOLSETS env).2 full_name = true →
  Settings.generate_short_tool_name full_name
    ∈ Config.allowed_tools env (Some avail).
Proof.
  intros Hin Hmatch. unfold Config.allowed_tools.
  rewrite allowed_tools_decompose, fromkeys_elem, elem_of_app.
  right. apply pattern_tools_of_elem. by exists full_name.
Qed.

(** The registered tools, one by one. *)
Lemma registered_tools_elem env leaves registered :
  registered ∈ registered_tools env leaves
  ↔ ∃ full_name method,
      (full_name, method) ∈ leaves
      ∧ Settings.generate_short_tool_name full_name
          ∈ Config.allowed_tools env (Some leaves.*1)
      ∧ registered
        = Tool (set_name
                  (dots_to_underscores
                     (Settings.generate_short_tool_name full_name))
                  (make_wrapper method full_name))
               (dots_to_underscores
                  (Settings.generate_short_tool_name full_name))
               (w_doc (make_wrapper method full_name)).
Proof.
  unfold registered_tools. rewrite list_elem_of_omap. split.
  - intros ([full_name method] & Hleaf & Hregister).
    unfold register_one in Hregister.
    case_bool_decide as Hallowed; [|done].
    injection Hregister as <-. apply elem_of_list_to_set in Hallowed.
    by exists full_name, method.
  - intros (full_name & method & Hleaf & Hallowed & ->).
    exists (full_name, method). split; [exact Hleaf|].
    unfold register_one. rewrite bool_decide_eq_true_2; [reflexivity|].
    by apply elem_of_list_to_set.
Qed.

End registration_facts.

(** X15.  Every registered tool is the wrapper of a discovered method
    whose shortened name is selected; its client-facing name is the
    shortened name with underscores for dots, has no dot and at most 60
    characters, and is the wrapper's [__name__]; its description is the
    wrapper's docstring, which is never empty. *)
Theorem registered_tools_are_selected_leaves
    (env : Config.environ) (leaves : list (string * bound_method))
    (registered : tool) :
  registered ∈ registered_tools env leaves →
  PyStr.contains_char "." (tool_name registered) = false
  ∧ PyStr.len (tool_name registered) ≤ 60
  ∧ w_name (tool_fn registered) = tool_name registered
  ∧ tool_description registered = w_doc (tool_fn registered)
  ∧ tool_description registered ≠ EmptyString
  ∧ ∃ full_name method,
      (full_name, method) ∈ leaves
      ∧ w_method (tool_fn registered) = method
      ∧ w_full_name (tool_fn registered) = full_name
      ∧ tool_name registered
        = dots_to_underscores (Settings.generate_short_tool_name full_name)
      ∧ Settings.generate_short_tool_name full_name
          ∈ Config.allowed_tools env (Some leaves.*1).
Proof.
  unfold registered_tools. rewrite list_elem_of_omap.
  intros ([full_name method] & Hleaf & Hregister).
  unfold register_one in Hregister.
  case_bool_decide as Hallowed; [|done].
  injection Hregister as <-. cbn [tool_name tool_fn tool_description].
  apply elem_of_list_to_set in Hallowed.
  split_and!.
  - apply dots_to_underscores_no_dot.
  - rewrite dots_to_underscores_length. apply generate_short_tool_name_fits.
  - reflexivity.
  - reflexivity.
  - apply make_wrapper_doc_not_empty.
  - exists full_name, method. by split_and!.
Qed.

Lemma registered_tools_are_selected_leaves_witness :
  volumes_create_tool
    ∈ registered_tools env_volumes_filter
        [("cloud.volumes.create", volumes_create)]
  ∧ PyStr.contains_char "." (tool_name volumes_create_tool) = false
  ∧ tool_name volumes_create_tool = "cloud_vols_new".
Proof.
  assert (volumes_create_tool
            ∈ registered_tools env_volumes_filter
                [("cloud.volumes.create", volumes_create)]) as Hin.
  { replace (registered_tools env_volumes_filter
               [("cloud.volumes.create", volumes_create)])
      with [volumes_create_tool] by (vm_compute; reflexivity).
    apply list_elem_of_here. }
  split; [exact Hin|].
  split; [|reflexivity].
  exact (proj1 (registered_tools_are_selected_leaves _ _ _ Hin)).
Defined.

(** X16.  Every discovered method whose shortened name is selected, in
    particular every one whose full name a pattern filter of
    [GCORE_TOOLS] matches, is registered, under the shortened name with
    underscores for dots; no more tools are registered than methods are
    discovered. *)
Theorem selected_leaves_are_registered
    (env : Config.environ) (leaves : list (string * bound_method))
    (full_name : string) (method : bound_method) :
  (full_name, method) ∈ leaves →
  Settings.generate_short_tool_name full_name
    ∈ Config.allowed_tools env (Some leaves.*1)
  ∨ Config.matched_by_some
      (Config.get_unified_tool_config Config.TOOLSETS env).2 full_name
    = true →
  (∃ registered,
     registered ∈ registered_tools env leaves
     ∧ w_method (tool_fn registered) = method
     ∧ w_full_name (tool_fn registered) = full_name
     ∧ tool_name registered
       = dots_to_underscores (Settings.generate_short_tool_name full_name))
  ∧ (length (registered_tools env leaves) ≤ length leaves)%nat.
Proof.
  intros Hleaf Hselected.
  assert (Settings.generate_short_tool_name full_name
            ∈ Config.allowed_tools env (Some leaves.*1)) as Hallowed.
  { destruct Hselected as [Hallowed|Hmatch]; [exact Hallowed|].
    apply matched_name_is_allowed; [|exact Hmatch].
    apply list_elem_of_fmap. by exists (full_name, method). }
  split; [|apply omap_length_le].
  eexists. split.
  - unfold registered_tools. apply list_elem_of_omap.
    exists (full_name, method). split; [exact Hleaf|].
    unfold register_one. rewrite bool_decide_eq_true_2; [reflexivity|].
    by apply elem_of_list_to_set.
  - by split_and!.
Qed.

Lemma selected_leaves_are_registered_witness :
  ("cloud.volumes.create", volumes_create)
    ∈ [("cloud.volumes.create", volumes_create)]
  ∧ Config.matched_by_some
      (Config.get_unified_tool_config Config.TOOLSETS env_volumes_filter).2
      "cloud.volumes.create" = true
  ∧ ∃ registered,
      registered ∈ registered_tools env_volumes_filter
                     [("cloud.volumes.create", volumes_create)]
      ∧ w_method (tool_fn registered) = volumes_create
      ∧ w_full_name (tool_fn registered) = "cloud.volumes.create"
      ∧ tool_name registered
        = dots_to_underscores
            (Settings.generate_short_tool_name "cloud.volumes.create").
Proof.
  assert (("cloud.volumes.create", volumes_create)
            ∈ [("cloud.volumes.create", volumes_create)]) as Hleaf
    by apply list_elem_of_here.
  assert (Config.matched_by_some
            (Config.get_unified_tool_config Config.TOOLSETS
               env_volumes_filter).2
            "cloud.volumes.create" = true) as Hmatch
    by (vm_compute; reflexivity).
  split; [exact Hleaf|]. split; [exact Hmatch|].
  exact (proj1 (selected_leaves_are_registered env_volumes_filter _ _ _
                  Hleaf (or_intror Hmatch))).
Defined.

(** ** The keyword arguments of a call *)

(** X17.  The keyword arguments the SDK method is called with, key by
    key.  When [json.loads] raises nothing but [JSONDecodeError] on the
    strings bound to the JSON conversion parameters: an argument that
    is [None] is dropped; a string bound to one of these parameters is
    replaced by what [json.loads] returns, and kept, with a warning,
    when it raises [JSONDecodeError]; every other argument is passed as
    it is; and the warnings logged are those.  Otherwise no keyword
    arguments are made: the exception leaves the wrapper. *)
Theorem call_arguments_key_by_key
    (json_loads : string → loads_result) (full_name : string)
    (kwargs : gmap string json) :
  let params := GcoreDomainHandler.get_json_conversion_parameters in
  match (prepare_kwargs json_loads full_name kwargs).1 with
  | Some final =>
      (∀ key,
         kwargs !! key = None ∨ kwargs !! key = Some JNull →
         final !! key = None)
      ∧ (∀ key text,
           key ∈ params → kwargs !! key = Some (JStr text) →
           match json_loads text with
           | Decoded decoded => final !! key = Some decoded
           | JSONDecodeError => final !! key = Some (JStr text)
           | OtherError => False
           end)
      ∧ (∀ key value,
           kwargs !! key = Some value → value ≠ JNull →
           key ∉ params ∨ (∀ text, value ≠ JStr text) →
           final !! key = Some value)
      ∧ (∀ key,
           Warning key full_name
             ∈ (prepare_kwargs json_loads full_name kwargs).2
           ↔ key ∈ params
             ∧ ∃ text, kwargs !! key = Some (JStr text)
                       ∧ json_loads text = JSONDecodeError)
  | None =>
      ∃ key text,
        key ∈ params ∧ kwargs !! key = Some (JStr text)
        ∧ json_loads text = OtherError
  end.
Proof.
  intros params.
  assert (∀ k t,
            filter (λ kv : string * json, is_None kv.2 = false) kwargs
              !! k = Some (JStr t) ↔ kwargs !! k = Some (JStr t)) as Hstring.
  { intros k t. rewrite filtered_lookup.
    by destruct (kwargs !! k) as [[]|]. }
  destruct (prepare_kwargs_outcome json_loads full_name kwargs)
    as [Hlog Hfinal]. fold params in Hlog, Hfinal.
  destruct (prepare_kwargs json_loads full_name kwargs) as [[final|] log];
    cbn [fst snd] in *.
  - destruct Hfinal as (Hout & Hnon & Hstr). split_and!.
    + intros key Hkey. rewrite Hnon; rewrite filtered_lookup;
        by destruct Hkey as [-> | ->].
    + intros key text Hkey Hbound%Hstring.
      specialize (Hstr key text Hkey Hbound).
      destruct (json_loads text); [done| |done]. by destruct Hstr.
    + intros key value Hbound Hvalue [Hkey|Hother].
      * rewrite Hout by done. rewrite filtered_lookup, Hbound.
        by destruct value.
      * rewrite Hnon; rewrite filtered_lookup, Hbound.
        -- by destruct value.
        -- intros text. destruct value; try done.
           by destruct (Hother s).
    + intros key. split.
      * intros (key' & text & [= <-] & Hkey & Hbound%Hstring & Hloads)%Hlog.
        split; [done|]. by exists text.
      * intros (Hkey & text & Hbound%Hstring & Hloads).
        specialize (Hstr key text Hkey Hbound).
        rewrite Hloads in Hstr. by destruct Hstr.
  - destruct Hfinal as (key & text & Hkey & Hbound%Hstring & Hloads).
    by exists key, text.
Qed.

(** ** Serialized results *)

(** X18.  From an object without a working [model_dump] the serializer
    takes the attributes of [__dict__] that do not start with an
    underscore, in order; a [model_dump] that raises changes nothing;
    the keys of a dictionary are all kept, private-looking or not. *)
Theorem serialized_objects_hide_private_attributes
    (attrs : list (string * pyresult)) (str_repr : string) :
  (∃ entries,
     _serialize_result (RObject None (Some attrs) str_repr) = JObj entries
     ∧ entries.*1
       = filter (λ key, PyStr.startswith key "_" = false) attrs.*1)
  ∧ _serialize_result (RObject (Some None) (Some attrs) str_repr)
    = _serialize_result (RObject None (Some attrs) str_repr)
  ∧ (∃ entries,
       _serialize_result (RDict attrs) = JObj entries
       ∧ entries.*1 = attrs.*1).
Proof.
  split_and!.
  - cbn [_serialize_result]. eexists. split; [reflexivity|].
    induction attrs as [|[key value] attrs IH]; [done|].
    cbn [fmap list_fmap fst]. rewrite filter_cons.
    destruct (PyStr.startswith key "_") eqn:Hkey.
    + rewrite decide_False by done. exact IH.
    + rewrite decide_True by done. cbn [fmap list_fmap fst].
      f_equal. exact IH.
  - reflexivity.
  - cbn [_serialize_result]. eexists. split; [reflexivity|].
    induction attrs as [|[key value] attrs IH]; [done|].
    cbn [fmap list_fmap fst]. f_equal. exact IH.
Qed.

(** ** Start-up: transport and default tools *)

Section startup_facts.

Lemma transport_map_values :
  map_Forall (λ _ transport,
                transport ∈ ["stdio"; "streamable-http"; "sse"])
             Startup._TRANSPORT_MAP.
Proof. apply (bool_decide_unpack _). vm_compute. reflexivity. Qed.

Lemma lower_char_idempotent c :
  Startup.lower_char (Startup.lower_char c) = Startup.lower_char c.
Proof. destruct c as [[] [] [] [] [] [] [] []]; vm_compute; reflexivity. Qed.

Lemma lower_idempotent s : Startup.lower (Startup.lower s) = Startup.lower s.
Proof.
  induction s as [|c s IH]; [done|].
  cbn [Startup.lower]. by rewrite lower_char_idempotent, IH.
Qed.

Lemma management_config env :
  Config.get_unified_tool_config Config.TOOLSETS
    (<[Config.UNIFIED_TOOLS_ENV_VAR := "management"]> env)
  = (["management"], []).
Proof.
  unfold Config.get_unified_tool_config. rewrite lookup_insert_eq.
  vm_compute. reflexivity.
Qed.

Lemma startup_environ_http env :
  Startup.TRANSPORT env ≠ "stdio" →
  env !! Config.UNIFIED_TOOLS_ENV_VAR = None
  ∨ env !! Config.UNIFIED_TOOLS_ENV_VAR = Some EmptyString →
  Startup.startup_environ env
  = <[Config.UNIFIED_TOOLS_ENV_VAR := "management"]> env.
Proof.
  intros Hhttp Htools. unfold Startup.startup_environ.
  rewrite (bool_decide_eq_true_2 _ Hhttp).
  by destruct Htools as [-> | ->].
Qed.

Lemma management_allowed_tools env avail :
  Config.allowed_tools
    (<[Config.UNIFIED_TOOLS_ENV_VAR := "management"]> env) avail
  = toolset_tools_of Config.TOOLSETS ["management"].
Proof.
  unfold Config.allowed_tools. rewrite allowed_tools_decompose.
  unfold Config.get_active_toolset_names.
  rewrite management_config. cbn [snd].
  change (negb (bool_decide (["management"] = @nil string))) with true.
  cbn [orb].
  replace (pattern_tools_of [] avail) with (@nil string)
    by (unfold pattern_tools_of; reflexivity).
  rewrite app_nil_r. apply fromkeys_id. apply fromkeys_NoDup.
Qed.

End startup_facts.

(** X19.  Whatever [GCORE_TRANSPORT] holds, the transport is one of
    [stdio], [streamable-http] and [sse]; a value that is not an alias
    gives [stdio] and the warning, and only such a value does; the
    variable is read without regard to case; in stdio mode, and
    whenever [GCORE_TOOLS] is not empty, start-up leaves the
    environment as it is. *)
Theorem transport_is_always_canonical (env : Config.environ) :
  Startup.TRANSPORT env ∈ ["stdio"; "streamable-http"; "sse"]
  ∧ (Startup.unknown_transport_warning env = true
     → Startup.TRANSPORT env = "stdio")
  ∧ (Startup.unknown_transport_warning env = true
     ↔ Startup._transport_raw env
         ∉ ["stdio"; "http"; "stream"; "streamable-http"; "sse"])
  ∧ (env !! Startup.TRANSPORT_ENV_VAR = None
     → Startup.TRANSPORT env = "stdio"
       ∧ Startup.unknown_transport_warning env = false)
  ∧ (∀ value, env !! Startup.TRANSPORT_ENV_VAR = Some value
              → Startup.TRANSPORT
                  (<[Startup.TRANSPORT_ENV_VAR := Startup.lower value]> env)
                = Startup.TRANSPORT env)
  ∧ (Startup.TRANSPORT env = "stdio" → Startup.startup_environ env = env)
  ∧ (∀ value, env !! Config.UNIFIED_TOOLS_ENV_VAR = Some value
              → value ≠ EmptyString → Startup.startup_environ env = env).
Proof.
  split_and!.
  - unfold Startup.TRANSPORT.
    destruct (Startup._TRANSPORT_MAP !! Startup._transport_raw env)
      as [transport|] eqn:Hlook; [|apply list_elem_of_here].
    exact (transport_map_values _ _ Hlook).
  - unfold Startup.unknown_transport_warning, Startup.TRANSPORT.
    intros Hnone%bool_decide_eq_true. by rewrite Hnone.
  - unfold Startup.unknown_transport_warning.
    rewrite bool_decide_eq_true.
    generalize (Startup._transport_raw env). intros raw.
    rewrite !not_elem_of_cons. split.
    + intros Hnone. split_and!; try (intros ->; discriminate Hnone).
      apply not_elem_of_nil.
    + intros (H1 & H2 & H3 & H4 & H5 & _).
      unfold Startup._TRANSPORT_MAP, dict_of. cbn [foldl fst snd].
      by rewrite !lookup_insert_ne, lookup_empty.
  - intros Hunset.
    unfold Startup.unknown_transport_warning, Startup.TRANSPORT,
      Startup._transport_raw.
    rewrite Hunset. split; vm_compute; reflexivity.
  - intros value Hvalue. unfold Startup.TRANSPORT, Startup._transport_raw.
    rewrite lookup_insert_eq, Hvalue. cbn [default from_option id].
    by rewrite lower_idempotent.
  - intros Hstdio. unfold Startup.startup_environ.
    rewrite (bool_decide_eq_false_2 (Startup.TRANSPORT env ≠ "stdio"));
      [reflexivity|]. by intros [].
  - intros value Hvalue Hne. unfold Startup.startup_environ.
    rewrite Hvalue. destruct value; [done|].
    cbn [PyStr.truthy negb]. by rewrite andb_false_r.
Qed.

(** X20.  Outside stdio mode, when [GCORE_TOOLS] is unset or empty the
    tools selected at start-up are those of the [management] toolset,
    whatever names discovery found: the empty value, which selects
    nothing when read by the selection code, is replaced before it is
    read. *)
Theorem http_mode_defaults_to_management
    (env : Config.environ) (avail : option (list string)) :
  Startup.TRANSPORT env ≠ "stdio" →
  env !! Config.UNIFIED_TOOLS_ENV_VAR = None
  ∨ env !! Config.UNIFIED_TOOLS_ENV_VAR = Some EmptyString →
  Startup.startup_environ env
  = <[Config.UNIFIED_TOOLS_ENV_VAR := "management"]> env
  ∧ Config.allowed_tools (Startup.startup_environ env) avail
    = toolset_tools_of Config.TOOLSETS ["management"]
  ∧ Config.allowed_tools (Startup.startup_environ env) avail ≠ [].
Proof.
  intros Hhttp Htools.
  rewrite (startup_environ_http env Hhttp Htools), management_allowed_tools.
  split; [reflexivity|]. split; [reflexivity|].
  vm_compute. discriminate.
Qed.

Lemma http_mode_defaults_to_management_witness :
  Startup.TRANSPORT {[ "GCORE_TRANSPORT" := "HTTP" ]} ≠ "stdio"
  ∧ ({[ "GCORE_TRANSPORT" := "HTTP" ]} : Config.environ)
      !! Config.UNIFIED_TOOLS_ENV_VAR = None
  ∧ Config.allowed_tools
      (Startup.startup_environ {[ "GCORE_TRANSPORT" := "HTTP" ]}) None
    = toolset_tools_of Config.TOOLSETS ["management"].
Proof.
  assert (Startup.TRANSPORT {[ "GCORE_TRANSPORT" := "HTTP" ]} ≠ "stdio")
    as Hhttp by (vm_compute; discriminate).
  assert (({[ "GCORE_TRANSPORT" := "HTTP" ]} : Config.environ)
            !! Config.UNIFIED_TOOLS_ENV_VAR = None) as Hunset
    by (vm_compute; reflexivity).
  split; [exact Hhttp|]. split; [exact Hunset|].
  exact (proj1 (proj2 (http_mode_defaults_to_management
                         {[ "GCORE_TRANSPORT" := "HTTP" ]} None
                         Hhttp (or_introl Hunset)))).
Defined.

(** X29.  Outside stdio mode, when [GCORE_TOOLS] is unset or empty the
    tools registered at start-up are the wrappers of the discovered
    methods whose shortened name the [management] toolset lists, and no
    others. *)
Theorem http_mode_registers_management_tools
    (env : Config.environ) (leaves : list (string * bound_method))
    (registered : tool) :
  Startup.TRANSPORT env ≠ "stdio" →
  env !! Config.UNIFIED_TOOLS_ENV_VAR = None
  ∨ env !! Config.UNIFIED_TOOLS_ENV_VAR = Some EmptyString →
  registered ∈ Startup.startup_tools env leaves
  ↔ ∃ full_name method management,
      (full_name, method) ∈ leaves
      ∧ Config.TOOLSETS !! "management" = Some management
      ∧ Settings.generate_short_tool_name full_name ∈ management
      ∧ registered
        = Tool (set_name
                  (dots_to_underscores
                     (Settings.generate_short_tool_name full_name))
                  (make_wrapper method full_name))
               (dots_to_underscores
                  (Settings.generate_short_tool_name full_name))
               (w_doc (make_wrapper method full_name)).
Proof.
  intros Hhttp Htools. unfold Startup.startup_tools.
  rewrite registered_tools_elem.
  rewrite (startup_environ_http env Hhttp Htools), management_allowed_tools.
  split.
  - intros (full_name & method & Hleaf & Hallowed & ->).
    apply toolset_tools_of_elem in Hallowed
      as (name & management & Hname & Hmanagement & Hin).
    apply list_elem_of_singleton in Hname as ->.
    by exists full_name, method, management.
  - intros (full_name & method & management & Hleaf & Hmanagement & Hin & ->).
    exists full_name, method. split_and!; [done| |done].
    apply toolset_tools_of_elem. exists "management", management.
    split_and!; [apply list_elem_of_here|done..].
Qed.

Lemma http_mode_registers_management_tools_witness :
  Startup.TRANSPORT {[ "GCORE_TRANSPORT" := "sse" ]} ≠ "stdio"
  ∧ ({[ "GCORE_TRANSPORT" := "sse" ]} : Config.environ)
      !! Config.UNIFIED_TOOLS_ENV_VAR = None
  ∧ projects_list_tool
      ∈ Startup.startup_tools {[ "GCORE_TRANSPORT" := "sse" ]}
          [("cloud.projects.list", projects_list);
           ("cloud.volumes.create", volumes_create)].
Proof.
  assert (Startup.TRANSPORT {[ "GCORE_TRANSPORT" := "sse" ]} ≠ "stdio")
    as Hhttp by (vm_compute; discriminate).
  assert (({[ "GCORE_TRANSPORT" := "sse" ]} : Config.environ)
            !! Config.UNIFIED_TOOLS_ENV_VAR = None) as Hunset
    by (vm_compute; reflexivity).
  split; [exact Hhttp|]. split; [exact Hunset|].
  apply (proj2 (http_mode_registers_management_tools
                  {[ "GCORE_TRANSPORT" := "sse" ]} _ projects_list_tool
                  Hhttp (or_introl Hunset))).
  exists "cloud.projects.list", projects_list.
  eexists. split; [apply list_elem_of_here|].
  split; [vm_compute; reflexivity|].
  split; [|vm_compute; reflexivity].
  vm_compute. apply list_elem_of_further, list_elem_of_here.
Defined.

(** ** TypedDict fragments *)

Section typeddict_facts.

Lemma save_field_documents_only field_names st f :
  documents_only field_names st →
  is_Some (save_field st !! f) → f ∈ field_names.
Proof.
  intros [Hdocs Hcurrent]. unfold save_field.
  destruct (current_field st) as [current|] eqn:Hfield; [|apply Hdocs].
  destruct (current_doc_lines st) as [|line lines]; [apply Hdocs|].
  destruct (PyStr.truthy current); [|apply Hdocs].
  destruct (decide (current = f)) as [<-|Hne].
  - intros _. by apply Hcurrent.
  - rewrite lookup_insert_ne by done. apply Hdocs.
Qed.

Lemma scan_line_documents_only field_names st line :
  documents_only field_names st →
  documents_only field_names (scan_line field_names st line).
Proof.
  intros Hst. unfold scan_line.
  destruct (negb (PyStr.truthy (PyStr.strip line))).
  - split; cbn [field_docs current_field]; [|done].
    intros f. by apply save_field_documents_only.
  - destruct (list_find _ field_names) as [[i field_name]|] eqn:Hfind.
    + split; cbn [field_docs current_field].
      * intros f. by apply save_field_documents_only.
      * intros f [= <-]. apply list_find_Some in Hfind as (Hi & _ & _).
        by eapply list_elem_of_lookup_2.
    + destruct (current_field st) as [current|] eqn:Hfield; [|done].
      destruct (PyStr.truthy current); [|done].
      destruct Hst as [Hdocs Hcurrent].
      split; cbn [field_docs current_field]; [done|].
      rewrite <- Hfield. exact Hcurrent.
Qed.

Lemma scan_documents_only field_names lines st :
  documents_only field_names st →
  documents_only field_names (foldl (scan_line field_names) st lines).
Proof.
  revert st. induction lines as [|line lines IH]; intros st Hst; [done|].
  cbn [foldl]. by apply IH, scan_line_documents_only.
Qed.

End typeddict_facts.

(** X21.  The table [_parse_typeddict_field_docstrings] returns
    describes declared fields only: every key of it is one of the field
    names it was given, and there is none when the docstring is empty or
    no field name is given.  A line [size: Size in GiB] documents the
    field [size]. *)
Theorem field_docstrings_only_for_declared_fields
    (class_docstring : string) (field_names : list string) :
  (∀ f,
     is_Some (_parse_typeddict_field_docstrings class_docstring field_names
                !! f) →
     f ∈ field_names ∧ class_docstring ≠ EmptyString)
  ∧ _parse_typeddict_field_docstrings EmptyString field_names = ∅
  ∧ _parse_typeddict_field_docstrings class_docstring [] = ∅
  ∧ _parse_typeddict_field_docstrings "size: Size in GiB" ["name"; "size"]
    = {[ "size" := "Size in GiB" ]}.
Proof.
  assert (∀ doc names g,
            is_Some (_parse_typeddict_field_docstrings doc names !! g) →
            g ∈ names) as Hdeclared.
  { intros doc names g. unfold _parse_typeddict_field_docstrings.
    destruct (negb (PyStr.truthy doc)).
    - rewrite lookup_empty. by intros [? ?].
    - apply save_field_documents_only, scan_documents_only.
      split; cbn [field_docs current_field]; [|done].
      intros g'. rewrite lookup_empty. by intros [? ?]. }
  split_and!.
  - intros f Hf. split; [by eapply Hdeclared|].
    intros ->. unfold _parse_typeddict_field_docstrings in Hf.
    cbn [PyStr.truthy negb] in Hf. rewrite lookup_empty in Hf.
    by destruct Hf.
  - reflexivity.
  - apply map_empty. intros g. apply eq_None_not_Some. intros Hg.
    apply Hdeclared in Hg. by apply elem_of_nil in Hg.
  - vm_compute. reflexivity.
Qed.


(** ** Which fragments have a description *)

Section description_facts.




End description_facts.


(** ** Domain knowledge in array fragments *)

Section domain_facts.


End domain_facts.



(** ** The rule tables *)

(** X25.  The shortening rules are looked up in the additional table
    first, then in the domain handler's method rules, then in its
    resource rules; the order matters, as the tables disagree: for
    [get_console] the additional rule [get_con] hides the method rule
    [console], and for [members] the additional rule [membs] hides the
    resource rule [mbrs]. *)
Theorem shortening_rule_precedence (part : string) :
  Settings.get_shortening_rules !! part
  = match Settings.additional_rules !! part with
    | Some short => Some short
    | None =>
        match GcoreDomainHandler.get_method_shortening_rules !! part with
        | Some short => Some short
        | None => GcoreDomainHandler.get_resource_shortening_rules !! part
        end
    end
  ∧ Settings.get_shortening_rules !! "get_console" = Some "get_con"
  ∧ GcoreDomainHandler.get_method_shortening_rules !! "get_console"
    = Some "console"
  ∧ Settings.get_shortening_rules !! "members" = Some "membs"
  ∧ GcoreDomainHandler.get_resource_shortening_rules !! "members"
    = Some "mbrs"
  ∧ Settings.generate_short_tool_name "cloud.instances.get_console"
    = "cloud.insts.get_con".
Proof.
  split_and!; try (vm_compute; reflexivity).
  unfold Settings.get_shortening_rules. cbv zeta.
  rewrite !lookup_union, lookup_empty.
  destruct (Settings.additional_rules !! part),
    (GcoreDomainHandler.get_method_shortening_rules !! part),
    (GcoreDomainHandler.get_resource_shortening_rules !! part);
    reflexivity.
Qed.

(** ** The translated pattern, character by character *)

Section translation_facts.

Lemma replace_escaped_is_translate p :
  Re.replace_escaped_star (Re.escape p) = translate_glob p.
Proof.
  induction p as [|c p IH]; [done|].
  cbn [Re.escape translate_glob]. unfold translate_char.
  destruct (decide (c = "*"%char)) as [->|Hstar].
  - change (Re.is_special "*") with true. cbn iota.
    rewrite (bool_decide_eq_true_2 ("*"%char = "*"%char)) by done.
    destruct (Re.escape p) as [|c' rest] eqn:Hescape.
    + rewrite <- IH. reflexivity.
    + rewrite <- IH. reflexivity.
  - rewrite (bool_decide_eq_false_2 _ Hstar).
    destruct (Re.is_special c) eqn:Hspecial.
    + rewrite replace_cons_no_star by (cbn [head_char]; congruence).
      rewrite replace_cons_no_star by apply escape_head_not_star.
      by rewrite IH.
    + rewrite replace_cons_no_star by apply escape_head_not_star.
      by rewrite IH.
Qed.

End translation_facts.

(** X27.  [convert_pattern_to_regex] returns the filter between the two
    anchors with every star turned into [.*], every other special
    character of [re.escape] behind a backslash and every other
    character as it is: the replacement of escaped stars hits the stars
    of the filter and nothing else, a backslash before a star
    included.  The selection loop compiles the same translation, without
    the anchors. *)
Theorem regex_is_the_filter_char_by_char (pattern : string) :
  Config.convert_pattern_to_regex pattern
  = "^" +:+ translate_glob pattern +:+ "$"
  ∧ Re.parse (translate_glob pattern) = Some (glob_items pattern)
  ∧ (∀ name,
       Config.pattern_matches pattern name
       = bool_decide (pattern = name)
         || PyStr.contains_char "*" pattern
            && Re.matches (translate_glob pattern) name)
  ∧ Config.convert_pattern_to_regex "a\*" = "^a\\.*$".
Proof.
  split_and!.
  - unfold Config.convert_pattern_to_regex. cbv zeta.
    by rewrite replace_escaped_is_translate.
  - rewrite <- replace_escaped_is_translate. apply parse_translated_pattern.
  - intros name. unfold Config.pattern_matches.
    by rewrite replace_escaped_is_translate.
  - vm_compute. reflexivity.
Qed.

(** ** Discovery: where the paths of a catalog come from *)

Section path_facts.

Lemma startswith_app s suffix : PyStr.startswith (s +:+ suffix) s = true.
Proof.
  induction s as [|c s IH]; [by destruct suffix|].
  change (String c s +:+ suffix) with (String c (s +:+ suffix)).
  cbn [PyStr.startswith]. by rewrite bool_decide_eq_true_2, IH.
Qed.

Lemma str_append_assoc (s1 s2 s3 : string) :
  (s1 +:+ s2) +:+ s3 = s1 +:+ (s2 +:+ s3).
Proof.
  induction s1 as [|c s1 IH]; [done|].
  change (String c s1 +:+ s2) with (String c (s1 +:+ s2)).
  change (String c (s1 +:+ s2) +:+ s3) with (String c ((s1 +:+ s2) +:+ s3)).
  by rewrite IH.
Qed.

Lemma join_under_service service part rest :
  under_service service (PyStr.join "." (service :: part :: rest)).
Proof.
  right. change (PyStr.join "." (service :: part :: rest))
    with (service +:+ "." +:+ PyStr.join "." (part :: rest)).
  rewrite <- str_append_assoc. apply startswith_app.
Qed.

Lemma _inspect_recursive_paths_under services obj :
  ∀ service part rest catalog base,
    service ∈ services →
    paths_under services catalog →
    paths_under services
      (_inspect_recursive obj (service :: part :: rest) catalog base).1.
Proof.
  induction obj as [module cls ms attrs IHattrs] using sdk_object_nested_ind.
  intros service part rest catalog base Hservice Hcat.
  cbn [_inspect_recursive].
  set (current_path := PyStr.join "." (service :: part :: rest)).
  assert (∃ service', service' ∈ services
                      ∧ under_service service' current_path) as Hpath.
  { exists service. split; [done|]. apply join_under_service. }
  destruct (inspect_methods skip_names ms
              (default [] (PyDict.get current_path catalog)))
    as [entry finished].
  destruct finished; cbn [negb fst].
  - assert (paths_under services
              match entry with
              | [] => catalog
              | _ :: _ => PyDict.set current_path entry catalog
              end) as Hcat'.
    { destruct entry; [done|]. by apply dict_set_Forall. }
    revert Hcat'.
    generalize (match entry with
                | [] => catalog
                | _ :: _ => PyDict.set current_path entry catalog
                end).
    clear Hcat Hpath.
    induction attrs as [|[name attr] attrs IH]; intros catalog' Hcat'; [done|].
    apply Forall_cons in IHattrs as [Hattr IHattrs].
    repeat case_match; try by apply IH.
    apply IH; [done|].
    change ((service :: part :: rest) ++ [name])
      with (service :: part :: (rest ++ [name])).
    by apply Hattr.
  - destruct (PyDict.has current_path catalog); [|done].
    by apply dict_set_Forall.
Qed.

Lemma inspect_service_attributes_paths_under services service attrs
    catalog base :
  service ∈ services →
  paths_under services catalog →
  paths_under services
    (inspect_service_attributes service attrs catalog base).1.
Proof.
  intros Hservice.
  revert catalog. induction attrs as [|[name attr] attrs IH];
    intros catalog Hcat; cbn [inspect_service_attributes]; [done|].
  destruct (PyStr.startswith name "_"); [by apply IH|].
  destruct (in_sdk base attr); [|by apply IH].
  pose proof (_inspect_recursive_paths_under services attr service name []
                _ base Hservice Hcat) as Hrec.
  destruct (_inspect_recursive attr [service; name] catalog base)
    as [catalog' finished].
  destruct finished; [by apply IH|done].
Qed.

Lemma inspect_service_methods_paths_under services service ms catalog :
  service ∈ services →
  paths_under services catalog →
  paths_under services (inspect_service_methods service ms catalog).1.
Proof.
  intros Hservice.
  assert (∃ service', service' ∈ services ∧ under_service service' service)
    as Hpath by (exists service; split; [done|by left]).
  revert catalog. induction ms as [|[name m] ms IH]; intros catalog Hcat;
    cbn [inspect_service_methods]; [done|].
  destruct (PyStr.startswith name "_"); [by apply IH|].
  set (catalog1 := if PyDict.has service catalog then catalog
                   else PyDict.set service [] catalog).
  assert (paths_under services catalog1) as Hcat1.
  { unfold catalog1. destruct (PyDict.has service catalog); [done|].
    by apply dict_set_Forall. }
  destruct (bm_inspection m); [|by apply IH|done].
  apply IH. by apply dict_set_Forall.
Qed.

Lemma inspect_services_paths_under services members catalog base :
  (∀ member, member ∈ members → is_service base member = true →
             member.1 ∈ services) →
  paths_under services catalog →
  paths_under services (inspect_services members catalog base).1.
Proof.
  revert catalog. induction members as [|[service obj] members IH];
    intros catalog Hmembers Hcat; cbn [inspect_services]; [done|].
  assert (∀ member, member ∈ members → is_service base member = true →
                    member.1 ∈ services) as Hrest
    by (intros member Hin; by apply Hmembers, list_elem_of_further).
  pose proof (Hmembers (service, obj) (list_elem_of_here _ _)) as Hservice.
  unfold is_service in Hservice. cbn [fst snd] in Hservice.
  destruct (_ || _); [by apply IH|].
  destruct (in_sdk base obj); cbn [negb]; [|by apply IH].
  specialize (Hservice eq_refl).
  pose proof (inspect_service_attributes_paths_under services service
                (attributes obj) _ base Hservice Hcat) as Hattrs.
  destruct (inspect_service_attributes service (attributes obj) catalog base)
    as [catalog1 finished1].
  destruct finished1; cbn [negb]; [|done]. cbn [fst] in Hattrs.
  pose proof (inspect_service_methods_paths_under services service
                (methods obj) _ Hservice Hattrs) as Hms.
  destruct (inspect_service_methods service (methods obj) catalog1)
    as [catalog2 finished2].
  destruct finished2; cbn [negb]; [apply IH; [exact Hrest|exact Hms]|done].
Qed.

End path_facts.

(** X28.  Every resource path of a catalog that discovery returns is
    the name of a member of the client, or that name followed by a dot
    and more; the member is public, is not one of the names the walk
    skips at the top level ([api_key], [copy], [from_env] and the
    like) and is an object of the SDK. *)
Theorem paths_lie_under_sdk_services
    (c : client) (catalog : ResourceMethodsDict)
    (path : string) (entry : odict method_info) :
  walk c = Some catalog →
  PyDict.get path catalog = Some entry →
  ∃ service obj,
    (service, obj) ∈ client_members c
    ∧ PyStr.startswith service "_" = false
    ∧ (service ∉ skip_top_level)
    ∧ is_Some (module_name obj)
    ∧ (path = service ∨ PyStr.startswith path (service +:+ ".") = true).
Proof.
  intros [base ->]%walk_result Hget.
  set (services := (filter (λ member, is_service base member = true)
                           (client_members c)).*1).
  assert (paths_under services
            (inspect_services (client_members c) [] base).1) as Hcat.
  { apply inspect_services_paths_under; [|by constructor].
    intros member Hin Hservice. apply list_elem_of_fmap.
    exists member. split; [done|]. by apply list_elem_of_filter. }
  destruct (dict_get_Forall (λ e, ∃ service, service ∈ services
                                        ∧ under_service service e.1)
              _ _ _ Hcat Hget) as (service & Hservice & Hunder).
  apply list_elem_of_fmap in Hservice as ([service' obj] & -> & Hmember).
  apply list_elem_of_filter in Hmember as [Hservice Hmember].
  unfold is_service in Hservice. cbn [fst snd] in *.
  apply andb_true_iff in Hservice as [Hpublic Hsdk].
  apply negb_true_iff, orb_false_iff in Hpublic as [Hpublic Hskip].
  apply bool_decide_eq_false in Hskip.
  exists service', obj. split_and!; try done.
  unfold in_sdk in Hsdk. by destruct (module_name obj).
Qed.

Lemma paths_lie_under_sdk_services_witness :
  walk cloud_client = Some cloud_catalog
  ∧ PyDict.get "cloud.instances" cloud_catalog
    = Some [("create",
             MethodInfo [MkParam "name" TStr false] "Create an instance."
               [("name", TStr)] None instances_create)]
  ∧ ∃ service obj,
      (service, obj) ∈ client_members cloud_client
      ∧ PyStr.startswith service "_" = false
      ∧ (service ∉ skip_top_level)
      ∧ is_Some (module_name obj)
      ∧ ("cloud.instances" = service
         ∨ PyStr.startswith "cloud.instances" (service +:+ ".") = true).
Proof.
  assert (walk cloud_client = Some cloud_catalog) as Hwalk
    by (vm_compute; reflexivity).
  assert (PyDict.get "cloud.instances" cloud_catalog
          = Some [("create",
                   MethodInfo [MkParam "name" TStr false]
                     "Create an instance." [("name", TStr)] None
                     instances_create)]) as Hget
    by (vm_compute; reflexivity).
  split; [exact Hwalk|]. split; [exact Hget|].
  exact (paths_lie_under_sdk_services cloud_client cloud_catalog
           "cloud.instances" _ Hwalk Hget).
Defined.
